(** * Facility calendar: seed generator, month grid, filters and request lifecycle

    A shallow embedding of [src/index.tsx]: the seed generator
    ([generateId], [createEvent], [generateInitialData]), the calendar view
    ([days], [filteredEvents], [dayEvents], the cells of the grid and the
    controls of the toolbar), the request form and the edit form, the
    handlers of the application state, the session (login, tabs, dialogs)
    and the schedule assistant.

    The program rests on two libraries, the [Date] objects of JavaScript and
    the functions of date-fns; both are modelled after their definitions.

    Dates.  A [Date] is a mutable object holding one time value, a number of
    milliseconds.  The program only uses the local-time accessors, so a time
    value is an integer number of milliseconds on the local civil time line
    (a fixed offset from UTC; shifts of daylight saving time are outside the
    model, as are invalid dates).  The arithmetic of the [Date] methods
    follows the ECMAScript definitions (Day, TimeWithinDay, DayFromYear,
    YearFromTime, MonthFromTime, DateFromTime, WeekDay, MakeTime, MakeDay,
    MakeDate).

    Objects.  The seed generator changes [Date] objects in place and names
    one of them twice, so there the objects live in a store and the
    generator is a computation over it.  The handlers only make new dates;
    they work on time values.

    The view is given twice: on time values, where its functions are
    plain functions, and over the store, where the dates of the events, the
    reference date and the dates the view makes are objects and the
    functions of date-fns clone their arguments and call setters on the
    clones.  The second shows that a rendering changes no object it is
    given and agrees with the first.

    State.  The event and request collections are React state, replaced by
    [setEvents(prev => ...)] and [setRequests(prev => ...)]; each handler is a
    function from the state before to the state after. *)

From Stdlib Require Import ZArith Lia Bool List String.
From stdpp Require Import base list strings pretty.
Import ListNotations.

Local Open Scope Z_scope.

(** ** ECMAScript time arithmetic *)

Module ES.

Definition msPerSecond : Z := 1000.
Definition msPerMinute : Z := 60000.
Definition msPerHour : Z := 3600000.
Definition msPerDay : Z := 86400000.

Definition Day (t : Z) : Z := t / msPerDay.
Definition TimeWithinDay (t : Z) : Z := t mod msPerDay.

Definition HourFromTime (t : Z) : Z := (t / msPerHour) mod 24.
Definition MinFromTime (t : Z) : Z := (t / msPerMinute) mod 60.
Definition SecFromTime (t : Z) : Z := (t / msPerSecond) mod 60.
Definition msFromTime (t : Z) : Z := t mod msPerSecond.

Definition DaysInYear (y : Z) : Z :=
  if negb (y mod 4 =? 0) then 365
  else if negb (y mod 100 =? 0) then 366
  else if negb (y mod 400 =? 0) then 365
  else 366.

Definition DayFromYear (y : Z) : Z :=
  365 * (y - 1970) + (y - 1969) / 4 - (y - 1901) / 100 + (y - 1601) / 400.

(** ECMAScript defines YearFromTime(t) as the largest [y] whose first day is
    not after [t].  The executable version starts from the estimate given by
    the mean length of a Gregorian year and corrects it by at most one. *)
Definition YearFromDay (n : Z) : Z :=
  let y := 1970 + (400 * n) / 146097 in
  if DayFromYear (y + 1) <=? n then y + 1
  else if DayFromYear y <=? n then y
  else y - 1.

Definition YearFromTime (t : Z) : Z := YearFromDay (Day t).

(** 1 in a leap year, 0 otherwise. *)
Definition leapFlag (y : Z) : Z := if DaysInYear y =? 366 then 1 else 0.

Definition InLeapYear (t : Z) : Z := leapFlag (YearFromTime t).

Definition DayWithinYear (t : Z) : Z := Day t - DayFromYear (YearFromTime t).

(** Number of the day within the year on which month [m] (0-based) starts. *)
Definition FirstDayOfMonth (m leap : Z) : Z :=
  match m with
  | 0 => 0
  | 1 => 31
  | 2 => 59 + leap
  | 3 => 90 + leap
  | 4 => 120 + leap
  | 5 => 151 + leap
  | 6 => 181 + leap
  | 7 => 212 + leap
  | 8 => 243 + leap
  | 9 => 273 + leap
  | 10 => 304 + leap
  | _ => 334 + leap
  end.

Definition MonthOfDayWithinYear (d leap : Z) : Z :=
  if d <? 31 then 0
  else if d <? 59 + leap then 1
  else if d <? 90 + leap then 2
  else if d <? 120 + leap then 3
  else if d <? 151 + leap then 4
  else if d <? 181 + leap then 5
  else if d <? 212 + leap then 6
  else if d <? 243 + leap then 7
  else if d <? 273 + leap then 8
  else if d <? 304 + leap then 9
  else if d <? 334 + leap then 10
  else 11.

Definition MonthFromTime (t : Z) : Z :=
  MonthOfDayWithinYear (DayWithinYear t) (InLeapYear t).

Definition DateFromTime (t : Z) : Z :=
  DayWithinYear t - FirstDayOfMonth (MonthFromTime t) (InLeapYear t) + 1.

(** 0 is Sunday; day 0 (1 January 1970) was a Thursday. *)
Definition WeekDay (t : Z) : Z := (Day t + 4) mod 7.

Definition MakeTime (hour min sec ms : Z) : Z :=
  hour * msPerHour + min * msPerMinute + sec * msPerSecond + ms.

(** MakeDay accepts any month and date: months carry into years and the date
    is an offset from the first of the month. *)
Definition MakeDay (year month date : Z) : Z :=
  let ym := year + month / 12 in
  let mn := month mod 12 in
  DayFromYear ym + FirstDayOfMonth mn (leapFlag ym) + date - 1.

Definition MakeDate (day time : Z) : Z := day * msPerDay + time.

End ES.

Import ES.

(** ** The methods of [Date] on time values

    Each function gives the time value a [Date] object holds after the method
    of the same name has run on an object holding [t]. *)

Module DateValue.

Definition getFullYear (t : Z) : Z := YearFromTime t.
Definition getMonth (t : Z) : Z := MonthFromTime t.
Definition getDate (t : Z) : Z := DateFromTime t.
Definition getDay (t : Z) : Z := WeekDay t.

Definition setDate (t dt : Z) : Z :=
  MakeDate (MakeDay (YearFromTime t) (MonthFromTime t) dt) (TimeWithinDay t).

(** [setHours(hour, min, sec, ms)]; an argument left out keeps the field. *)
Definition setHours (t hour : Z) (min sec ms : option Z) : Z :=
  MakeDate (Day t)
    (MakeTime hour (default (MinFromTime t) min) (default (SecFromTime t) sec)
       (default (msFromTime t) ms)).

Definition setMinutes (t min : Z) : Z :=
  MakeDate (Day t) (MakeTime (HourFromTime t) min (SecFromTime t) (msFromTime t)).

Definition setFullYear (t year month date : Z) : Z :=
  MakeDate (MakeDay year month date) (TimeWithinDay t).

(** [new Date(year, month, date, hours, minutes)]: a year from 0 to 99 stands
    for 1900 + year. *)
Definition fromFields (year month date hours minutes : Z) : Z :=
  let yr := if (0 <=? year) && (year <=? 99) then 1900 + year else year in
  MakeDate (MakeDay yr month date) (MakeTime hours minutes 0 0).

End DateValue.

(** ** Data model *)

Inductive EventCategory := Maintenance | Cleaning | Event.

Inductive Floor := Floor1 | Floor2 | Floor3 | Floor4 | Floor5 | Floor6.

Definition Floor_number (f : Floor) : Z :=
  match f with
  | Floor1 => 1 | Floor2 => 2 | Floor3 => 3
  | Floor4 => 4 | Floor5 => 5 | Floor6 => 6
  end.

Definition EventCategory_eqb (a b : EventCategory) : bool :=
  match a, b with
  | Maintenance, Maintenance | Cleaning, Cleaning | Event, Event => true
  | _, _ => false
  end.

(** [a !== b] on floors compares the numbers. *)
Definition Floor_eqb (a b : Floor) : bool := Floor_number a =? Floor_number b.

Module CalendarEvent.
Record t := mk {
  id : string;
  title : string;
  start : Z;
  end_ : Z;
  category : EventCategory;
  floor : Floor;
  room : string;
  description : option string;
  isRecurring : option bool
}.
End CalendarEvent.

Inductive RequestStatus := pending | approved | rejected.

Module Request.
Record t := mk {
  id : string;
  title : string;
  date : Z;
  category : EventCategory;
  floor : Floor;
  room : string;
  description : string;
  status : RequestStatus;
  submittedBy : option string
}.
End Request.

Module FilterState.
Record t := mk {
  showMaintenance : bool;
  showCleaning : bool;
  showEvents : bool;
  floor : option Floor
}.
End FilterState.

(** ** Date objects and the random source

    The seed generator works on [Date] objects, two of whose variables name the
    same object.  Objects live in a store, a list indexed by the object's
    location; an allocation appends.  [Math.random] is a stream of draws, each
    already turned into the identifier that
    [Math.random().toString(36).substr(2, 9)] makes of it; the store counts
    the draws taken.  The clock gives the time value of [new Date()]. *)

Definition loc := nat.

Record Env := { clock : Z; random : nat -> string }.

Record Mem := { dates : list Z; draws : nat }.

Definition M (A : Type) : Type := Env -> Mem -> A * Mem.

Definition ret {A} (a : A) : M A := fun _ m => (a, m).

Definition bind {A B} (c : M A) (k : A -> M B) : M B :=
  fun env m => let (a, m') := c env m in k a env m'.

Notation "'let*' x ':=' c 'in' k" := (bind c (fun x => k))
  (at level 10, x name, c at level 100, k at level 200).

Definition alloc (v : Z) : M loc :=
  fun _ m => (length (dates m), {| dates := dates m ++ [v]; draws := draws m |}).

Definition load (l : loc) : M Z := fun _ m => (dates m !!! l, m).

Definition store (l : loc) (v : Z) : M unit :=
  fun _ m => (tt, {| dates := <[l := v]> (dates m); draws := draws m |}).

Definition now : M Z := fun env m => (clock env, m).

Definition nextRandomId : M string :=
  fun env m => (random env (draws m), {| dates := dates m; draws := S (draws m) |}).

Fixpoint foldM {A B} (f : A -> B -> M A) (a : A) (l : list B) : M A :=
  match l with
  | [] => ret a
  | x :: l' => let* a' := f a x in foldM f a' l'
  end.

(** The values of [i] in [for (let i = 0; i < n; i++)]. *)
Definition upto (n : nat) : list Z := map Z.of_nat (seq 0 n).

(** *** [Date] objects *)

Module Date.

(** [new Date()] *)
Definition create : M loc := let* t := now in alloc t.

(** [new Date(value)] for a number *)
Definition ofValue (v : Z) : M loc := alloc v.

(** [new Date(date)] for a [Date] object *)
Definition copy (d : loc) : M loc := let* t := load d in alloc t.

(** [new Date(year, month, date)] *)
Definition ofFields (year month date : Z) : M loc :=
  alloc (DateValue.fromFields year month date 0 0).

Definition getFullYear (d : loc) : M Z :=
  let* t := load d in ret (DateValue.getFullYear t).

Definition getMonth (d : loc) : M Z :=
  let* t := load d in ret (DateValue.getMonth t).

Definition getDate (d : loc) : M Z :=
  let* t := load d in ret (DateValue.getDate t).

Definition getDay (d : loc) : M Z :=
  let* t := load d in ret (DateValue.getDay t).

Definition getTime (d : loc) : M Z := load d.

(** The setters change the object and return its new time value. *)
Definition setDate (d : loc) (dt : Z) : M Z :=
  let* t := load d in
  let v := DateValue.setDate t dt in
  let* _ := store d v in
  ret v.

Definition setHours (d : loc) (hour : Z) (min sec ms : option Z) : M Z :=
  let* t := load d in
  let v := DateValue.setHours t hour min sec ms in
  let* _ := store d v in
  ret v.

Definition setMinutes (d : loc) (min : Z) : M Z :=
  let* t := load d in
  let v := DateValue.setMinutes t min in
  let* _ := store d v in
  ret v.

Definition setFullYear (d : loc) (year month date : Z) : M Z :=
  let* t := load d in
  let v := DateValue.setFullYear t year month date in
  let* _ := store d v in
  ret v.

End Date.

(** *** The functions of date-fns the generator calls

    Each clones its argument with [toDate] and changes the clone. *)

Definition toDate (date : loc) : M loc := Date.copy date.

Definition startOfYear (date : loc) : M loc :=
  let* cleanDate := toDate date in
  let* d := Date.ofValue 0 in
  let* year := Date.getFullYear cleanDate in
  let* _ := Date.setFullYear d year 0 1 in
  let* _ := Date.setHours d 0 (Some 0) (Some 0) (Some 0) in
  ret d.

Definition addDays (date : loc) (amount : Z) : M loc :=
  let* d := toDate date in
  if amount =? 0 then ret d
  else
    let* cur := Date.getDate d in
    let* _ := Date.setDate d (cur + amount) in
    ret d.

Definition addWeeks (date : loc) (amount : Z) : M loc :=
  addDays date (amount * 7).

Definition setHours (date : loc) (hours : Z) : M loc :=
  let* d := toDate date in
  let* _ := Date.setHours d hours None None None in
  ret d.

Definition setMinutes (date : loc) (minutes : Z) : M loc :=
  let* d := toDate date in
  let* _ := Date.setMinutes d minutes in
  ret d.

(** ** Seed generator *)

Definition generateId : M string := nextRandomId.

(** [durationHours] is [None] when the caller leaves it out; it then is 1.
    A duration that is given is a whole number of hours here: a fractional
    one, which [setHours] would cut to a whole hour, is outside the model,
    and no call of the program gives one.  The event keeps the time values
    of the two objects made for it, which nothing else refers to. *)
Definition createEvent (title : string) (date : loc) (category : EventCategory)
    (floor : Floor) (room : string) (durationHours : option Z)
    : M CalendarEvent.t :=
  let durationHours := default 1 durationHours in
  let* d := Date.copy date in
  let* d9 := setHours d 9 in
  let* start := setMinutes d9 0 in
  let* end_ := setHours start (9 + durationHours) in
  let* id := generateId in
  let* startValue := Date.getTime start in
  let* endValue := Date.getTime end_ in
  ret {| CalendarEvent.id := id;
         CalendarEvent.title := title;
         CalendarEvent.start := startValue;
         CalendarEvent.end_ := endValue;
         CalendarEvent.category := category;
         CalendarEvent.floor := floor;
         CalendarEvent.room := room;
         CalendarEvent.description := None;
         CalendarEvent.isRecurring := Some true |}.

(** [events.push(createEvent(title, new Date(year, month, date), category,
    floor, room))], the statement that adds an event on a fixed day. *)
Definition pushFixed (events : list CalendarEvent.t) (title : string)
    (year month date : Z) (category : EventCategory) (floor : Floor)
    (room : string) : M (list CalendarEvent.t) :=
  let* d := Date.ofFields year month date in
  let* e := createEvent title d category floor room None in
  ret (events ++ [e]).

(** The body of the loop over the 52 weeks, for the loop variable [i];
    [yearStart] and [current] are the objects the variables of these names
    refer to. *)
Definition weeklyInspection (yearStart current : loc)
    (events : list CalendarEvent.t) (i : Z) : M (list CalendarEvent.t) :=
  let* day := Date.getDay current in
  let* date := Date.getDate current in
  let diff := date - day + (if day =? 0 then -6 else 1) in
  let* v := Date.setDate current diff in
  let* monday := Date.ofValue v in
  let* d := addWeeks yearStart i in
  let* e := createEvent "Chiller Inspection" d Maintenance Floor6 "Rooftop" None in
  ret (events ++ [e]).

Definition generateInitialData : M (list CalendarEvent.t) :=
  let events := [] in
  let* today := Date.create in
  let* yearStart := startOfYear today in
  let* year := Date.getFullYear yearStart in
  (* Maintenance *)
  let* events := pushFixed events "Backflow Inspection" year 0 15 Maintenance Floor1 "Garage/Main Line" in
  let* events := pushFixed events "Backflow Inspection" year 6 15 Maintenance Floor1 "Garage/Main Line" in
  let* events :=
    foldM (fun events i =>
      let* events := pushFixed events "Aroma System Check" year i 1 Maintenance Floor2 "Lobby/Sanctuary" in
      pushFixed events "Elevator Maintenance (Eastern)" year i 5 Maintenance Floor1 "All Floors")
    events (upto 12) in
  (* [let current = yearStart]: the two variables name the same object *)
  let current := yearStart in
  let* events := foldM (weeklyInspection yearStart current) events (upto 52) in
  let* events :=
    foldM (fun events m =>
      pushFixed events "Grease Tank/Hood Clean (Yanky)" year m 10 Maintenance Floor6 "Kitchen")
    events [0; 3; 6; 9] in
  (* Cleaning *)
  let* events :=
    foldM (fun events i =>
      pushFixed events "Carpet Deep Clean" year i 15 Cleaning Floor2 "Sanctuary")
    events (upto 12) in
  let* events := pushFixed events "Exterior Power Washing" year 7 20 Cleaning Floor1 "Exterior" in
  (* Fixed annual events *)
  let* events := pushFixed events "CTeen Jr Kickoff" year 7 24 Event Floor6 "Rooftop Lounge" in
  let* events := pushFixed events "Chanukah Parade (CTeen)" year 11 14 Event Floor1 "Garage/Street" in
  let* events := pushFixed events "Purim Party (CTeen)" year 2 1 Event Floor2 "Sanctuary" in
  let* events := pushFixed events "BMC Orientation" year 8 2 Event Floor3 "Offices/Conf Room" in
  let* events := pushFixed events "BMC Challah Bake" year 10 4 Event Floor2 "Sanctuary Hall" in
  let* events := pushFixed events "BMC Gala" year 4 12 Event Floor6 "Rooftop Ballroom" in
  let* events := pushFixed events "Hebrew School Opening" year 8 7 Event Floor4 "Classrooms" in
  let* events := pushFixed events "Family Chanukah Party" year 11 21 Event Floor2 "Sanctuary" in
  (* Holidays *)
  let* events := pushFixed events "Rosh Hashana - Fabric Cleaning" year 8 15 Cleaning Floor2 "Sanctuary" in
  let* events := pushFixed events "Sukkah Build" year 8 29 Maintenance Floor1 "Courtyard" in
  let* events := pushFixed events "Pesach Chametz Deep Clean" year 3 10 Cleaning Floor6 "Kitchen/All Floors" in
  ret events.


(** ** Calendar view

    The functions of date-fns the view calls, on time values: each clones its
    argument, so the argument keeps its value and the result is a new date. *)

Definition startOfDay (t : Z) : Z :=
  DateValue.setHours t 0 (Some 0) (Some 0) (Some 0).

Definition startOfMonth (t : Z) : Z :=
  let t := DateValue.setDate t 1 in
  DateValue.setHours t 0 (Some 0) (Some 0) (Some 0).

Definition endOfMonth (t : Z) : Z :=
  let month := DateValue.getMonth t in
  let t := DateValue.setFullYear t (DateValue.getFullYear t) (month + 1) 0 in
  DateValue.setHours t 23 (Some 59) (Some 59) (Some 999).

(** The view passes no options, so the week starts on Sunday. *)
Definition weekStartsOn : Z := 0.

Definition startOfWeek (t : Z) : Z :=
  let day := DateValue.getDay t in
  let diff := (if day <? weekStartsOn then 7 else 0) + day - weekStartsOn in
  let t := DateValue.setDate t (DateValue.getDate t - diff) in
  DateValue.setHours t 0 (Some 0) (Some 0) (Some 0).

Definition endOfWeek (t : Z) : Z :=
  let day := DateValue.getDay t in
  let diff := (if day <? weekStartsOn then -7 else 0) + 6 - (day - weekStartsOn) in
  let t := DateValue.setDate t (DateValue.getDate t + diff) in
  DateValue.setHours t 23 (Some 59) (Some 59) (Some 999).

Definition isSameDay (dateLeft dateRight : Z) : bool :=
  startOfDay dateLeft =? startOfDay dateRight.

(** What a call that loops or may throw comes to. *)
Inductive Result (A : Type) :=
  | Ok (a : A)
  | RangeError
  | OutOfFuel.
Arguments Ok {A} a.
Arguments RangeError {A}.
Arguments OutOfFuel {A}.

(** The loop of [eachDayOfInterval]:
    [while (currentDate <= endTime) { dates.push(toDate(currentDate));
       currentDate.setDate(currentDate.getDate() + 1);
       currentDate.setHours(0, 0, 0, 0) }]. *)
Fixpoint eachDayLoop (fuel : nat) (currentDate endTime : Z) : Result (list Z) :=
  match fuel with
  | O => OutOfFuel
  | S fuel' =>
      if currentDate <=? endTime then
        let next :=
          DateValue.setDate currentDate (DateValue.getDate currentDate + 1) in
        let next := DateValue.setHours next 0 (Some 0) (Some 0) (Some 0) in
        match eachDayLoop fuel' next endTime with
        | Ok rest => Ok (currentDate :: rest)
        | RangeError => RangeError
        | OutOfFuel => OutOfFuel
        end
      else Ok []
  end.

(** An interval whose start is after its end is refused with a RangeError
    (later versions of date-fns return its days in reverse order instead; the
    view only passes intervals that run forward, see [days_value]).  The fuel
    is one more than the number of days the interval touches. *)
Definition eachDayOfInterval (start end_ : Z) : Result (list Z) :=
  let endTime := end_ in
  if negb (start <=? endTime) then RangeError
  else
    let currentDate := DateValue.setHours start 0 (Some 0) (Some 0) (Some 0) in
    eachDayLoop (S (Z.to_nat (Day endTime - Day start + 1))) currentDate endTime.

Module CalendarView.

(** [days]: the dates of the month grid for the month of [currentDate]. *)
Definition days (currentDate : Z) : Result (list Z) :=
  let monthStart := startOfMonth currentDate in
  let monthEnd := endOfMonth monthStart in
  let startDate := startOfWeek monthStart in
  let endDate := endOfWeek monthEnd in
  eachDayOfInterval startDate endDate.

(** The predicate of [filteredEvents]; a floor filter that is null, undefined
    or falsy filters nothing. *)
Definition isVisible (filters : FilterState.t) (e : CalendarEvent.t) : bool :=
  if negb (FilterState.showMaintenance filters)
     && EventCategory_eqb (CalendarEvent.category e) Maintenance then false
  else if negb (FilterState.showCleaning filters)
     && EventCategory_eqb (CalendarEvent.category e) Cleaning then false
  else if negb (FilterState.showEvents filters)
     && EventCategory_eqb (CalendarEvent.category e) Event then false
  else if match FilterState.floor filters with
          | Some f =>
              negb (Floor_number f =? 0)
              && negb (Floor_eqb (CalendarEvent.floor e) f)
          | None => false
          end then false
  else true.

Definition filteredEvents (events : list CalendarEvent.t)
    (filters : FilterState.t) : list CalendarEvent.t :=
  List.filter (isVisible filters) events.

Definition dayEvents (filteredEvents : list CalendarEvent.t) (day : Z)
    : list CalendarEvent.t :=
  List.filter (fun e => isSameDay (CalendarEvent.start e) day) filteredEvents.

(** The grid body: every day of [days] with its bucket. *)
Definition grid (currentDate : Z) (events : list CalendarEvent.t)
    (filters : FilterState.t) : Result (list (Z * list CalendarEvent.t)) :=
  match days currentDate with
  | Ok ds =>
      Ok (map (fun day => (day, dayEvents (filteredEvents events filters) day)) ds)
  | RangeError => RangeError
  | OutOfFuel => OutOfFuel
  end.

End CalendarView.

(** ** Calendar view over the store

    The view again, with the [Date] objects in the store.  The array of
    events and the event objects are only read by the view, through
    [filter], [slice], [map] and reads of properties, none of which writes;
    so they are values.  Their dates, the reference date and the dates the
    view makes are handed to functions of date-fns, which call the setters
    of [Date]; these are objects in the store, and an event names its two
    dates by their locations. *)

Module EventObject.
Record t := mk {
  id : string;
  title : string;
  start : loc;
  end_ : loc;
  category : EventCategory;
  floor : Floor;
  room : string;
  description : option string;
  isRecurring : option bool
}.
End EventObject.

Fixpoint filterM {A} (p : A -> M bool) (l : list A) : M (list A) :=
  match l with
  | [] => ret []
  | x :: l' =>
      let* keep := p x in
      let* rest := filterM p l' in
      ret (if keep then x :: rest else rest)
  end.

Fixpoint mapM {A B} (f : A -> M B) (l : list A) : M (list B) :=
  match l with
  | [] => ret []
  | x :: l' =>
      let* y := f x in
      let* rest := mapM f l' in
      ret (y :: rest)
  end.

Module StoreView.

(** The functions of date-fns: each clones its argument with [toDate] and
    calls the setters on the clone. *)
Definition startOfDay (date : loc) : M loc :=
  let* d := toDate date in
  let* _ := Date.setHours d 0 (Some 0) (Some 0) (Some 0) in
  ret d.

Definition startOfMonth (date : loc) : M loc :=
  let* d := toDate date in
  let* _ := Date.setDate d 1 in
  let* _ := Date.setHours d 0 (Some 0) (Some 0) (Some 0) in
  ret d.

Definition endOfMonth (date : loc) : M loc :=
  let* d := toDate date in
  let* month := Date.getMonth d in
  let* year := Date.getFullYear d in
  let* _ := Date.setFullYear d year (month + 1) 0 in
  let* _ := Date.setHours d 23 (Some 59) (Some 59) (Some 999) in
  ret d.

Definition startOfWeek (date : loc) : M loc :=
  let* d := toDate date in
  let* day := Date.getDay d in
  let diff := (if day <? weekStartsOn then 7 else 0) + day - weekStartsOn in
  let* cur := Date.getDate d in
  let* _ := Date.setDate d (cur - diff) in
  let* _ := Date.setHours d 0 (Some 0) (Some 0) (Some 0) in
  ret d.

Definition endOfWeek (date : loc) : M loc :=
  let* d := toDate date in
  let* day := Date.getDay d in
  let diff := (if day <? weekStartsOn then -7 else 0) + 6 - (day - weekStartsOn) in
  let* cur := Date.getDate d in
  let* _ := Date.setDate d (cur + diff) in
  let* _ := Date.setHours d 23 (Some 59) (Some 59) (Some 999) in
  ret d.

Definition isSameDay (dateLeft dateRight : loc) : M bool :=
  let* dateLeftStartOfDay := startOfDay dateLeft in
  let* dateRightStartOfDay := startOfDay dateRight in
  let* l := Date.getTime dateLeftStartOfDay in
  let* r := Date.getTime dateRightStartOfDay in
  ret (l =? r).

(** The loop of [eachDayOfInterval]: [currentDate] is one object, changed in
    place; what is pushed is a clone of it. *)
Fixpoint eachDayLoop (fuel : nat) (currentDate : loc) (endTime : Z)
    (dates : list loc) : M (Result (list loc)) :=
  match fuel with
  | O => ret OutOfFuel
  | S fuel' =>
      let* t := Date.getTime currentDate in
      if t <=? endTime then
        let* d := toDate currentDate in
        let dates := dates ++ [d] in
        let* cur := Date.getDate currentDate in
        let* _ := Date.setDate currentDate (cur + 1) in
        let* _ := Date.setHours currentDate 0 (Some 0) (Some 0) (Some 0) in
        eachDayLoop fuel' currentDate endTime dates
      else ret (Ok dates)
  end.

Definition eachDayOfInterval (start end_ : loc) : M (Result (list loc)) :=
  let* startDate := toDate start in
  let* endDate := toDate end_ in
  let* endTime := Date.getTime endDate in
  let* startTime := Date.getTime startDate in
  if negb (startTime <=? endTime) then ret RangeError
  else
    let currentDate := startDate in
    let* _ := Date.setHours currentDate 0 (Some 0) (Some 0) (Some 0) in
    eachDayLoop (S (Z.to_nat (Day endTime - Day startTime + 1))) currentDate
      endTime [].

(** The predicate of [filteredEvents], which reads the category and the
    floor of an event. *)
Definition isVisible (filters : FilterState.t) (e : EventObject.t) : bool :=
  if negb (FilterState.showMaintenance filters)
     && EventCategory_eqb (EventObject.category e) Maintenance then false
  else if negb (FilterState.showCleaning filters)
     && EventCategory_eqb (EventObject.category e) Cleaning then false
  else if negb (FilterState.showEvents filters)
     && EventCategory_eqb (EventObject.category e) Event then false
  else if match FilterState.floor filters with
          | Some f =>
              negb (Floor_number f =? 0)
              && negb (Floor_eqb (EventObject.floor e) f)
          | None => false
          end then false
  else true.

Definition filteredEvents (events : list EventObject.t)
    (filters : FilterState.t) : list EventObject.t :=
  List.filter (isVisible filters) events.

(** [filteredEvents.filter(e => isSameDay(e.start, day))] *)
Definition dayEvents (filteredEvents : list EventObject.t) (day : loc)
    : M (list EventObject.t) :=
  filterM (fun e => isSameDay (EventObject.start e) day) filteredEvents.

(** One rendering: the four dates of the month, the days, the filtered
    events, and for every day its bucket.  [days] is recomputed at every
    rendering, its dependencies being new objects each time; so is
    [filteredEvents] here, which the program takes from the last rendering
    when events and filters are the same objects.  The styles of the cells
    and the texts, which [isSameMonth], [isToday] and [format] make of the
    days and of the reference date, are not part of the grid; these
    functions are never handed a date of an event. *)
Definition grid (currentDate : loc) (events : list EventObject.t)
    (filters : FilterState.t) : M (Result (list (loc * list EventObject.t))) :=
  let* monthStart := startOfMonth currentDate in
  let* monthEnd := endOfMonth monthStart in
  let* startDate := startOfWeek monthStart in
  let* endDate := endOfWeek monthEnd in
  let* days := eachDayOfInterval startDate endDate in
  let filteredEvents := filteredEvents events filters in
  match days with
  | Ok ds =>
      let* cells :=
        mapM (fun day =>
                let* dayEvents := dayEvents filteredEvents day in
                ret (day, dayEvents))
          ds in
      ret (Ok cells)
  | RangeError => ret RangeError
  | OutOfFuel => ret OutOfFuel
  end.

End StoreView.

(** ** Edit form *)

Module EditEventModal.

(** The form of the edit dialog.  Its date input is required and of type
    date, so the text is year-month-day; [date] holds the three numbers that
    [formData.date.split('-').map(Number)] gives. *)
Record FormData := {
  title : string;
  date : Z * Z * Z;
  category : EventCategory;
  floor : Floor;
  room : string;
  description : string
}.

(** The event [handleSubmit] passes to [onSave]. *)
Definition handleSubmit (event : CalendarEvent.t) (formData : FormData)
    : CalendarEvent.t :=
  let '(y, m, d) := date formData in
  let start := DateValue.fromFields y (m - 1) d 9 0 in
  let end_ := DateValue.setHours start 10 None None None in
  {| CalendarEvent.id := CalendarEvent.id event;
     CalendarEvent.title := title formData;
     CalendarEvent.start := start;
     CalendarEvent.end_ := end_;
     CalendarEvent.category := category formData;
     CalendarEvent.floor := floor formData;
     CalendarEvent.room := room formData;
     CalendarEvent.description := Some (description formData);
     CalendarEvent.isRecurring := CalendarEvent.isRecurring event |}.

End EditEventModal.

(** ** Application state and handlers *)

Module App.

Record State := {
  events : list CalendarEvent.t;
  requests : list Request.t
}.

(** [useState([])] for both collections. *)
Definition initial : State := {| events := []; requests := [] |}.

(** What the request form submits: a request without id and status. *)
Record RequestData := {
  title : string;
  date : Z;
  category : EventCategory;
  floor : Floor;
  room : string;
  description : string
}.

(** [id] is the identifier drawn from [Math.random]. *)
Definition handleSubmitRequest (reqData : RequestData) (id : string)
    (s : State) : State :=
  let newRequest :=
    {| Request.id := id;
       Request.title := title reqData;
       Request.date := date reqData;
       Request.category := category reqData;
       Request.floor := floor reqData;
       Request.room := room reqData;
       Request.description := description reqData;
       Request.status := pending;
       Request.submittedBy := Some "Guest User" |} in
  {| events := events s; requests := newRequest :: requests s |}.

Definition newEvent (req : Request.t) : CalendarEvent.t :=
  {| CalendarEvent.id := Request.id req;
     CalendarEvent.title := Request.title req;
     CalendarEvent.start := Request.date req;
     CalendarEvent.end_ := Request.date req;
     CalendarEvent.category := Request.category req;
     CalendarEvent.floor := Request.floor req;
     CalendarEvent.room := Request.room req;
     CalendarEvent.description := Some (Request.description req);
     CalendarEvent.isRecurring := None |}.

Definition handleApproveRequest (req : Request.t) (s : State) : State :=
  {| events := events s ++ [newEvent req];
     requests :=
       List.filter (fun r => negb (String.eqb (Request.id r) (Request.id req)))
         (requests s) |}.

(** [confirmed] is the answer to the confirmation dialog. *)
Definition handleRejectRequest (confirmed : bool) (req : Request.t)
    (s : State) : State :=
  if confirmed then
    {| events := events s;
       requests :=
         List.filter (fun r => negb (String.eqb (Request.id r) (Request.id req)))
           (requests s) |}
  else s.

Definition handleUpdateEvent (updatedEvent : CalendarEvent.t) (s : State)
    : State :=
  {| events :=
       map (fun e =>
              if String.eqb (CalendarEvent.id e) (CalendarEvent.id updatedEvent)
              then updatedEvent else e)
         (events s);
     requests := requests s |}.

Definition handleDeleteEvent (eventId : string) (s : State) : State :=
  {| events :=
       List.filter (fun e => negb (String.eqb (CalendarEvent.id e) eventId))
         (events s);
     requests := requests s |}.

(** The effect run at start-up: [setEvents(generateInitialData())]. *)
Definition initData (env : Env) (m : Mem) (s : State) : State :=
  {| events := fst (generateInitialData env m); requests := requests s |}.

(** What can happen to the application. *)
Inductive Action :=
  | InitData (env : Env) (m : Mem)
  | SubmitRequest (reqData : RequestData) (id : string)
  | ApproveRequest (req : Request.t)
  | RejectRequest (confirmed : bool) (req : Request.t)
  | SaveEdit (event : CalendarEvent.t) (formData : EditEventModal.FormData)
  | DeleteEvent (eventId : string).

Definition step (s : State) (a : Action) : State :=
  match a with
  | InitData env m => initData env m s
  | SubmitRequest reqData id => handleSubmitRequest reqData id s
  | ApproveRequest req => handleApproveRequest req s
  | RejectRequest confirmed req => handleRejectRequest confirmed req s
  | SaveEdit event formData =>
      handleUpdateEvent (EditEventModal.handleSubmit event formData) s
  | DeleteEvent eventId => handleDeleteEvent eventId s
  end.

Definition run (actions : list Action) : State := fold_left step actions initial.

End App.

(** ** Calendar controls and grid cells *)

(** date-fns [isSameMonth] and [isToday]; [now] is the value of
    [Date.now()]. *)
Definition isSameMonth (dateLeft dateRight : Z) : bool :=
  (DateValue.getFullYear dateLeft =? DateValue.getFullYear dateRight)
  && (DateValue.getMonth dateLeft =? DateValue.getMonth dateRight).

Definition isToday (now date : Z) : bool := isSameDay date now.

Inductive NumberStyle := todayStyle | mutedStyle | plainStyle.

Module CalendarControls.

(** [new Date(currentDate.getFullYear(), currentDate.getMonth() + 1)] and
    its counterpart: the date and the time are left out, so they are the
    first of the month at midnight. *)
Definition nextMonth (currentDate : Z) : Z :=
  DateValue.fromFields (DateValue.getFullYear currentDate)
    (DateValue.getMonth currentDate + 1) 1 0 0.

Definition prevMonth (currentDate : Z) : Z :=
  DateValue.fromFields (DateValue.getFullYear currentDate)
    (DateValue.getMonth currentDate - 1) 1 0 0.

(** The floor select: [value] is [None] for the option "All Floors", whose
    value is the empty string, and the floor of the option otherwise. *)
Definition selectFloor (value : option Floor) (filters : FilterState.t)
    : FilterState.t :=
  {| FilterState.showMaintenance := FilterState.showMaintenance filters;
     FilterState.showCleaning := FilterState.showCleaning filters;
     FilterState.showEvents := FilterState.showEvents filters;
     FilterState.floor := value |}.

Definition toggleMaintenance (filters : FilterState.t) : FilterState.t :=
  {| FilterState.showMaintenance := negb (FilterState.showMaintenance filters);
     FilterState.showCleaning := FilterState.showCleaning filters;
     FilterState.showEvents := FilterState.showEvents filters;
     FilterState.floor := FilterState.floor filters |}.

Definition toggleCleaning (filters : FilterState.t) : FilterState.t :=
  {| FilterState.showMaintenance := FilterState.showMaintenance filters;
     FilterState.showCleaning := negb (FilterState.showCleaning filters);
     FilterState.showEvents := FilterState.showEvents filters;
     FilterState.floor := FilterState.floor filters |}.

Definition toggleEvents (filters : FilterState.t) : FilterState.t :=
  {| FilterState.showMaintenance := FilterState.showMaintenance filters;
     FilterState.showCleaning := FilterState.showCleaning filters;
     FilterState.showEvents := negb (FilterState.showEvents filters);
     FilterState.floor := FilterState.floor filters |}.

(** What the grid body renders for one day: whether the cell is greyed as
    lying outside the month, how the number of the day is styled, the events
    listed ([dayEvents.slice(0, 4)]) and the count of the line "+ n more",
    which is there when [dayEvents.length > 4]. *)
Record Cell := {
  day : Z;
  greyed : bool;
  numberStyle : NumberStyle;
  shown : list CalendarEvent.t;
  more : option nat
}.

Definition cell (monthStart now : Z) (filteredEvents : list CalendarEvent.t)
    (day : Z) : Cell :=
  let dayEvents := CalendarView.dayEvents filteredEvents day in
  {| day := day;
     greyed := negb (isSameMonth day monthStart);
     numberStyle :=
       if isToday now day then todayStyle
       else if negb (isSameMonth day monthStart) then mutedStyle
       else plainStyle;
     shown := take 4 dayEvents;
     more :=
       if (4 <? length dayEvents)%nat then Some (length dayEvents - 4)%nat
       else None |}.

(** The grid body: [days.map(day => ...)]. *)
Definition cells (currentDate now : Z) (events : list CalendarEvent.t)
    (filters : FilterState.t) : Result (list Cell) :=
  match CalendarView.days currentDate with
  | Ok ds =>
      Ok (map (cell (startOfMonth currentDate) now
                 (CalendarView.filteredEvents events filters)) ds)
  | RangeError => RangeError
  | OutOfFuel => OutOfFuel
  end.

End CalendarControls.

(** ** The forms and the time zone

    The request form and the edit dialog go through UTC: a date-only string
    is parsed as midnight UTC and [toISOString] prints the UTC date.  [tz] is
    the offset of local time from UTC in milliseconds (local minus UTC). *)

Module RequestForm.

(** The form of a request; its date input is required and of type date, so
    [date] holds the year, month and day of a valid date. *)
Record FormData := {
  title : string;
  date : Z * Z * Z;
  category : EventCategory;
  floor : Floor;
  room : string;
  description : string
}.

(** [new Date(formData.date)] for a date-only string: midnight UTC of that
    day, here as a local time value. *)
Definition parseDateOnly (tz : Z) (date : Z * Z * Z) : Z :=
  let '(y, m, d) := date in
  MakeDate (MakeDay y (m - 1) d) 0 + tz.

(** What [handleSubmit] passes to [onSubmit]. *)
Definition handleSubmit (tz : Z) (formData : FormData) : App.RequestData :=
  {| App.title := title formData;
     App.date := parseDateOnly tz (date formData);
     App.category := category formData;
     App.floor := floor formData;
     App.room := room formData;
     App.description := description formData |}.

End RequestForm.

Module EditDialog.

(** The numbers [split('-').map(Number)] makes of the date part of
    [toISOString()] for the UTC time value [u].  A year from 0 on prints
    without a minus sign (with a plus sign and six digits from 10000 on) and
    gives year, month and day; a negative year prints with a leading minus
    sign, so the split starts with an empty string, which is the number 0,
    followed by the digits of the year and the month. *)
Definition isoDateParts (u : Z) : Z * Z * Z :=
  let y := YearFromTime u in
  let m := MonthFromTime u + 1 in
  let d := DateFromTime u in
  if y <? 0 then (0, - y, m) else (y, m, d).

(** The initial state of the form of the dialog opened for [event]. *)
Definition initialFormData (tz : Z) (event : CalendarEvent.t)
    : EditEventModal.FormData :=
  {| EditEventModal.title := CalendarEvent.title event;
     EditEventModal.date := isoDateParts (CalendarEvent.start event - tz);
     EditEventModal.category := CalendarEvent.category event;
     EditEventModal.floor := CalendarEvent.floor event;
     EditEventModal.room := CalendarEvent.room event;
     EditEventModal.description :=
       match CalendarEvent.description event with
       | Some d => d
       | None => ""
       end |}.

End EditDialog.

(** ** The application with its session

    The component [App] with its handlers and the conditions under which it
    renders each control.  (After the program, the file holds a second,
    placeholder page, whose only button switches the role without a
    password; it keeps no events and is not part of this model.) *)

Inductive UserRole := viewer | admin.

Inductive Tab := calendarTab | adminTab.

Module AppUI.

Record State := {
  data : App.State;
  currentDate : Z;
  userRole : UserRole;
  activeTab : Tab;
  showRequestModal : bool;
  editingEvent : option CalendarEvent.t;
  showLoginModal : bool;
  loginPassword : string;
  filters : FilterState.t
}.

(** The initial values of the [useState] calls; [now] is the time of the
    first render. *)
Definition initial (now : Z) : State :=
  {| data := App.initial;
     currentDate := now;
     userRole := viewer;
     activeTab := calendarTab;
     showRequestModal := false;
     editingEvent := None;
     showLoginModal := false;
     loginPassword := "";
     filters := FilterState.mk true true true None |}.

Definition setData (d : App.State) (s : State) : State :=
  {| data := d; currentDate := currentDate s; userRole := userRole s;
     activeTab := activeTab s; showRequestModal := showRequestModal s;
     editingEvent := editingEvent s; showLoginModal := showLoginModal s;
     loginPassword := loginPassword s; filters := filters s |}.

Definition setCurrentDate (d : Z) (s : State) : State :=
  {| data := data s; currentDate := d; userRole := userRole s;
     activeTab := activeTab s; showRequestModal := showRequestModal s;
     editingEvent := editingEvent s; showLoginModal := showLoginModal s;
     loginPassword := loginPassword s; filters := filters s |}.

Definition setUserRole (r : UserRole) (s : State) : State :=
  {| data := data s; currentDate := currentDate s; userRole := r;
     activeTab := activeTab s; showRequestModal := showRequestModal s;
     editingEvent := editingEvent s; showLoginModal := showLoginModal s;
     loginPassword := loginPassword s; filters := filters s |}.

Definition setActiveTab (t : Tab) (s : State) : State :=
  {| data := data s; currentDate := currentDate s; userRole := userRole s;
     activeTab := t; showRequestModal := showRequestModal s;
     editingEvent := editingEvent s; showLoginModal := showLoginModal s;
     loginPassword := loginPassword s; filters := filters s |}.

Definition setShowRequestModal (b : bool) (s : State) : State :=
  {| data := data s; currentDate := currentDate s; userRole := userRole s;
     activeTab := activeTab s; showRequestModal := b;
     editingEvent := editingEvent s; showLoginModal := showLoginModal s;
     loginPassword := loginPassword s; filters := filters s |}.

Definition setEditingEvent (e : option CalendarEvent.t) (s : State) : State :=
  {| data := data s; currentDate := currentDate s; userRole := userRole s;
     activeTab := activeTab s; showRequestModal := showRequestModal s;
     editingEvent := e; showLoginModal := showLoginModal s;
     loginPassword := loginPassword s; filters := filters s |}.

Definition setShowLoginModal (b : bool) (s : State) : State :=
  {| data := data s; currentDate := currentDate s; userRole := userRole s;
     activeTab := activeTab s; showRequestModal := showRequestModal s;
     editingEvent := editingEvent s; showLoginModal := b;
     loginPassword := loginPassword s; filters := filters s |}.

Definition setLoginPassword (p : string) (s : State) : State :=
  {| data := data s; currentDate := currentDate s; userRole := userRole s;
     activeTab := activeTab s; showRequestModal := showRequestModal s;
     editingEvent := editingEvent s; showLoginModal := showLoginModal s;
     loginPassword := p; filters := filters s |}.

Definition setFilters (f : FilterState.t) (s : State) : State :=
  {| data := data s; currentDate := currentDate s; userRole := userRole s;
     activeTab := activeTab s; showRequestModal := showRequestModal s;
     editingEvent := editingEvent s; showLoginModal := showLoginModal s;
     loginPassword := loginPassword s; filters := f |}.

(** A wrong password only raises an alert. *)
Definition handleLogin (s : State) : State :=
  if String.eqb (loginPassword s) "admin123" then
    setLoginPassword "" (setShowLoginModal false (setUserRole admin s))
  else s.

Definition handleLogout (s : State) : State :=
  setEditingEvent None (setActiveTab calendarTab (setUserRole viewer s)).

Definition handleSubmitRequest (reqData : App.RequestData) (id : string)
    (s : State) : State :=
  setShowRequestModal false
    (setData (App.handleSubmitRequest reqData id (data s)) s).

Definition handleApproveRequest (req : Request.t) (s : State) : State :=
  setData (App.handleApproveRequest req (data s)) s.

Definition handleRejectRequest (confirmed : bool) (req : Request.t)
    (s : State) : State :=
  setData (App.handleRejectRequest confirmed req (data s)) s.

(** For a viewer the click only raises an alert with the details. *)
Definition handleEventClick (event : CalendarEvent.t) (s : State) : State :=
  match userRole s with
  | admin => setEditingEvent (Some event) s
  | viewer => s
  end.

Definition handleUpdateEvent (updatedEvent : CalendarEvent.t) (s : State)
    : State :=
  setEditingEvent None (setData (App.handleUpdateEvent updatedEvent (data s)) s).

Definition handleDeleteEvent (eventId : string) (s : State) : State :=
  setEditingEvent None (setData (App.handleDeleteEvent eventId (data s)) s).

(** What the user, or the start-up effect, can do.  An event is clicked by
    its place: cell [i] of the grid and line [j] of the events the cell
    lists; a request is approved or rejected by its place in the inbox. *)
Inductive Action :=
  | StartUp (env : Env) (m : Mem)
  | OpenLogin
  | CloseLogin
  | TypePassword (p : string)
  | SubmitLogin
  | Logout
  | SelectTab (t : Tab)
  | OpenRequest
  | CloseRequest
  | SubmitRequest (reqData : App.RequestData) (id : string)
  | PrevMonth
  | NextMonth
  | Today (now : Z)
  | ChangeFilters (change : FilterState.t -> FilterState.t)
  | ClickEvent (now : Z) (i j : nat)
  | Approve (i : nat)
  | Reject (confirmed : bool) (i : nat)
  | SaveEdit (formData : EditEventModal.FormData)
  | DeleteEdit (confirmed : bool)
  | CloseEdit.

(** The event at line [j] of cell [i] of the grid as rendered in [s]. *)
Definition renderedEvent (now : Z) (i j : nat) (s : State)
    : option CalendarEvent.t :=
  match CalendarControls.cells (currentDate s) now (App.events (data s))
          (filters s) with
  | Ok cs =>
      match cs !! i with
      | Some c => CalendarControls.shown c !! j
      | None => None
      end
  | _ => None
  end.

(** One action.  Each control acts only where the component renders it: the
    login button for a viewer, the logout button otherwise, the dashboard
    tab for an admin, the calendar and its toolbar on the calendar tab, the
    inbox on the other tab, each dialog while it is open.  Elsewhere the
    action finds no control and the state stays. *)
Definition step (s : State) (a : Action) : State :=
  match a with
  | StartUp env m => setData (App.initData env m (data s)) s
  | OpenLogin =>
      match userRole s with
      | viewer => setShowLoginModal true s
      | admin => s
      end
  | CloseLogin => if showLoginModal s then setShowLoginModal false s else s
  | TypePassword p => if showLoginModal s then setLoginPassword p s else s
  | SubmitLogin => if showLoginModal s then handleLogin s else s
  | Logout =>
      match userRole s with
      | viewer => s
      | admin => handleLogout s
      end
  | SelectTab calendarTab => setActiveTab calendarTab s
  | SelectTab adminTab =>
      match userRole s with
      | admin => setActiveTab adminTab s
      | viewer => s
      end
  | OpenRequest => setShowRequestModal true s
  | CloseRequest => if showRequestModal s then setShowRequestModal false s else s
  | SubmitRequest reqData id =>
      if showRequestModal s then handleSubmitRequest reqData id s else s
  | PrevMonth =>
      match activeTab s with
      | calendarTab =>
          setCurrentDate (CalendarControls.prevMonth (currentDate s)) s
      | adminTab => s
      end
  | NextMonth =>
      match activeTab s with
      | calendarTab =>
          setCurrentDate (CalendarControls.nextMonth (currentDate s)) s
      | adminTab => s
      end
  | Today now =>
      match activeTab s with
      | calendarTab => setCurrentDate now s
      | adminTab => s
      end
  | ChangeFilters change =>
      match activeTab s with
      | calendarTab => setFilters (change (filters s)) s
      | adminTab => s
      end
  | ClickEvent now i j =>
      match activeTab s with
      | calendarTab =>
          match renderedEvent now i j s with
          | Some event => handleEventClick event s
          | None => s
          end
      | adminTab => s
      end
  | Approve i =>
      match activeTab s with
      | adminTab =>
          match App.requests (data s) !! i with
          | Some req => handleApproveRequest req s
          | None => s
          end
      | calendarTab => s
      end
  | Reject confirmed i =>
      match activeTab s with
      | adminTab =>
          match App.requests (data s) !! i with
          | Some req => handleRejectRequest confirmed req s
          | None => s
          end
      | calendarTab => s
      end
  | SaveEdit formData =>
      match editingEvent s with
      | Some event =>
          handleUpdateEvent (EditEventModal.handleSubmit event formData) s
      | None => s
      end
  | DeleteEdit confirmed =>
      match editingEvent s with
      | Some event =>
          if confirmed then handleDeleteEvent (CalendarEvent.id event) s else s
      | None => s
      end
  | CloseEdit =>
      match editingEvent s with
      | Some _ => setEditingEvent None s
      | None => s
      end
  end.

Definition run (now : Z) (actions : list Action) : State :=
  fold_left step actions (initial now).

End AppUI.

(** ** The schedule assistant

    [analyzeSchedule] either answers at once or sends one request to the
    text service and answers by what the await gives: a response, whose text
    may be missing, or a failure.  The service is outside the program: what
    it replies is not a function of the request, so the request and the
    handling of the reply are what the model gives.  The format of a local
    date and the JSON text of the event data are left open. *)

Module Gemini.

Record EventDatum := {
  title : string;
  date : string;
  type : EventCategory;
  location : string
}.

Inductive Reply :=
  | Response (text : option string)
  | Failure.

(** The client [new GoogleGenAI({ apiKey })]. *)
Inductive Client := GoogleGenAI (apiKey : string).

(** What a call does: it returns a text, or it sends [contents] to [model]
    and returns what [andThen] makes of the reply. *)
Inductive Interaction :=
  | Answer (text : string)
  | Ask (model contents : string) (andThen : Reply -> string).

(** [API_KEY] is the variable of the environment, [None] when it or the
    environment is missing; an empty key is falsy. *)
Definition getAiClient (API_KEY : option string) : option Client :=
  match API_KEY with
  | Some key => if String.eqb key "" then None else Some (GoogleGenAI key)
  | None => None
  end.

(** The line feed (code 10) and the double quote (code 34). *)
Definition newline : string :=
  String (Ascii.Ascii false true false true false false false false) "".
Definition quote : string :=
  String (Ascii.Ascii false true false false false true false false) "".

Definition floorText (f : Floor) : string :=
  match f with
  | Floor1 => "1" | Floor2 => "2" | Floor3 => "3"
  | Floor4 => "4" | Floor5 => "5" | Floor6 => "6"
  end.

Definition missingKeyMessage : string :=
  "Gemini API Key is missing. Please configure process.env.API_KEY in your deployment environment.".

Definition noInsightsMessage : string := "No insights available.".

Definition troubleMessage : string :=
  "I'm having trouble connecting to the AI service right now.".

Section Service.

Variable toLocaleDateString : Z -> string.
Variable stringify : list EventDatum -> string.

Definition eventData (events : list CalendarEvent.t) : list EventDatum :=
  map (fun e =>
         {| title := CalendarEvent.title e;
            date := toLocaleDateString (CalendarEvent.start e);
            type := CalendarEvent.category e;
            location :=
              "Floor " ++ floorText (CalendarEvent.floor e) ++ " - "
              ++ CalendarEvent.room e |})
    events.

Definition prompt (events : list CalendarEvent.t) (query : string) : string :=
  newline
  ++ "    You are a Facility Management Assistant for the Chabad Russian Center & SIB JCC."
  ++ newline
  ++ "    " ++ newline
  ++ "    Here is the upcoming schedule data:" ++ newline
  ++ "    " ++ stringify (take 50 (eventData events))
  ++ " (Truncated to first 50 for brevity)" ++ newline
  ++ "    " ++ newline
  ++ "    User Query: " ++ quote ++ query ++ quote ++ newline
  ++ "    " ++ newline
  ++ "    Provide a concise, helpful summary or answer based on the schedule provided. "
  ++ newline
  ++ "    Focus on conflicts, heavy maintenance days, or preparation needed for events."
  ++ newline
  ++ "  ".

(** [ai] is the client, [None] without an API key. *)
Definition analyzeSchedule (ai : option Client)
    (events : list CalendarEvent.t) (query : string) : Interaction :=
  match ai with
  | None => Answer missingKeyMessage
  | Some _ =>
      Ask "gemini-3-flash-preview" (prompt events query)
        (fun reply =>
           match reply with
           | Response (Some text) =>
               if String.eqb text "" then noInsightsMessage else text
           | Response None => noInsightsMessage
           | Failure => troubleMessage
           end)
  end.

End Service.

End Gemini.

(** * Statements and proofs *)

(** ** Vocabulary of the statements *)

(** *** The month grid *)

(** The number of days of month [m] (0-based); [leap] is 1 in a leap year. *)
Definition DaysInMonth (m leap : Z) : Z :=
  match m with
  | 1 => 28 + leap
  | 3 | 5 | 8 | 10 => 30
  | _ => 31
  end.

(** [n] days from day [d] on, each at midnight. *)
Definition midnights (d : Z) (n : nat) : list Z :=
  map (fun k => MakeDate (d + Z.of_nat k) 0) (seq 0 n).

(** The days between which the grid of month [m] of year [y] lies: the Sunday
    on or before the first day of the month and the Saturday on or after its
    last day, which is the day before the first of the next month. *)
Definition gridStart (y m : Z) : Z :=
  MakeDay y m 1 - (MakeDay y m 1 + 4) mod 7.

Definition gridEnd (y m : Z) : Z :=
  MakeDay y (m + 1) 0 + 6 - (MakeDay y (m + 1) 0 + 4) mod 7.

(** The show-flag of a category. *)
Definition categoryFlag (filters : FilterState.t) (c : EventCategory) : bool :=
  match c with
  | Maintenance => FilterState.showMaintenance filters
  | Cleaning => FilterState.showCleaning filters
  | Event => FilterState.showEvents filters
  end.

(** An event to render. *)
Definition sampleEvent : CalendarEvent.t :=
  {| CalendarEvent.id := "e1"; CalendarEvent.title := "Audit";
     CalendarEvent.start := DateValue.fromFields 2025 2 10 9 0;
     CalendarEvent.end_ := DateValue.fromFields 2025 2 10 10 0;
     CalendarEvent.category := Event; CalendarEvent.floor := Floor2;
     CalendarEvent.room := "Hall"; CalendarEvent.description := None;
     CalendarEvent.isRecurring := None |}.

(** *** Events of the seed *)

(** The start and end [createEvent] gives an event made from a date holding
    [v]. *)
Definition eventStart (v : Z) : Z :=
  DateValue.setMinutes (DateValue.setHours v 9 None None None) 0.

Definition eventEnd (v : Z) (durationHours : option Z) : Z :=
  DateValue.setHours (eventStart v) (9 + default 1 durationHours) None None None.

(** The invariant of the data model. *)
Definition ordered (e : CalendarEvent.t) : Prop :=
  CalendarEvent.start e <= CalendarEvent.end_ e.

(** [Q] holds of what [c] returns, whatever the clock, the draws and the
    store. *)
Definition post {A} (c : M A) (Q : A -> Prop) : Prop :=
  forall env m, Q (fst (c env m)).

(** *** Two runs of the generator *)

(** An event with its id blanked, and two sequences of events that are the
    same but for the ids. *)
Definition withoutId (e : CalendarEvent.t) : CalendarEvent.t :=
  {| CalendarEvent.id := "";
     CalendarEvent.title := CalendarEvent.title e;
     CalendarEvent.start := CalendarEvent.start e;
     CalendarEvent.end_ := CalendarEvent.end_ e;
     CalendarEvent.category := CalendarEvent.category e;
     CalendarEvent.floor := CalendarEvent.floor e;
     CalendarEvent.room := CalendarEvent.room e;
     CalendarEvent.description := CalendarEvent.description e;
     CalendarEvent.isRecurring := CalendarEvent.isRecurring e |}.

Definition sameButIds (l1 l2 : list CalendarEvent.t) : Prop :=
  map withoutId l1 = map withoutId l2.

(** Two runs are compared cell by cell.  [Sides] names their environments and,
    for each, the base position from which its store is compared; what lies
    before the base is never read.  The stores are related when they agree
    from the bases on, two locations when they sit at the same distance from
    the two bases; the draws are unrelated. *)
Record Sides := { envL : Env; envR : Env; baseL : nat; baseR : nat }.

Definition mrel (S : Sides) (m1 m2 : Mem) : Prop :=
  (baseL S <= length (dates m1))%nat /\ (baseR S <= length (dates m2))%nat /\
  drop (baseL S) (dates m1) = drop (baseR S) (dates m2).

Definition lrel (S : Sides) (l1 l2 : loc) : Prop :=
  (baseL S <= l1)%nat /\ (baseR S <= l2)%nat /\ (l1 - baseL S = l2 - baseR S)%nat.

(** Run from related stores, the two computations return results related by
    [R] and leave related stores. *)
Definition sim {A} (S : Sides) (R : A -> A -> Prop) (c1 c2 : M A) : Prop :=
  forall m1 m2, mrel S m1 m2 ->
    R (fst (c1 (envL S) m1)) (fst (c2 (envR S) m2)) /\
    mrel S (snd (c1 (envL S) m1)) (snd (c2 (envR S) m2)).

(** A clock in June 2025, another in November 2025, and two random sources
    whose draws are nine characters long. *)
Definition clockJune2025 : Z := DateValue.fromFields 2025 5 15 12 30.
Definition clockNovember2025 : Z := DateValue.fromFields 2025 10 2 8 0.

Definition drawsA (n : nat) : string := pretty (100000000 + N.of_nat n)%N.
Definition drawsB (n : nat) : string := pretty (900000000 - N.of_nat n)%N.

Definition emptyStore : Mem := {| dates := []; draws := 0 |}.

(** *** The weekly inspections *)

Definition isChillerInspection (e : CalendarEvent.t) : bool :=
  String.eqb (CalendarEvent.title e) "Chiller Inspection".

(** The time value [startOfYear] gives for a date in the year of [t]: the
    first instant of that year. *)
Definition yearStartValue (t : Z) : Z :=
  MakeDate (MakeDay (YearFromTime t) 0 1) 0.

(** The days, counted from the first day of the year, on which the
    inspections of the seed start. *)
Definition inspectionOffsets (env : Env) (m : Mem) : list Z :=
  map (fun e => Day (CalendarEvent.start e) - Day (yearStartValue (clock env)))
    (List.filter isChillerInspection (fst (generateInitialData env m))).

(** The Monday on or before the day of [t], at the time of day of [t]. *)
Definition mondayBefore (t : Z) : Z := t - ((WeekDay t + 6) mod 7) * msPerDay.

(** The inspection the weekly loop makes from a date holding [d]. *)
Definition inspection (id : string) (d : Z) : CalendarEvent.t :=
  {| CalendarEvent.id := id;
     CalendarEvent.title := "Chiller Inspection";
     CalendarEvent.start := eventStart d;
     CalendarEvent.end_ := eventEnd d None;
     CalendarEvent.category := Maintenance;
     CalendarEvent.floor := Floor6;
     CalendarEvent.room := "Rooftop";
     CalendarEvent.description := None;
     CalendarEvent.isRecurring := Some true |}.

(** An event that is not a weekly inspection. *)
Definition quiet (e : CalendarEvent.t) : Prop := isChillerInspection e = false.

(** A stretch of the generator that only appends [n] events, none a weekly
    inspection, allocates dates and takes [n] draws. *)
Definition appends (c : list CalendarEvent.t -> M (list CalendarEvent.t))
    (n : nat) : Prop :=
  forall events env m, exists added extra,
    c events env m
    = (events ++ added,
       {| dates := dates m ++ extra; draws := (draws m + n)%nat |}) /\
    Forall quiet added.

(** *** The controls of the calendar *)

(** The month after and the month before month [m] of year [y]. *)
Definition followingMonth (y m : Z) : Z * Z :=
  if m =? 11 then (y + 1, 0) else (y, m + 1).

Definition precedingMonth (y m : Z) : Z * Z :=
  if m =? 0 then (y - 1, 11) else (y, m - 1).

(** The toggle of the check box of a category. *)
Definition toggle (c : EventCategory) : FilterState.t -> FilterState.t :=
  match c with
  | Maintenance => CalendarControls.toggleMaintenance
  | Cleaning => CalendarControls.toggleCleaning
  | Event => CalendarControls.toggleEvents
  end.

(** A cell whose number is highlighted as today. *)
Definition highlighted (c : CalendarControls.Cell) : bool :=
  match CalendarControls.numberStyle c with
  | todayStyle => true
  | _ => false
  end.

(** *** Collections *)

(** The ids of the events and of the requests of a state. *)
Definition eventIds (s : App.State) : list string :=
  map CalendarEvent.id (App.events s).

Definition requestIds (s : App.State) : list string :=
  map Request.id (App.requests s).

(** *** More on the events of the seed *)

(** An event that starts in the minute of nine o'clock and ends an hour
    later, recurring and without a description. *)
Definition nineToTen (e : CalendarEvent.t) : Prop :=
  HourFromTime (CalendarEvent.start e) = 9 /\
  MinFromTime (CalendarEvent.start e) = 0 /\
  CalendarEvent.end_ e = CalendarEvent.start e + msPerHour /\
  CalendarEvent.isRecurring e = Some true /\
  CalendarEvent.description e = None.

(** A stretch of the generator that appends [n] events whose ids are the
    next [n] draws, in their order. *)
Definition drawsIds (c : list CalendarEvent.t -> M (list CalendarEvent.t))
    (n : nat) : Prop :=
  forall events env m, exists added,
    fst (c events env m) = events ++ added /\
    map CalendarEvent.id added = map (random env) (seq (draws m) n) /\
    draws (snd (c events env m)) = (draws m + n)%nat.

(** *** Sessions *)

(** The start-up effect, as against what the user does. *)
Definition isStartUp (a : AppUI.Action) : bool :=
  match a with
  | AppUI.StartUp _ _ => true
  | _ => false
  end.

(** What is open only for an admin: the edit dialog and the dashboard. *)
Definition guarded (s : AppUI.State) : Prop :=
  (AppUI.editingEvent s <> None -> AppUI.userRole s = admin) /\
  (AppUI.activeTab s = adminTab -> AppUI.userRole s = admin).

(** A session that has opened the request dialog, and one that has typed the
    password into the login dialog. *)
Definition requestOpen : AppUI.State :=
  AppUI.run clockJune2025 [AppUI.OpenRequest].

Definition passwordTyped : AppUI.State :=
  AppUI.run clockJune2025 [AppUI.OpenLogin; AppUI.TypePassword "admin123"].

(** *** What the seed is made of *)

(** The part of an event that the program writes out: title, category, floor
    and room. *)
Definition written (e : CalendarEvent.t)
    : string * EventCategory * Floor * string :=
  (CalendarEvent.title e, CalendarEvent.category e, CalendarEvent.floor e,
   CalendarEvent.room e).

(** A stretch of the generator that appends events whose written parts are
    [xs], whatever the clock, the draws and the store. *)
Definition writes (c : list CalendarEvent.t -> M (list CalendarEvent.t))
    (xs : list (string * EventCategory * Floor * string)) : Prop :=
  forall events env m, exists added,
    fst (c events env m) = events ++ added /\ map written added = xs.

(** The seed of a run in June 2025. *)
Definition seedOf2025 : list CalendarEvent.t :=
  fst (generateInitialData {| clock := clockJune2025; random := drawsA |}
         emptyStore).

(** *** The view over the store *)

(** The event with the time values its dates hold in [m]. *)
Definition snapshot (m : Mem) (e : EventObject.t) : CalendarEvent.t :=
  {| CalendarEvent.id := EventObject.id e;
     CalendarEvent.title := EventObject.title e;
     CalendarEvent.start := dates m !!! EventObject.start e;
     CalendarEvent.end_ := dates m !!! EventObject.end_ e;
     CalendarEvent.category := EventObject.category e;
     CalendarEvent.floor := EventObject.floor e;
     CalendarEvent.room := EventObject.room e;
     CalendarEvent.description := EventObject.description e;
     CalendarEvent.isRecurring := EventObject.isRecurring e |}.

(** A reference to an object of the store, and a collection whose events
    refer to objects of the store. *)
Definition allocated (m : Mem) (l : loc) : Prop := (l < length (dates m))%nat.

Definition wellFormed (m : Mem) (events : list EventObject.t) : Prop :=
  Forall (fun e => allocated m (EventObject.start e) /\
                   allocated m (EventObject.end_ e)) events.

(** The buckets of a grid, and what the grid shows in [m]: the time values
    of its days, each with its bucket of events as they read in [m]. *)
Definition buckets (g : list (loc * list EventObject.t))
    : list (list EventObject.t) :=
  map snd g.

Definition shownGrid (m : Mem) (g : list (loc * list EventObject.t))
    : list (Z * list CalendarEvent.t) :=
  map (fun c => (dates m !!! fst c, map (snapshot m) (snd c))) g.

(** In every store that begins with [h], [c] returns [a] and only adds
    objects. *)
Definition yields {A} (h : list Z) (c : M A) (a : A) : Prop :=
  forall env m k, dates m = h ++ k ->
    exists extra,
      c env m = (a, {| dates := dates m ++ extra; draws := draws m |}).

(** A store with two reference dates in March 2025 and the two dates of one
    event, and that event. *)
Definition marchStore : Mem :=
  {| dates := [DateValue.fromFields 2025 2 3 8 15;
               DateValue.fromFields 2025 2 28 23 59;
               DateValue.fromFields 2025 2 10 9 0;
               DateValue.fromFields 2025 2 10 10 0];
     draws := 0 |}.

Definition sampleEventObject : EventObject.t :=
  {| EventObject.id := "e1"; EventObject.title := "Audit";
     EventObject.start := 2%nat; EventObject.end_ := 3%nat;
     EventObject.category := Event; EventObject.floor := Floor2;
     EventObject.room := "Hall"; EventObject.description := None;
     EventObject.isRecurring := None |}.

(** *** The assistant *)

(** The text a call comes to when the service, if asked, gives [reply]. *)
Definition answerTo (i : Gemini.Interaction) (reply : Gemini.Reply) : string :=
  match i with
  | Gemini.Answer text => text
  | Gemini.Ask _ _ andThen => andThen reply
  end.

(** ** The calendar *)

(** *** Facts about the calendar *)

Lemma DaysInYear_cases y :
  (y mod 4 <> 0 /\ DaysInYear y = 365) \/
  (y mod 4 = 0 /\ y mod 100 <> 0 /\ DaysInYear y = 366) \/
  (y mod 100 = 0 /\ y mod 400 <> 0 /\ DaysInYear y = 365) \/
  (y mod 400 = 0 /\ DaysInYear y = 366).
Proof.
  unfold DaysInYear.
  destruct (Z.eqb_spec (y mod 4) 0) as [H4|H4]; cbn [negb]; [|lia].
  destruct (Z.eqb_spec (y mod 100) 0) as [H100|H100]; cbn [negb]; [|lia].
  destruct (Z.eqb_spec (y mod 400) 0) as [H400|H400]; cbn [negb]; lia.
Qed.

Lemma DaysInYear_bounds y : 365 <= DaysInYear y <= 366.
Proof.
  destruct (DaysInYear_cases y) as [[_ E]|[(_ & _ & E)|[(_ & _ & E)|[_ E]]]];
    rewrite E; lia.
Qed.

Lemma DayFromYear_succ y : DayFromYear (y + 1) = DayFromYear y + DaysInYear y.
Proof.
  destruct (DaysInYear_cases y) as [[H1 ->]|[(H1 & H2 & ->)|[(H1 & H2 & ->)|[H1 ->]]]];
    unfold DayFromYear; Z.div_mod_to_equations; lia.
Qed.

Lemma DayFromYear_mono y1 y2 : y1 <= y2 -> DayFromYear y1 <= DayFromYear y2.
Proof. intros H. unfold DayFromYear. Z.div_mod_to_equations; lia. Qed.

Lemma YearFromDay_bounds n :
  DayFromYear (YearFromDay n) <= n < DayFromYear (YearFromDay n + 1).
Proof.
  unfold YearFromDay.
  set (y := 1970 + 400 * n / 146097).
  assert (Hlo : DayFromYear (y - 1) <= n).
  { unfold DayFromYear, y. Z.div_mod_to_equations; lia. }
  assert (Hhi : n < DayFromYear (y + 2)).
  { unfold DayFromYear, y. Z.div_mod_to_equations; lia. }
  destruct (Z.leb_spec (DayFromYear (y + 1)) n) as [E1|E1].
  - replace (y + 1 + 1) with (y + 2) by lia. lia.
  - destruct (Z.leb_spec (DayFromYear y) n) as [E2|E2].
    + lia.
    + replace (y - 1 + 1) with y by lia. lia.
Qed.

(** The executable year is the one ECMAScript specifies: the only year whose
    days contain [n]. *)
Lemma YearFromDay_unique n y :
  DayFromYear y <= n < DayFromYear (y + 1) -> YearFromDay n = y.
Proof.
  intros H. pose proof (YearFromDay_bounds n) as B.
  destruct (Z.lt_trichotomy (YearFromDay n) y) as [L|[E|G]]; [|exact E|].
  - pose proof (DayFromYear_mono (YearFromDay n + 1) y ltac:(lia)). lia.
  - pose proof (DayFromYear_mono (y + 1) (YearFromDay n) ltac:(lia)). lia.
Qed.

Lemma leapFlag_cases y :
  (leapFlag y = 0 /\ DaysInYear y = 365) \/ (leapFlag y = 1 /\ DaysInYear y = 366).
Proof.
  unfold leapFlag. pose proof (DaysInYear_bounds y).
  destruct (Z.eqb_spec (DaysInYear y) 366); [right | left]; lia.
Qed.

Lemma DayWithinYear_range t :
  0 <= DayWithinYear t < DaysInYear (YearFromTime t).
Proof.
  unfold DayWithinYear, YearFromTime.
  pose proof (YearFromDay_bounds (Day t)) as B.
  rewrite DayFromYear_succ in B. lia.
Qed.

Lemma MonthOfDayWithinYear_range d leap :
  0 <= MonthOfDayWithinYear d leap < 12.
Proof.
  unfold MonthOfDayWithinYear.
  repeat (match goal with |- context [?a <? ?b] => destruct (Z.ltb_spec a b) end);
    lia.
Qed.

Lemma MonthFromTime_range t : 0 <= MonthFromTime t < 12.
Proof. apply MonthOfDayWithinYear_range. Qed.

Lemma FirstDayOfMonth_le d leap :
  0 <= d -> 0 <= leap <= 1 ->
  FirstDayOfMonth (MonthOfDayWithinYear d leap) leap <= d.
Proof.
  intros Hd Hl. unfold MonthOfDayWithinYear.
  repeat (match goal with |- context [?a <? ?b] => destruct (Z.ltb_spec a b) end);
    cbn [FirstDayOfMonth]; lia.
Qed.

Lemma MonthOfDayWithinYear_first m leap :
  0 <= m < 12 -> 0 <= leap <= 1 ->
  MonthOfDayWithinYear (FirstDayOfMonth m leap) leap = m.
Proof.
  intros Hm Hl.
  assert (m = 0 \/ m = 1 \/ m = 2 \/ m = 3 \/ m = 4 \/ m = 5 \/ m = 6 \/
          m = 7 \/ m = 8 \/ m = 9 \/ m = 10 \/ m = 11) as C by lia.
  assert (leap = 0 \/ leap = 1) as [-> | ->] by lia;
    repeat (destruct C as [-> | C]; [reflexivity|]); subst m; reflexivity.
Qed.

(** The first day of the next month lies 28 to 31 days after the first day
    of a month. *)
Lemma FirstDayOfMonth_next m leap :
  0 <= m < 11 -> 0 <= leap <= 1 ->
  28 <= FirstDayOfMonth (m + 1) leap - FirstDayOfMonth m leap <= 31.
Proof.
  intros Hm Hl.
  assert (m = 0 \/ m = 1 \/ m = 2 \/ m = 3 \/ m = 4 \/ m = 5 \/ m = 6 \/
          m = 7 \/ m = 8 \/ m = 9 \/ m = 10) as C by lia.
  repeat (destruct C as [-> | C]; [|]); subst;
    match goal with |- context [FirstDayOfMonth (?a + 1) _] =>
      let v := eval vm_compute in (a + 1) in change (a + 1) with v
    end; cbn [FirstDayOfMonth]; lia.
Qed.

Lemma InLeapYear_leapFlag t : InLeapYear t = leapFlag (YearFromTime t).
Proof. reflexivity. Qed.

Lemma DateFromTime_pos t : 1 <= DateFromTime t.
Proof.
  unfold DateFromTime, MonthFromTime. rewrite InLeapYear_leapFlag.
  pose proof (DayWithinYear_range t).
  assert (Hl : 0 <= leapFlag (YearFromTime t) <= 1)
    by (destruct (leapFlag_cases (YearFromTime t)) as [[E _]|[E _]]; lia).
  pose proof (FirstDayOfMonth_le (DayWithinYear t) _ ltac:(lia) Hl). lia.
Qed.

(** Composing a day from the broken-down fields of [t] gives back [Day t]. *)
Lemma MakeDay_fields t :
  MakeDay (YearFromTime t) (MonthFromTime t) (DateFromTime t) = Day t.
Proof.
  unfold MakeDay. pose proof (MonthFromTime_range t) as Hm.
  rewrite Z.div_small, Z.mod_small, Z.add_0_r by lia.
  rewrite <- InLeapYear_leapFlag.
  unfold DateFromTime, DayWithinYear. lia.
Qed.

Lemma MakeDay_date year month date :
  MakeDay year month date = MakeDay year month 1 + date - 1.
Proof. unfold MakeDay. lia. Qed.

Lemma Day_MakeDate day time :
  0 <= time < msPerDay -> Day (MakeDate day time) = day.
Proof.
  intros H. unfold Day, MakeDate, msPerDay in *.
  Z.div_mod_to_equations; lia.
Qed.

Lemma TimeWithinDay_MakeDate day time :
  0 <= time < msPerDay -> TimeWithinDay (MakeDate day time) = time.
Proof.
  intros H. unfold TimeWithinDay, MakeDate, msPerDay in *.
  Z.div_mod_to_equations; lia.
Qed.

Lemma TimeWithinDay_range t : 0 <= TimeWithinDay t < msPerDay.
Proof. unfold TimeWithinDay, msPerDay. Z.div_mod_to_equations; lia. Qed.

Lemma MakeDate_Day t : MakeDate (Day t) (TimeWithinDay t) = t.
Proof. unfold MakeDate, Day, TimeWithinDay, msPerDay. Z.div_mod_to_equations; lia. Qed.

(** The fields of the first day of month [m] (0 to 11) of year [y]. *)
Lemma fields_of_first y m t :
  0 <= m < 12 -> Day t = MakeDay y m 1 ->
  YearFromTime t = y /\ MonthFromTime t = m /\ DateFromTime t = 1.
Proof.
  intros Hm Ht.
  unfold MakeDay in Ht. rewrite Z.div_small, Z.mod_small, Z.add_0_r in Ht by lia.
  assert (Hl : 0 <= leapFlag y <= 1)
    by (destruct (leapFlag_cases y) as [[E _]|[E _]]; lia).
  assert (Hy : YearFromTime t = y).
  { unfold YearFromTime. apply YearFromDay_unique. rewrite DayFromYear_succ.
    assert (0 <= FirstDayOfMonth m (leapFlag y) < DaysInYear y); [|lia].
    assert (m = 0 \/ m = 1 \/ m = 2 \/ m = 3 \/ m = 4 \/ m = 5 \/ m = 6 \/
            m = 7 \/ m = 8 \/ m = 9 \/ m = 10 \/ m = 11) as C by lia.
    destruct (leapFlag_cases y) as [[E ->]|[E ->]]; rewrite E;
      repeat (destruct C as [-> | C]; [|]); subst; cbn [FirstDayOfMonth]; lia. }
  assert (Hd : DayWithinYear t = FirstDayOfMonth m (leapFlag y)).
  { unfold DayWithinYear. rewrite Hy. lia. }
  assert (Hmo : MonthFromTime t = m).
  { unfold MonthFromTime. rewrite InLeapYear_leapFlag, Hy, Hd.
    apply MonthOfDayWithinYear_first; lia. }
  repeat split; trivial.
  unfold DateFromTime. rewrite Hmo, InLeapYear_leapFlag, Hy, Hd. lia.
Qed.

(** A month has at least 28 days: the first of the next month (month index
    [m + 1], which may be 12) comes at least 28 days later. *)
Lemma MakeDay_next_month y m :
  0 <= m < 12 -> 28 <= MakeDay y (m + 1) 1 - MakeDay y m 1 <= 31.
Proof.
  intros Hm. unfold MakeDay.
  rewrite (Z.div_small m), (Z.mod_small m), Z.add_0_r by lia.
  assert (Hl : 0 <= leapFlag y <= 1)
    by (destruct (leapFlag_cases y) as [[E _]|[E _]]; lia).
  destruct (Z.eq_dec m 11) as [-> | Hne].
  - change ((11 + 1) / 12) with 1. change ((11 + 1) mod 12) with 0.
    rewrite DayFromYear_succ. cbn [FirstDayOfMonth].
    destruct (leapFlag_cases y) as [[E ->]|[E ->]]; rewrite E; lia.
  - rewrite (Z.div_small (m + 1)), (Z.mod_small (m + 1)), Z.add_0_r by lia.
    fold (leapFlag y).
    pose proof (FirstDayOfMonth_next m (leapFlag y) ltac:(lia) Hl). lia.
Qed.

Lemma month_cases m :
  0 <= m < 12 ->
  m = 0 \/ m = 1 \/ m = 2 \/ m = 3 \/ m = 4 \/ m = 5 \/ m = 6 \/
  m = 7 \/ m = 8 \/ m = 9 \/ m = 10 \/ m = 11.
Proof. lia. Qed.

Lemma MonthOfDayWithinYear_within m leap k :
  0 <= m < 12 -> 0 <= leap <= 1 -> 0 <= k < DaysInMonth m leap ->
  MonthOfDayWithinYear (FirstDayOfMonth m leap + k) leap = m.
Proof.
  intros Hm Hl Hk. unfold MonthOfDayWithinYear.
  destruct (month_cases m Hm) as [-> | C];
    [|repeat (destruct C as [-> | C]; [|]); subst];
    cbn [FirstDayOfMonth DaysInMonth] in *;
    repeat (match goal with |- context [?a <? ?b] => destruct (Z.ltb_spec a b) end);
    lia.
Qed.

Lemma MakeDay_month_length y m :
  0 <= m < 12 ->
  MakeDay y (m + 1) 1 - MakeDay y m 1 = DaysInMonth m (leapFlag y).
Proof.
  intros Hm. unfold MakeDay.
  rewrite (Z.div_small m), (Z.mod_small m), Z.add_0_r by lia.
  destruct (Z.eq_dec m 11) as [-> | Hne].
  - change ((11 + 1) / 12) with 1. change ((11 + 1) mod 12) with 0.
    rewrite DayFromYear_succ. cbn [FirstDayOfMonth DaysInMonth].
    destruct (leapFlag_cases y) as [[E ->]|[E ->]]; rewrite E; lia.
  - rewrite (Z.div_small (m + 1)), (Z.mod_small (m + 1)), Z.add_0_r by lia.
    assert (0 <= m < 11) as Hm' by lia. clear Hm Hne.
    assert (m = 0 \/ m = 1 \/ m = 2 \/ m = 3 \/ m = 4 \/ m = 5 \/ m = 6 \/
            m = 7 \/ m = 8 \/ m = 9 \/ m = 10) as C by lia.
    repeat (destruct C as [-> | C]; [|]); subst;
      match goal with |- context [FirstDayOfMonth (?a + 1) _] =>
        let v := eval vm_compute in (a + 1) in change (a + 1) with v
      end; cbn [FirstDayOfMonth DaysInMonth]; lia.
Qed.

(** The fields of day [d] of month [m] of year [y]: composing a day and
    breaking it down again gives back the fields. *)
Lemma fields_of_MakeDay y m d t :
  0 <= m < 12 -> 1 <= d <= DaysInMonth m (leapFlag y) ->
  Day t = MakeDay y m d ->
  YearFromTime t = y /\ MonthFromTime t = m /\ DateFromTime t = d.
Proof.
  intros Hm Hd Ht.
  unfold MakeDay in Ht. rewrite Z.div_small, Z.mod_small, Z.add_0_r in Ht by lia.
  assert (Hl : 0 <= leapFlag y <= 1)
    by (destruct (leapFlag_cases y) as [[E _]|[E _]]; lia).
  assert (Hy : YearFromTime t = y).
  { unfold YearFromTime. apply YearFromDay_unique. rewrite DayFromYear_succ.
    assert (0 <= FirstDayOfMonth m (leapFlag y) + d - 1 < DaysInYear y); [|lia].
    destruct (leapFlag_cases y) as [[E ->]|[E ->]]; rewrite E in *;
      (destruct (month_cases m Hm) as [-> | C];
       [|repeat (destruct C as [-> | C]; [|]); subst]);
      cbn [FirstDayOfMonth DaysInMonth] in *; lia. }
  assert (Hw : DayWithinYear t = FirstDayOfMonth m (leapFlag y) + (d - 1)).
  { unfold DayWithinYear. rewrite Hy. lia. }
  assert (Hmo : MonthFromTime t = m).
  { unfold MonthFromTime. rewrite InLeapYear_leapFlag, Hy, Hw.
    apply MonthOfDayWithinYear_within; lia. }
  repeat split; trivial.
  unfold DateFromTime. rewrite Hmo, InLeapYear_leapFlag, Hy, Hw. lia.
Qed.

(** The day before the first of the next month is the last day of the month:
    it has the year and month of the month and the number of days of the
    month as its date. *)
Lemma last_day_of_month y m t :
  0 <= m < 12 -> Day t = MakeDay y (m + 1) 1 - 1 ->
  YearFromTime t = y /\ MonthFromTime t = m /\
  DateFromTime t = DaysInMonth m (leapFlag y).
Proof.
  intros Hm Ht. apply fields_of_MakeDay; [exact Hm| |].
  - assert (0 <= leapFlag y <= 1)
      by (destruct (leapFlag_cases y) as [[E _]|[E _]]; lia).
    destruct (month_cases m Hm) as [-> | C];
      [|repeat (destruct C as [-> | C]; [|]); subst];
      cbn [DaysInMonth]; lia.
  - pose proof (MakeDay_month_length y m Hm) as L.
    rewrite (MakeDay_date y m (DaysInMonth m (leapFlag y))). lia.
Qed.

Lemma WeekDay_range t : 0 <= WeekDay t < 7.
Proof. unfold WeekDay. Z.div_mod_to_equations; lia. Qed.

(** *** Facts about the [Date] methods *)

Lemma Day_shift t k : Day (t + k * msPerDay) = Day t + k.
Proof. unfold Day, msPerDay. Z.div_mod_to_equations; lia. Qed.

Lemma TimeWithinDay_shift t k : TimeWithinDay (t + k * msPerDay) = TimeWithinDay t.
Proof. unfold TimeWithinDay, msPerDay. Z.div_mod_to_equations; lia. Qed.

Lemma WeekDay_shift t k : WeekDay (t + 7 * k * msPerDay) = WeekDay t.
Proof.
  unfold WeekDay. rewrite Day_shift. Z.div_mod_to_equations; lia.
Qed.

(** Setting the date to the current one plus [k] moves the time by [k] days. *)
Lemma setDate_shift t k :
  DateValue.setDate t (DateValue.getDate t + k) = t + k * msPerDay.
Proof.
  unfold DateValue.setDate, DateValue.getDate.
  rewrite MakeDay_date.
  pose proof (MakeDay_fields t) as F. rewrite MakeDay_date in F.
  pose proof (MakeDate_Day t) as R. unfold MakeDate in *. lia.
Qed.

Lemma setDate_first t :
  DateValue.setDate t 1
  = MakeDate (MakeDay (YearFromTime t) (MonthFromTime t) 1) (TimeWithinDay t).
Proof. reflexivity. Qed.

Lemma setHours_midnight t :
  DateValue.setHours t 0 (Some 0) (Some 0) (Some 0) = MakeDate (Day t) 0.
Proof. reflexivity. Qed.

Lemma setHours_lastms t :
  DateValue.setHours t 23 (Some 59) (Some 59) (Some 999)
  = MakeDate (Day t) (msPerDay - 1).
Proof. reflexivity. Qed.

Lemma MakeDate_le d1 t1 d2 t2 :
  0 <= t1 < msPerDay -> 0 <= t2 < msPerDay ->
  (MakeDate d1 t1 <= MakeDate d2 t2 <-> d1 < d2 \/ (d1 = d2 /\ t1 <= t2)).
Proof. unfold MakeDate, msPerDay. intros. nia. Qed.

(** *** Times of day *)

Lemma TimeWithinDay_fields t :
  TimeWithinDay t
  = MakeTime (HourFromTime t) (MinFromTime t) (SecFromTime t) (msFromTime t).
Proof.
  unfold TimeWithinDay, MakeTime, HourFromTime, MinFromTime, SecFromTime,
    msFromTime, msPerDay, msPerHour, msPerMinute, msPerSecond.
  Z.div_mod_to_equations; lia.
Qed.

Lemma fields_ranges t :
  0 <= HourFromTime t < 24 /\ 0 <= MinFromTime t < 60 /\
  0 <= SecFromTime t < 60 /\ 0 <= msFromTime t < 1000.
Proof.
  unfold HourFromTime, MinFromTime, SecFromTime, msFromTime, msPerSecond.
  repeat split; Z.div_mod_to_equations; lia.
Qed.

Lemma fields_of_MakeDate d h mi s ms :
  0 <= h < 24 -> 0 <= mi < 60 -> 0 <= s < 60 -> 0 <= ms < 1000 ->
  let t := MakeDate d (MakeTime h mi s ms) in
  Day t = d /\ HourFromTime t = h /\ MinFromTime t = mi /\
  SecFromTime t = s /\ msFromTime t = ms.
Proof.
  intros Hh Hm Hs Hms t. unfold t.
  unfold Day, MakeDate, MakeTime, HourFromTime, MinFromTime, SecFromTime,
    msFromTime, msPerDay, msPerHour, msPerMinute, msPerSecond.
  repeat split; Z.div_mod_to_equations; lia.
Qed.

(** Moving the hour forward does not move the time back. *)
Lemma setHours_later t h :
  HourFromTime t <= h -> t <= DateValue.setHours t h None None None.
Proof.
  intros Hh. unfold DateValue.setHours. cbn [default].
  pose proof (MakeDate_Day t) as R. rewrite TimeWithinDay_fields in R.
  unfold MakeDate, MakeTime, msPerHour in *. lia.
Qed.

Lemma eventStart_fields v :
  Day (eventStart v) = Day v /\ HourFromTime (eventStart v) = 9 /\
  MinFromTime (eventStart v) = 0.
Proof.
  unfold eventStart, DateValue.setMinutes, DateValue.setHours. cbn [default].
  pose proof (fields_ranges v) as (_ & Hm & Hs & Hms).
  destruct (fields_of_MakeDate (Day v) 9 (MinFromTime v) (SecFromTime v)
              (msFromTime v) ltac:(lia) Hm Hs Hms) as (E1 & E2 & E3 & E4 & E5).
  cbv zeta in *. rewrite E1, E2, E4, E5.
  destruct (fields_of_MakeDate (Day v) 9 0 (SecFromTime v)
              (msFromTime v) ltac:(lia) ltac:(lia) Hs Hms) as (F1 & F2 & F3 & _).
  cbv zeta in *. auto.
Qed.

Lemma eventStart_le_eventEnd v : eventStart v <= eventEnd v None.
Proof.
  unfold eventEnd. cbn [default]. apply setHours_later.
  destruct (eventStart_fields v) as (_ & -> & _). lia.
Qed.

(** *** Facts about the date-fns functions of the view *)

Lemma startOfDay_value t : startOfDay t = MakeDate (Day t) 0.
Proof. reflexivity. Qed.

Lemma isSameDay_Day a b : isSameDay a b = true <-> Day a = Day b.
Proof.
  unfold isSameDay. rewrite !startOfDay_value, Z.eqb_eq.
  unfold MakeDate, msPerDay. lia.
Qed.

Lemma startOfMonth_value t :
  startOfMonth t = MakeDate (MakeDay (YearFromTime t) (MonthFromTime t) 1) 0.
Proof.
  unfold startOfMonth. rewrite setHours_midnight, setDate_first.
  rewrite Day_MakeDate by apply TimeWithinDay_range. reflexivity.
Qed.

Lemma endOfMonth_value t :
  endOfMonth t
  = MakeDate (MakeDay (YearFromTime t) (MonthFromTime t + 1) 0) (msPerDay - 1).
Proof.
  unfold endOfMonth. rewrite setHours_lastms. unfold DateValue.setFullYear.
  rewrite Day_MakeDate by apply TimeWithinDay_range. reflexivity.
Qed.

Lemma startOfWeek_value t : startOfWeek t = MakeDate (Day t - WeekDay t) 0.
Proof.
  unfold startOfWeek, weekStartsOn, DateValue.getDay.
  pose proof (WeekDay_range t) as W.
  destruct (Z.ltb_spec (WeekDay t) 0) as [L|_]; [lia|].
  replace (DateValue.getDate t - (0 + WeekDay t - 0))
    with (DateValue.getDate t + - WeekDay t) by lia.
  rewrite setDate_shift, setHours_midnight, Day_shift. f_equal; lia.
Qed.

Lemma endOfWeek_value t :
  endOfWeek t = MakeDate (Day t + 6 - WeekDay t) (msPerDay - 1).
Proof.
  unfold endOfWeek, weekStartsOn, DateValue.getDay.
  pose proof (WeekDay_range t) as W.
  destruct (Z.ltb_spec (WeekDay t) 0) as [L|_]; [lia|].
  rewrite setDate_shift, setHours_lastms, Day_shift. f_equal; lia.
Qed.

Lemma midnights_succ d n :
  midnights d (S n) = MakeDate d 0 :: midnights (d + 1) n.
Proof.
  unfold midnights. cbn [seq map]. f_equal.
  - f_equal. lia.
  - rewrite <- seq_shift, map_map. apply map_ext. intros k. f_equal. lia.
Qed.

(** With more fuel than days the loop returns every day up to [endTime]. *)
Lemma eachDayLoop_value n : forall fuel d e tm,
  0 <= tm < msPerDay -> n = Z.to_nat (e - d + 1) -> (n < fuel)%nat ->
  eachDayLoop fuel (MakeDate d 0) (MakeDate e tm) = Ok (midnights d n).
Proof.
  induction n as [|n IH]; intros fuel d e tm Htm Hn Hf.
  - destruct fuel as [|fuel]; [lia|]. cbn [eachDayLoop].
    destruct (Z.leb_spec (MakeDate d 0) (MakeDate e tm)) as [L|_]; [|reflexivity].
    apply MakeDate_le in L; [|unfold msPerDay; lia|exact Htm]. lia.
  - destruct fuel as [|fuel]; [lia|]. cbn [eachDayLoop].
    destruct (Z.leb_spec (MakeDate d 0) (MakeDate e tm)) as [_|G].
    + rewrite setDate_shift, setHours_midnight, Day_shift.
      rewrite Day_MakeDate by (unfold msPerDay; lia).
      rewrite (IH fuel (d + 1) e tm Htm) by lia.
      rewrite midnights_succ. reflexivity.
    + assert (~ (MakeDate d 0 <= MakeDate e tm)) as N by lia.
      rewrite MakeDate_le in N; [|unfold msPerDay; lia|exact Htm]. lia.
Qed.

Lemma eachDayOfInterval_value d e tm :
  0 <= tm < msPerDay -> d <= e ->
  eachDayOfInterval (MakeDate d 0) (MakeDate e tm)
  = Ok (midnights d (Z.to_nat (e - d + 1))).
Proof.
  intros Htm Hde. unfold eachDayOfInterval.
  destruct (Z.leb_spec (MakeDate d 0) (MakeDate e tm)) as [_|G]; cbn [negb].
  - rewrite setHours_midnight, !Day_MakeDate by (unfold msPerDay; lia || exact Htm).
    apply eachDayLoop_value; [exact Htm|reflexivity|lia].
  - assert (~ (MakeDate d 0 <= MakeDate e tm)) as N by lia.
    rewrite MakeDate_le in N; [|unfold msPerDay; lia|exact Htm]. lia.
Qed.

Lemma days_value t :
  let y := DateValue.getFullYear t in
  let m := DateValue.getMonth t in
  CalendarView.days t
  = Ok (midnights (gridStart y m) (Z.to_nat (gridEnd y m - gridStart y m + 1))).
Proof.
  intros y m. unfold CalendarView.days.
  pose proof (MonthFromTime_range t) as Hm.
  assert (Hday : Day (startOfMonth t) = MakeDay y m 1).
  { rewrite startOfMonth_value, Day_MakeDate by (unfold msPerDay; lia). reflexivity. }
  destruct (fields_of_first y m (startOfMonth t) Hm Hday) as (Hy & Hmo & _).
  rewrite endOfMonth_value, Hy, Hmo.
  rewrite startOfWeek_value, endOfWeek_value.
  unfold WeekDay. rewrite Hday, Day_MakeDate by (unfold msPerDay; lia).
  pose proof (MakeDay_next_month y m Hm) as Hn.
  pose proof (MakeDay_date y (m + 1) 0) as Hl.
  unfold gridStart, gridEnd.
  apply eachDayOfInterval_value; [unfold msPerDay; lia|].
  Z.div_mod_to_equations; lia.
Qed.

Lemma midnights_head d n : head (midnights d (S n)) = Some (MakeDate d 0).
Proof. rewrite midnights_succ. reflexivity. Qed.

Lemma midnights_last d n :
  last (midnights d (S n)) = Some (MakeDate (d + Z.of_nat n) 0).
Proof. unfold midnights. rewrite seq_S, map_app. cbn [map]. apply last_snoc. Qed.

Lemma midnights_length d n : length (midnights d n) = n.
Proof. unfold midnights. rewrite length_map. apply length_seq. Qed.

Lemma gridStart_facts y m :
  (gridStart y m + 4) mod 7 = 0 /\ MakeDay y m 1 - 6 <= gridStart y m <= MakeDay y m 1.
Proof. unfold gridStart. Z.div_mod_to_equations; lia. Qed.

Lemma gridEnd_facts y m :
  (gridEnd y m + 4) mod 7 = 6 /\
  MakeDay y (m + 1) 0 <= gridEnd y m <= MakeDay y (m + 1) 0 + 6.
Proof. unfold gridEnd. Z.div_mod_to_equations; lia. Qed.

(** ** The month grid *)

(** C5.  For every reference date the grid projector returns a sequence of
    dates whose length is a multiple of 7, whose first date is a week-start day
    (Sunday) on or before the first day of the month of the reference date, and
    whose last date is a week-end day (Saturday) on or after the last day of
    that month (the day before the first of the next month). *)
Theorem C5_grid_covers_month (currentDate : Z) :
  let y := DateValue.getFullYear currentDate in
  let m := DateValue.getMonth currentDate in
  exists ds first final (weeks : nat),
    CalendarView.days currentDate = Ok ds /\
    length ds = (7 * weeks)%nat /\
    head ds = Some first /\
    last ds = Some final /\
    DateValue.getDay first = weekStartsOn /\
    Day first <= MakeDay y m 1 /\
    DateValue.getDay final = 6 /\
    MakeDay y (m + 1) 1 - 1 <= Day final.
Proof.
  intros y m.
  pose proof (days_value currentDate) as Hd. cbv zeta in Hd. fold y m in Hd.
  pose proof (gridStart_facts y m) as (Hs7 & Hs).
  pose proof (gridEnd_facts y m) as (He7 & He).
  pose proof (MonthFromTime_range currentDate) as Hm.
  pose proof (MakeDay_next_month y m Hm) as Hn.
  pose proof (MakeDay_date y (m + 1) 0) as Hl.
  set (n := Z.to_nat (gridEnd y m - gridStart y m + 1)) in *.
  assert (Hpos : (0 < n)%nat) by lia.
  destruct n as [|n'] eqn:En; [lia|].
  exists (midnights (gridStart y m) (S n')), (MakeDate (gridStart y m) 0),
    (MakeDate (gridStart y m + Z.of_nat n') 0),
    (Z.to_nat ((gridEnd y m - gridStart y m + 1) / 7)).
  assert (Hend : gridStart y m + Z.of_nat n' = gridEnd y m) by lia.
  split; [exact Hd|].
  split; [rewrite midnights_length; Z.div_mod_to_equations; lia|].
  split; [apply midnights_head|].
  split; [apply midnights_last|].
  unfold DateValue.getDay, WeekDay, weekStartsOn.
  rewrite Hend, !Day_MakeDate by (unfold msPerDay; lia).
  repeat split; lia.
Qed.

(** ** Filters and day buckets *)

Lemma Floor_number_nonzero f : (Floor_number f =? 0) = false.
Proof. destruct f; reflexivity. Qed.

Lemma Floor_eqb_eq a b : Floor_eqb a b = true <-> a = b.
Proof. destruct a, b; cbv; split; congruence. Qed.

(** C4.  An event is visible iff the show-flag of its category is on and
    either no floor filter is set or the event's floor is the filter's floor.
    So an event whose category flag is off is invisible whatever the floor
    filter, and without a floor filter the floor plays no part. *)
Theorem C4_isVisible_iff (filters : FilterState.t) (e : CalendarEvent.t) :
  (CalendarView.isVisible filters e = true <->
     categoryFlag filters (CalendarEvent.category e) = true /\
     (FilterState.floor filters = None \/
      FilterState.floor filters = Some (CalendarEvent.floor e))) /\
  (categoryFlag filters (CalendarEvent.category e) = false ->
     CalendarView.isVisible filters e = false) /\
  (FilterState.floor filters = None ->
     CalendarView.isVisible filters e
     = categoryFlag filters (CalendarEvent.category e)).
Proof.
  destruct filters as [sm sc se fl], e as [i ti st en c f r d rec].
  unfold CalendarView.isVisible, categoryFlag. cbn [FilterState.showMaintenance
    FilterState.showCleaning FilterState.showEvents FilterState.floor
    CalendarEvent.category CalendarEvent.floor].
  split; [|split].
  - destruct fl as [g|].
    + rewrite Floor_number_nonzero. cbn [negb andb].
      destruct (Floor_eqb f g) eqn:Ef.
      * apply Floor_eqb_eq in Ef. subst g.
        destruct c, sm, sc, se; cbn; intuition congruence.
      * assert (f <> g) by (intros ->; destruct g; discriminate).
        destruct c, sm, sc, se; cbn; intuition congruence.
    + destruct c, sm, sc, se; cbn; intuition congruence.
  - destruct fl as [g|]; destruct c, sm, sc, se; cbn; congruence.
  - intros ->. destruct c, sm, sc, se; reflexivity.
Qed.

Lemma filter_sublist {A} (p : A -> bool) (l : list A) :
  sublist (List.filter p l) l.
Proof.
  induction l as [|x l IH]; cbn [List.filter].
  - constructor.
  - destruct (p x); [apply sublist_skip | apply sublist_cons]; exact IH.
Qed.

Lemma filter_filter_and {A} (p q : A -> bool) (l : list A) :
  List.filter q (List.filter p l) = List.filter (fun x => p x && q x) l.
Proof.
  induction l as [|x l IH]; cbn [List.filter]; [reflexivity|].
  destruct (p x); cbn [List.filter andb]; [destruct (q x)|]; congruence.
Qed.

(** C6.  For every event collection, filter state and day [d] (so for every
    day of the grid), the bucket of [d] holds exactly the visible events whose
    start falls on the calendar day of [d], whatever the time of day, each as
    often as in the collection and in the collection's order. *)
Theorem C6_day_bucket (events : list CalendarEvent.t)
    (filters : FilterState.t) (d : Z) :
  let bucket :=
    CalendarView.dayEvents (CalendarView.filteredEvents events filters) d in
  bucket
  = List.filter
      (fun e => CalendarView.isVisible filters e
                && (Day (CalendarEvent.start e) =? Day d))
      events /\
  sublist bucket events /\
  (forall e, In e bucket <->
     In e events /\ CalendarView.isVisible filters e = true /\
     Day (CalendarEvent.start e) = Day d).
Proof.
  intros bucket.
  assert (E : bucket
    = List.filter
        (fun e => CalendarView.isVisible filters e
                  && (Day (CalendarEvent.start e) =? Day d)) events).
  { unfold bucket, CalendarView.dayEvents, CalendarView.filteredEvents.
    rewrite filter_filter_and. apply List.filter_ext. intros e. f_equal.
    destruct (isSameDay (CalendarEvent.start e) d) eqn:S.
    - apply isSameDay_Day in S. symmetry. apply Z.eqb_eq. exact S.
    - symmetry. apply Z.eqb_neq. intros C. apply isSameDay_Day in C. congruence. }
  split; [exact E|]. split.
  - rewrite E. apply filter_sublist.
  - intros e. rewrite E, List.filter_In, andb_true_iff, Z.eqb_eq. tauto.
Qed.

(** ** Dates of the same month *)

Lemma days_same_month d1 d2 :
  DateValue.getFullYear d1 = DateValue.getFullYear d2 ->
  DateValue.getMonth d1 = DateValue.getMonth d2 ->
  CalendarView.days d1 = CalendarView.days d2.
Proof. intros Hy Hm. rewrite !days_value. cbv zeta. rewrite Hy, Hm. reflexivity. Qed.

(** ** Request lifecycle *)

Lemma filter_other_ids (req : Request.t) (rs : list Request.t) (r : Request.t) :
  In r (List.filter
          (fun r => negb (String.eqb (Request.id r) (Request.id req))) rs)
  <-> In r rs /\ Request.id r <> Request.id req.
Proof.
  rewrite List.filter_In, negb_true_iff.
  destruct (String.eqb_spec (Request.id r) (Request.id req)); intuition congruence.
Qed.

(** C2.  Approving a request appends exactly one event to the collection; the
    event carries the request's id, title, category, floor, room and
    description, and starts and ends at the request's date.  So the request
    for "Fix AC" on 10 March 2025 (maintenance, floor 3, room "Offices")
    becomes an event on floor 3 in room "Offices", of category maintenance,
    that starts on 10 March 2025. *)
Theorem C2_approve_constructs_event :
  (forall (req : Request.t) (s : App.State),
     exists e,
       App.events (App.handleApproveRequest req s) = App.events s ++ [e] /\
       CalendarEvent.id e = Request.id req /\
       CalendarEvent.title e = Request.title req /\
       CalendarEvent.category e = Request.category req /\
       CalendarEvent.floor e = Request.floor req /\
       CalendarEvent.room e = Request.room req /\
       CalendarEvent.description e = Some (Request.description req) /\
       CalendarEvent.start e = Request.date req /\
       CalendarEvent.end_ e = Request.date req) /\
  (forall (id description : string) (submittedBy : option string)
          (s : App.State),
     let req :=
       {| Request.id := id; Request.title := "Fix AC";
          Request.date := DateValue.fromFields 2025 2 10 0 0;
          Request.category := Maintenance; Request.floor := Floor3;
          Request.room := "Offices"; Request.description := description;
          Request.status := pending; Request.submittedBy := submittedBy |} in
     exists e,
       App.events (App.handleApproveRequest req s) = App.events s ++ [e] /\
       Floor_number (CalendarEvent.floor e) = 3 /\
       CalendarEvent.room e = "Offices" /\
       CalendarEvent.category e = Maintenance /\
       DateValue.getFullYear (CalendarEvent.start e) = 2025 /\
       DateValue.getMonth (CalendarEvent.start e) = 2 /\
       DateValue.getDate (CalendarEvent.start e) = 10).
Proof.
  split.
  - intros req s. exists (App.newEvent req). repeat split; reflexivity.
  - intros id description submittedBy s req. exists (App.newEvent req).
    repeat split; vm_compute; reflexivity.
Qed.

(** C3.  After a request is approved, no pending request has its id (the
    others all stay) and the event collection has exactly one more event,
    which has that id.  After it is rejected with the confirmation accepted,
    no pending request has its id (the others all stay) and the events are
    unchanged.  When the confirmation is declined nothing changes. *)
Theorem C3_request_lifecycle (req : Request.t) (s : App.State) :
  (let s' := App.handleApproveRequest req s in
   (forall r, In r (App.requests s') <->
              In r (App.requests s) /\ Request.id r <> Request.id req) /\
   exists e, App.events s' = App.events s ++ [e] /\
             CalendarEvent.id e = Request.id req) /\
  (let s' := App.handleRejectRequest true req s in
   (forall r, In r (App.requests s') <->
              In r (App.requests s) /\ Request.id r <> Request.id req) /\
   App.events s' = App.events s) /\
  App.handleRejectRequest false req s = s.
Proof.
  split; [|split].
  - split; [apply filter_other_ids|].
    exists (App.newEvent req). split; reflexivity.
  - split; [apply filter_other_ids|reflexivity].
  - reflexivity.
Qed.

(** ** Updating an event *)

(** C10.  Updating with an event [u] keeps the length of the collection and
    works position by position: an event whose id is [u]'s id is replaced by
    [u], every other event stays as it is; the requests are not touched. *)
Theorem C10_update_replaces_by_id (u : CalendarEvent.t) (s : App.State) :
  let s' := App.handleUpdateEvent u s in
  length (App.events s') = length (App.events s) /\
  (forall (i : nat) (e : CalendarEvent.t),
     App.events s !! i = Some e ->
     (CalendarEvent.id e = CalendarEvent.id u -> App.events s' !! i = Some u) /\
     (CalendarEvent.id e <> CalendarEvent.id u -> App.events s' !! i = Some e)) /\
  App.requests s' = App.requests s.
Proof.
  intros s'. unfold s', App.handleUpdateEvent. cbn [App.events App.requests].
  split; [apply length_map|]. split; [|reflexivity].
  intros i e Hi. rewrite list_lookup_fmap_Some_2 with (x := e) by exact Hi.
  destruct (String.eqb_spec (CalendarEvent.id e) (CalendarEvent.id u));
    split; intros; congruence.
Qed.

(** ** Running the generator *)

Lemma lookup_fresh (l : list Z) (v : Z) : (l ++ [v]) !!! length l = v.
Proof. apply list_lookup_total_middle. reflexivity. Qed.

Lemma insert_fresh (l : list Z) (v w : Z) : <[length l := w]> (l ++ [v]) = l ++ [w].
Proof.
  rewrite insert_app_r_alt by lia. rewrite Nat.sub_diag. reflexivity.
Qed.

Lemma bind_run {A B} (c : M A) (k : A -> M B) env m :
  bind c k env m = k (fst (c env m)) env (snd (c env m)).
Proof. unfold bind. destruct (c env m); reflexivity. Qed.

Lemma Date_getDay_run l env m :
  Date.getDay l env m = (WeekDay (dates m !!! l), m).
Proof. reflexivity. Qed.

Lemma Date_getDate_run l env m :
  Date.getDate l env m = (DateFromTime (dates m !!! l), m).
Proof. reflexivity. Qed.

Lemma Date_getFullYear_run l env m :
  Date.getFullYear l env m = (YearFromTime (dates m !!! l), m).
Proof. reflexivity. Qed.

Lemma Date_setDate_run l dt env m :
  Date.setDate l dt env m
  = (DateValue.setDate (dates m !!! l) dt,
     {| dates := <[l := DateValue.setDate (dates m !!! l) dt]> (dates m);
        draws := draws m |}).
Proof. reflexivity. Qed.

Lemma Date_ofValue_run v env m :
  Date.ofValue v env m
  = (length (dates m), {| dates := dates m ++ [v]; draws := draws m |}).
Proof. reflexivity. Qed.

Lemma Date_ofFields_run year month date env m :
  Date.ofFields year month date env m
  = (length (dates m),
     {| dates := dates m ++ [DateValue.fromFields year month date 0 0];
        draws := draws m |}).
Proof. reflexivity. Qed.

Lemma toDate_run date env m :
  toDate date env m
  = (length (dates m),
     {| dates := dates m ++ [dates m !!! date]; draws := draws m |}).
Proof. reflexivity. Qed.

Lemma addDays_run date amount env m :
  addDays date amount env m
  = (length (dates m),
     {| dates := dates m ++ [dates m !!! date + amount * msPerDay];
        draws := draws m |}).
Proof.
  unfold addDays. rewrite bind_run, toDate_run. cbn [fst snd].
  destruct (Z.eqb_spec amount 0) as [-> | Hne].
  - unfold ret. rewrite Z.mul_0_l, Z.add_0_r. reflexivity.
  - rewrite bind_run, Date_getDate_run. cbn [fst snd dates].
    rewrite bind_run, Date_setDate_run. cbn [fst snd dates draws].
    unfold ret. rewrite lookup_fresh, insert_fresh.
    fold (DateValue.getDate (dates m !!! date)). rewrite setDate_shift.
    reflexivity.
Qed.

Lemma addWeeks_run date amount env m :
  addWeeks date amount env m
  = (length (dates m),
     {| dates := dates m ++ [dates m !!! date + amount * 7 * msPerDay];
        draws := draws m |}).
Proof. apply addDays_run. Qed.

Lemma lookup_third (a b c : Z) : [a; b; c] !!! 2%nat = c.
Proof. reflexivity. Qed.

Lemma setHours_run date hours env m :
  setHours date hours env m
  = (length (dates m),
     {| dates := dates m
                 ++ [DateValue.setHours (dates m !!! date) hours None None None];
        draws := draws m |}).
Proof.
  unfold setHours, toDate, Date.copy, Date.setHours, bind, load, alloc, store, ret.
  cbn [dates draws]. rewrite lookup_fresh, insert_fresh. reflexivity.
Qed.

Lemma setMinutes_run date minutes env m :
  setMinutes date minutes env m
  = (length (dates m),
     {| dates := dates m ++ [DateValue.setMinutes (dates m !!! date) minutes];
        draws := draws m |}).
Proof.
  unfold setMinutes, toDate, Date.copy, Date.setMinutes, bind, load, alloc, store, ret.
  cbn [dates draws]. rewrite lookup_fresh, insert_fresh. reflexivity.
Qed.

Lemma createEvent_run title date category floor room durationHours env m :
  createEvent title date category floor room durationHours env m
  = let v := dates m !!! date in
    ({| CalendarEvent.id := random env (draws m);
        CalendarEvent.title := title;
        CalendarEvent.start := eventStart v;
        CalendarEvent.end_ := eventEnd v durationHours;
        CalendarEvent.category := category;
        CalendarEvent.floor := floor;
        CalendarEvent.room := room;
        CalendarEvent.description := None;
        CalendarEvent.isRecurring := Some true |},
     {| dates := dates m
                 ++ [v; DateValue.setHours v 9 None None None; eventStart v;
                     eventEnd v durationHours];
        draws := S (draws m) |}).
Proof.
  unfold createEvent. cbv zeta.
  unfold bind at 1. unfold Date.copy at 1, bind at 1, load at 1, alloc at 1.
  unfold bind at 1. rewrite setHours_run. cbn [dates draws].
  unfold bind at 1. rewrite setMinutes_run. cbn [dates draws].
  unfold bind at 1. rewrite setHours_run. cbn [dates draws].
  rewrite !lookup_fresh.
  unfold bind, generateId, nextRandomId, Date.getTime, load, ret. cbn [dates draws].
  rewrite <- !app_assoc. cbn [app]. rewrite !length_app. cbn [length].
  rewrite !lookup_total_app_r by lia.
  replace (length (dates m) + 2 - length (dates m))%nat with 2%nat by lia.
  replace (length (dates m) + 3 - length (dates m))%nat with 3%nat by lia.
  reflexivity.
Qed.

Lemma pushFixed_run events title year month date category floor room env m :
  pushFixed events title year month date category floor room env m
  = let v := DateValue.fromFields year month date 0 0 in
    (events
     ++ [{| CalendarEvent.id := random env (draws m);
            CalendarEvent.title := title;
            CalendarEvent.start := eventStart v;
            CalendarEvent.end_ := eventEnd v None;
            CalendarEvent.category := category;
            CalendarEvent.floor := floor;
            CalendarEvent.room := room;
            CalendarEvent.description := None;
            CalendarEvent.isRecurring := Some true |}],
     {| dates := dates m
                 ++ [v; v; DateValue.setHours v 9 None None None; eventStart v;
                     eventEnd v None];
        draws := S (draws m) |}).
Proof.
  unfold pushFixed.
  rewrite bind_run, Date_ofFields_run. cbn [fst snd].
  rewrite bind_run, createEvent_run. cbv zeta. cbn [fst snd dates draws].
  rewrite lookup_fresh. unfold ret. rewrite <- app_assoc. reflexivity.
Qed.

(** The first two statements of the generator: [new Date()] and
    [startOfYear].  They leave the clone of today and, at the location they
    return, the first instant of the year. *)
Lemma generator_prefix {A} (rest : loc -> M A) env m :
  (let* today := Date.create in
   let* yearStart := startOfYear today in
   rest yearStart) env m
  = rest (length (dates m) + 2)%nat env
      {| dates := dates m
                  ++ [clock env; clock env;
                      MakeDate (MakeDay (YearFromTime (clock env)) 0 1) 0];
         draws := draws m |}.
Proof.
  unfold bind at 1. unfold Date.create, bind at 1, now, alloc. cbn [dates draws].
  unfold bind at 1.
  unfold startOfYear, toDate, Date.copy, Date.ofValue, Date.getFullYear,
    Date.setFullYear, Date.setHours, bind, load, alloc, store, ret.
  cbn [dates draws].
  rewrite !lookup_fresh.
  rewrite lookup_total_app_l by (rewrite !length_app; cbn [length]; lia).
  rewrite lookup_fresh, insert_fresh, lookup_fresh, insert_fresh.
  rewrite <- !app_assoc. cbn [app]. rewrite !length_app. cbn [length].
  rewrite setHours_midnight. unfold DateValue.setFullYear, DateValue.getFullYear.
  rewrite Day_MakeDate by apply TimeWithinDay_range. reflexivity.
Qed.

(** *** What holds of the result of a computation, whatever the store *)

Lemma post_ret {A} (a : A) (Q : A -> Prop) : Q a -> post (ret a) Q.
Proof. intros H env m. exact H. Qed.

Lemma post_bind {A B} (c : M A) (k : A -> M B) (R : A -> Prop) (Q : B -> Prop) :
  post c R -> (forall a, R a -> post (k a) Q) -> post (bind c k) Q.
Proof.
  intros Hc Hk env m. unfold bind. specialize (Hc env m).
  destruct (c env m) as [a m']. apply Hk. exact Hc.
Qed.

Lemma post_any {A} (c : M A) : post c (fun _ => True).
Proof. intros env m. exact I. Qed.

Lemma post_foldM {A B} (f : A -> B -> M A) (Inv : A -> Prop) (l : list B) :
  (forall a x, Inv a -> post (f a x) Inv) ->
  forall a, Inv a -> post (foldM f a l) Inv.
Proof.
  intros Hf. induction l as [|x l IH]; intros a Ha; cbn [foldM].
  - apply post_ret. exact Ha.
  - eapply post_bind; [apply Hf; exact Ha|]. intros a' Ha'. apply IH. exact Ha'.
Qed.

Lemma post_createEvent title date category floor room :
  post (createEvent title date category floor room None) ordered.
Proof.
  intros env m. rewrite createEvent_run. cbv zeta. unfold ordered.
  cbn [fst CalendarEvent.start CalendarEvent.end_]. apply eventStart_le_eventEnd.
Qed.

Lemma Forall_snoc {A} (P : A -> Prop) (l : list A) (x : A) :
  Forall P l -> P x -> Forall P (l ++ [x]).
Proof. intros Hl Hx. apply Forall_app. split; [exact Hl|]. constructor; [exact Hx|constructor]. Qed.

Lemma post_pushFixed events title year month date category floor room :
  Forall ordered events ->
  post (pushFixed events title year month date category floor room)
    (Forall ordered).
Proof.
  intros He. unfold pushFixed.
  eapply post_bind; [apply post_any|]. intros d _.
  eapply post_bind; [apply post_createEvent|]. intros e Hord.
  apply post_ret. apply Forall_snoc; assumption.
Qed.

(** Every event of the seed starts before it ends. *)
Lemma post_generateInitialData : post generateInitialData (Forall ordered).
Proof.
  unfold generateInitialData. cbv zeta.
  eapply post_bind; [apply post_any|]. intros today _.
  eapply post_bind; [apply post_any|]. intros yearStart _.
  eapply post_bind; [apply post_any|]. intros year _.
  eapply post_bind; [apply post_pushFixed; constructor|]. intros ev1 H1.
  eapply post_bind; [apply post_pushFixed; exact H1|]. intros ev2 H2.
  eapply post_bind.
  { apply post_foldM; [|exact H2]. intros a i Ha.
    eapply post_bind; [apply post_pushFixed; exact Ha|]. intros a' Ha'.
    apply post_pushFixed. exact Ha'. }
  intros ev3 H3.
  eapply post_bind.
  { apply post_foldM; [|exact H3]. intros a i Ha. unfold weeklyInspection.
    eapply post_bind; [apply post_any|]. intros day _.
    eapply post_bind; [apply post_any|]. intros date _.
    eapply post_bind; [apply post_any|]. intros v _.
    eapply post_bind; [apply post_any|]. intros monday _.
    eapply post_bind; [apply post_any|]. intros d _.
    eapply post_bind; [apply post_createEvent|]. intros e He.
    apply post_ret. apply Forall_snoc; assumption. }
  intros ev4 H4.
  eapply post_bind.
  { apply post_foldM; [|exact H4]. intros a i Ha. apply post_pushFixed. exact Ha. }
  intros ev5 H5.
  eapply post_bind.
  { apply post_foldM; [|exact H5]. intros a i Ha. apply post_pushFixed. exact Ha. }
  intros ev6 H6.
  repeat (eapply post_bind; [apply post_pushFixed; eassumption|]; intros ? ?).
  apply post_ret. assumption.
Qed.

(** ** The invariant start <= end *)

Lemma ordered_newEvent req : ordered (App.newEvent req).
Proof. unfold ordered. cbn. lia. Qed.

Lemma ordered_handleSubmit event formData :
  ordered (EditEventModal.handleSubmit event formData).
Proof.
  unfold ordered, EditEventModal.handleSubmit.
  destruct (EditEventModal.date formData) as [[y mo] d].
  cbn [CalendarEvent.start CalendarEvent.end_].
  apply setHours_later. unfold DateValue.fromFields.
  match goal with |- context [MakeDate ?day _] =>
    pose proof (fields_of_MakeDate day 9 0 0 0 ltac:(lia) ltac:(lia)
                  ltac:(lia) ltac:(lia)) as (_ & E & _)
  end.
  cbv zeta in E. rewrite E. lia.
Qed.

Lemma step_ordered s a :
  Forall ordered (App.events s) -> Forall ordered (App.events (App.step s a)).
Proof.
  intros H. destruct a as [env m|reqData id|req|confirmed req|event formData|eventId];
    cbn [App.step].
  - apply post_generateInitialData.
  - exact H.
  - apply Forall_snoc; [exact H|apply ordered_newEvent].
  - destruct confirmed; exact H.
  - unfold App.handleUpdateEvent. cbn [App.events].
    induction H as [|e l He Hl IH]; cbn [map]; constructor; [|exact IH].
    destruct (String.eqb _ _); [apply ordered_handleSubmit|exact He].
  - unfold App.handleDeleteEvent. cbn [App.events].
    induction H as [|e l He Hl IH]; cbn [List.filter]; [constructor|].
    destruct (negb _); [constructor|]; assumption.
Qed.

Lemma run_ordered actions : forall s,
  Forall ordered (App.events s) ->
  Forall ordered (App.events (fold_left App.step actions s)).
Proof.
  induction actions as [|a actions IH]; intros s H; cbn [fold_left].
  - exact H.
  - apply IH, step_ordered, H.
Qed.

(** C9.  An event never ends before it starts: this holds of every event of
    the seed, of the event made from an approved request and of the event an
    edit saves, and so of every event in the collection after any sequence of
    start-up, submissions, approvals, rejections, edits and deletions. *)
Theorem C9_start_le_end :
  (forall env m,
     Forall (fun e => CalendarEvent.start e <= CalendarEvent.end_ e)
       (fst (generateInitialData env m))) /\
  (forall req,
     CalendarEvent.start (App.newEvent req)
     <= CalendarEvent.end_ (App.newEvent req)) /\
  (forall event formData,
     CalendarEvent.start (EditEventModal.handleSubmit event formData)
     <= CalendarEvent.end_ (EditEventModal.handleSubmit event formData)) /\
  (forall actions : list App.Action,
     Forall (fun e => CalendarEvent.start e <= CalendarEvent.end_ e)
       (App.events (App.run actions))).
Proof.
  split; [|split; [|split]].
  - apply post_generateInitialData.
  - apply ordered_newEvent.
  - apply ordered_handleSubmit.
  - intros actions. apply run_ordered. constructor.
Qed.

(** ** Two runs of the generator *)

Lemma sim_ret {A} S (R : A -> A -> Prop) a1 a2 :
  R a1 a2 -> sim S R (ret a1) (ret a2).
Proof. intros H m1 m2 Hm. split; assumption. Qed.

Lemma sim_bind {A B} S (R : A -> A -> Prop) (R' : B -> B -> Prop)
    (c1 c2 : M A) (f1 f2 : A -> M B) :
  sim S R c1 c2 -> (forall a1 a2, R a1 a2 -> sim S R' (f1 a1) (f2 a2)) ->
  sim S R' (bind c1 f1) (bind c2 f2).
Proof.
  intros Hc Hf m1 m2 Hm. unfold bind.
  destruct (Hc m1 m2 Hm) as [Ha Hm'].
  destruct (c1 (envL S) m1) as [a1 m1'], (c2 (envR S) m2) as [a2 m2'].
  apply (Hf a1 a2 Ha m1' m2' Hm').
Qed.

Lemma sim_alloc S v : sim S (lrel S) (alloc v) (alloc v).
Proof.
  intros m1 m2 (H1 & H2 & Hd). unfold alloc, lrel, mrel. cbn [fst snd dates].
  assert (Hl : (length (dates m1) - baseL S = length (dates m2) - baseR S)%nat)
    by (rewrite <- !length_drop, Hd; reflexivity).
  rewrite !length_app, !drop_app_le, Hd by assumption. cbn [length].
  repeat split; lia || reflexivity.
Qed.

Lemma sim_load S l1 l2 : lrel S l1 l2 -> sim S eq (load l1) (load l2).
Proof.
  intros (L1 & L2 & L) m1 m2 Hm. split; [|exact Hm].
  destruct Hm as (H1 & H2 & Hd). unfold load. cbn [fst].
  replace l1 with (baseL S + (l1 - baseL S))%nat by lia.
  replace l2 with (baseR S + (l2 - baseR S))%nat by lia.
  rewrite <- !lookup_total_drop, Hd, L. reflexivity.
Qed.

Lemma sim_store S l1 l2 v : lrel S l1 l2 -> sim S eq (store l1 v) (store l2 v).
Proof.
  intros (L1 & L2 & L) m1 m2 (H1 & H2 & Hd). split; [reflexivity|].
  unfold store, mrel. cbn [snd dates].
  rewrite !length_insert, !drop_insert_ge, Hd, L by assumption. auto.
Qed.

Lemma sim_nextRandomId S : sim S (fun _ _ => True) nextRandomId nextRandomId.
Proof. intros m1 m2 Hm. split; [exact I|exact Hm]. Qed.

Lemma sim_foldM {A B} S (R : A -> A -> Prop) (f1 f2 : A -> B -> M A) (l : list B) :
  (forall a1 a2 x, R a1 a2 -> sim S R (f1 a1 x) (f2 a2 x)) ->
  forall a1 a2, R a1 a2 -> sim S R (foldM f1 a1 l) (foldM f2 a2 l).
Proof.
  intros Hf. induction l as [|x l IH]; intros a1 a2 Ha; cbn [foldM].
  - apply sim_ret. exact Ha.
  - eapply sim_bind; [apply Hf; exact Ha|]. intros b1 b2 Hb. apply IH. exact Hb.
Qed.

Create HintDb simdb.
#[local] Hint Resolve sim_alloc sim_load sim_store sim_nextRandomId : simdb.

(** One statement after the other: the first is related by a lemma at hand,
    and what it returns is named for the rest. *)
Ltac sim_go :=
  repeat first
    [ apply sim_ret
    | eapply sim_bind;
      [ solve [eauto with simdb]
      | let a := fresh "a" in let b := fresh "b" in let H := fresh "H" in
        intros a b H; try subst b ] ].

Lemma sim_Date_ofValue S v : sim S (lrel S) (Date.ofValue v) (Date.ofValue v).
Proof. apply sim_alloc. Qed.

Lemma sim_Date_copy S l1 l2 :
  lrel S l1 l2 -> sim S (lrel S) (Date.copy l1) (Date.copy l2).
Proof. intros. unfold Date.copy. sim_go. apply sim_alloc. Qed.

Lemma sim_Date_ofFields S y mo d :
  sim S (lrel S) (Date.ofFields y mo d) (Date.ofFields y mo d).
Proof. apply sim_alloc. Qed.

Lemma sim_Date_getFullYear S l1 l2 :
  lrel S l1 l2 -> sim S eq (Date.getFullYear l1) (Date.getFullYear l2).
Proof. intros. unfold Date.getFullYear. sim_go. reflexivity. Qed.

Lemma sim_Date_getDate S l1 l2 :
  lrel S l1 l2 -> sim S eq (Date.getDate l1) (Date.getDate l2).
Proof. intros. unfold Date.getDate. sim_go. reflexivity. Qed.

Lemma sim_Date_getDay S l1 l2 :
  lrel S l1 l2 -> sim S eq (Date.getDay l1) (Date.getDay l2).
Proof. intros. unfold Date.getDay. sim_go. reflexivity. Qed.

Lemma sim_Date_getTime S l1 l2 :
  lrel S l1 l2 -> sim S eq (Date.getTime l1) (Date.getTime l2).
Proof. apply sim_load. Qed.

Lemma sim_Date_setDate S l1 l2 dt :
  lrel S l1 l2 -> sim S eq (Date.setDate l1 dt) (Date.setDate l2 dt).
Proof. intros. unfold Date.setDate. sim_go. reflexivity. Qed.

Lemma sim_Date_setHours S l1 l2 h mi s ms :
  lrel S l1 l2 ->
  sim S eq (Date.setHours l1 h mi s ms) (Date.setHours l2 h mi s ms).
Proof. intros. unfold Date.setHours. sim_go. reflexivity. Qed.

Lemma sim_Date_setMinutes S l1 l2 mi :
  lrel S l1 l2 -> sim S eq (Date.setMinutes l1 mi) (Date.setMinutes l2 mi).
Proof. intros. unfold Date.setMinutes. sim_go. reflexivity. Qed.

#[local] Hint Resolve sim_Date_ofValue sim_Date_copy sim_Date_ofFields
  sim_Date_getFullYear sim_Date_getDate sim_Date_getDay sim_Date_getTime
  sim_Date_setDate sim_Date_setHours sim_Date_setMinutes : simdb.

Lemma sim_toDate S l1 l2 : lrel S l1 l2 -> sim S (lrel S) (toDate l1) (toDate l2).
Proof. apply sim_Date_copy. Qed.

#[local] Hint Resolve sim_toDate : simdb.

Lemma sim_addDays S l1 l2 amount :
  lrel S l1 l2 -> sim S (lrel S) (addDays l1 amount) (addDays l2 amount).
Proof.
  intros. unfold addDays. eapply sim_bind; [eauto with simdb|].
  intros d1 d2 Hd. destruct (amount =? 0); sim_go; assumption.
Qed.

Lemma sim_addWeeks S l1 l2 amount :
  lrel S l1 l2 -> sim S (lrel S) (addWeeks l1 amount) (addWeeks l2 amount).
Proof. apply sim_addDays. Qed.

Lemma sim_setHours S l1 l2 h :
  lrel S l1 l2 -> sim S (lrel S) (setHours l1 h) (setHours l2 h).
Proof. intros. unfold setHours. sim_go. assumption. Qed.

Lemma sim_setMinutes S l1 l2 mi :
  lrel S l1 l2 -> sim S (lrel S) (setMinutes l1 mi) (setMinutes l2 mi).
Proof. intros. unfold setMinutes. sim_go. assumption. Qed.

#[local] Hint Resolve sim_addWeeks sim_setHours sim_setMinutes : simdb.

Lemma sim_createEvent S title l1 l2 category floor room durationHours :
  lrel S l1 l2 ->
  sim S (fun e1 e2 => withoutId e1 = withoutId e2)
    (createEvent title l1 category floor room durationHours)
    (createEvent title l2 category floor room durationHours).
Proof.
  intros. unfold createEvent, generateId. cbv zeta. sim_go. reflexivity.
Qed.

Lemma sameButIds_snoc l1 l2 e1 e2 :
  sameButIds l1 l2 -> withoutId e1 = withoutId e2 ->
  sameButIds (l1 ++ [e1]) (l2 ++ [e2]).
Proof.
  unfold sameButIds. intros Hl He. rewrite !map_app, Hl. cbn [map].
  rewrite He. reflexivity.
Qed.

Lemma sim_pushFixed S ev1 ev2 title year month date category floor room :
  sameButIds ev1 ev2 ->
  sim S sameButIds
    (pushFixed ev1 title year month date category floor room)
    (pushFixed ev2 title year month date category floor room).
Proof.
  intros He. unfold pushFixed.
  eapply sim_bind; [apply sim_Date_ofFields|]. intros d1 d2 Hd.
  eapply sim_bind; [apply sim_createEvent; exact Hd|]. intros e1 e2 Hee.
  apply sim_ret. apply sameButIds_snoc; assumption.
Qed.

Lemma sim_run {A} S (R : A -> A -> Prop) (c1 c2 : M A) m1 m2 :
  sim S R c1 c2 -> mrel S m1 m2 ->
  R (fst (c1 (envL S) m1)) (fst (c2 (envR S) m2)).
Proof. intros Hs Hm. apply (Hs m1 m2 Hm). Qed.

(** ** Determinism of the seed *)

(** C7, amended.  Two runs of the seed generator in the same year give the
    same events in the same order except for the ids, whatever each run finds
    in the store and whatever the random source draws: the ids are the draws,
    so they are not a function of the year. *)
Theorem C7_seed_same_but_ids (env1 env2 : Env) (m1 m2 : Mem) :
  DateValue.getFullYear (clock env1) = DateValue.getFullYear (clock env2) ->
  map withoutId (fst (generateInitialData env1 m1))
  = map withoutId (fst (generateInitialData env2 m2)).
Proof.
  intros Hy. unfold DateValue.getFullYear in Hy.
  unfold generateInitialData. cbv zeta. rewrite !generator_prefix, Hy.
  set (S := {| envL := env1; envR := env2;
               baseL := (length (dates m1) + 2)%nat;
               baseR := (length (dates m2) + 2)%nat |}).
  assert (Hys : lrel S (length (dates m1) + 2)%nat (length (dates m2) + 2)%nat)
    by (unfold lrel, S; cbn; lia).
  remember (length (dates m1) + 2)%nat as ys1 eqn:E1.
  remember (length (dates m2) + 2)%nat as ys2 eqn:E2.
  apply (sim_run S sameButIds).
  2:{ unfold mrel, S. cbn [baseL baseR dates]. rewrite !length_app. cbn [length].
      replace (dates m1 ++ _) with ((dates m1 ++ [clock env1; clock env1])
        ++ [MakeDate (MakeDay (YearFromTime (clock env2)) 0 1) 0])
        by (rewrite <- app_assoc; reflexivity).
      replace (dates m2 ++ _) with ((dates m2 ++ [clock env2; clock env2])
        ++ [MakeDate (MakeDay (YearFromTime (clock env2)) 0 1) 0])
        by (rewrite <- app_assoc; reflexivity).
      subst ys1 ys2.
      rewrite !drop_app_length' by (rewrite length_app; cbn [length]; lia).
      repeat split; lia. }
  clear E1 E2.
  eapply sim_bind; [apply sim_Date_getFullYear; exact Hys|]. intros year ? <-.
  eapply sim_bind; [apply sim_pushFixed; reflexivity|]. intros a1 b1 H1.
  eapply sim_bind; [apply sim_pushFixed; exact H1|]. intros a2 b2 H2.
  eapply sim_bind.
  { apply sim_foldM; [|exact H2]. intros a b i Hab.
    eapply sim_bind; [apply sim_pushFixed; exact Hab|]. intros a' b' Hab'.
    apply sim_pushFixed. exact Hab'. }
  intros a3 b3 H3.
  eapply sim_bind.
  { apply sim_foldM; [|exact H3]. intros a b i Hab. unfold weeklyInspection.
    eapply sim_bind; [apply sim_Date_getDay; exact Hys|]. intros day ? <-.
    eapply sim_bind; [apply sim_Date_getDate; exact Hys|]. intros date ? <-.
    eapply sim_bind; [apply sim_Date_setDate; exact Hys|]. intros v ? <-.
    eapply sim_bind; [apply sim_Date_ofValue|]. intros monday1 monday2 _.
    eapply sim_bind; [apply sim_addWeeks; exact Hys|]. intros d1 d2 Hd.
    eapply sim_bind; [apply sim_createEvent; exact Hd|]. intros e1 e2 He.
    apply sim_ret. apply sameButIds_snoc; assumption. }
  intros a4 b4 H4.
  eapply sim_bind.
  { apply sim_foldM; [|exact H4]. intros a b i Hab. apply sim_pushFixed. exact Hab. }
  intros a5 b5 H5.
  eapply sim_bind.
  { apply sim_foldM; [|exact H5]. intros a b i Hab. apply sim_pushFixed. exact Hab. }
  intros a6 b6 H6.
  repeat (eapply sim_bind; [apply sim_pushFixed; eassumption|]; intros ? ? ?).
  apply sim_ret. assumption.
Qed.

(** A run in June and a run in November 2025, with other draws and another
    store. *)
Lemma C7_seed_same_but_ids_witness :
  map withoutId
    (fst (generateInitialData {| clock := clockJune2025; random := drawsA |}
            emptyStore))
  = map withoutId
      (fst (generateInitialData {| clock := clockNovember2025; random := drawsB |}
              {| dates := [0; 1; 2]; draws := 7 |})).
Proof.
  apply C7_seed_same_but_ids. vm_compute. reflexivity.
Defined.

(** C7 as stated fails: the second of two runs in June 2025 draws other ids
    than the first, so the two sequences of events differ. *)
Lemma C7_two_runs_differ :
  let env := {| clock := clockJune2025; random := drawsA |} in
  let first := generateInitialData env emptyStore in
  let second := generateInitialData env (snd first) in
  fst first <> fst second.
Proof.
  intros env first second H.
  apply (f_equal (fun l => CalendarEvent.id <$> head l)) in H.
  vm_compute in H. discriminate H.
Qed.

(** ** The weekly loop in general *)

(** What the loop does to the object of [current]: it sets it to the Monday
    on or before its day. *)
Lemma monday_step t :
  DateValue.setDate t
    (DateFromTime t - WeekDay t + (if WeekDay t =? 0 then -6 else 1))
  = mondayBefore t.
Proof.
  pose proof (WeekDay_range t) as W. unfold mondayBefore.
  replace (DateFromTime t - WeekDay t + (if WeekDay t =? 0 then -6 else 1))
    with (DateValue.getDate t + - ((WeekDay t + 6) mod 7)).
  - rewrite setDate_shift. lia.
  - unfold DateValue.getDate.
    destruct (Z.eqb_spec (WeekDay t) 0) as [E|E]; Z.div_mod_to_equations; lia.
Qed.

Lemma Day_mondayBefore t :
  Day (mondayBefore t) = Day t - (WeekDay t + 6) mod 7.
Proof.
  unfold mondayBefore.
  replace (t - (WeekDay t + 6) mod 7 * msPerDay)
    with (t + - ((WeekDay t + 6) mod 7) * msPerDay) by lia.
  rewrite Day_shift. lia.
Qed.

Lemma WeekDay_mondayBefore t : WeekDay (mondayBefore t) = 1.
Proof.
  unfold WeekDay at 1. rewrite Day_mondayBefore. unfold WeekDay.
  Z.div_mod_to_equations; lia.
Qed.

Lemma mondayBefore_idem t : mondayBefore (mondayBefore t) = mondayBefore t.
Proof.
  unfold mondayBefore at 1. rewrite WeekDay_mondayBefore.
  change ((1 + 6) mod 7) with 0. lia.
Qed.

Lemma weeklyInspection_run yearStart current events i env m :
  (yearStart < length (dates m))%nat ->
  weeklyInspection yearStart current events i env m
  = let monday := mondayBefore (dates m !!! current) in
    let h := <[current := monday]> (dates m) in
    let d := h !!! yearStart + i * 7 * msPerDay in
    (events ++ [inspection (random env (draws m)) d],
     {| dates := h ++ [monday; d; d; DateValue.setHours d 9 None None None;
                       eventStart d; eventEnd d None];
        draws := S (draws m) |}).
Proof.
  intros Hys. unfold weeklyInspection.
  rewrite bind_run, Date_getDay_run. cbn [fst snd].
  rewrite bind_run, Date_getDate_run. cbn [fst snd]. cbv zeta.
  rewrite bind_run, Date_setDate_run, monday_step. cbn [fst snd].
  rewrite bind_run, Date_ofValue_run. cbn [fst snd].
  rewrite bind_run, addWeeks_run. cbn [fst snd dates draws].
  rewrite bind_run, createEvent_run. cbv zeta. cbn [fst snd dates draws].
  rewrite lookup_fresh.
  rewrite lookup_total_app_l by (rewrite length_insert; exact Hys).
  unfold ret, inspection. rewrite <- !app_assoc. reflexivity.
Qed.

(** One pass with [current] the object of [yearStart] leaves that object on
    the Monday: the loop changes the date it counts the weeks from. *)
Lemma weeklyInspection_moves_yearStart yearStart events i env m :
  (yearStart < length (dates m))%nat ->
  dates (snd (weeklyInspection yearStart yearStart events i env m)) !!! yearStart
  = mondayBefore (dates m !!! yearStart).
Proof.
  intros Hys. rewrite weeklyInspection_run by exact Hys. cbv zeta.
  cbn [snd dates].
  rewrite lookup_total_app_l by (rewrite length_insert; exact Hys).
  apply list_lookup_total_insert_eq. exact Hys.
Qed.

Lemma map_seq_shift {A} (f g : nat -> A) (n : nat) :
  (forall k, g k = f (S k)) -> map g (seq 0 n) = map f (seq 1 n).
Proof.
  intros H. rewrite <- seq_shift, map_map. apply map_ext. exact H.
Qed.

(** With [current] the same object as [yearStart], as in the generator, the
    week [i] is counted from the Monday on or before the date the object
    held when the loop began. *)
Lemma weekly_loop_aliased n : forall a events env m yearStart,
  (yearStart < length (dates m))%nat ->
  fst (foldM (weeklyInspection yearStart yearStart) events
         (map Z.of_nat (seq a n)) env m)
  = events
    ++ map (fun k =>
              inspection (random env (draws m + k)%nat)
                (mondayBefore (dates m !!! yearStart)
                 + Z.of_nat (a + k) * 7 * msPerDay))
         (seq 0 n).
Proof.
  induction n as [|n IH]; intros a events env m ys Hys.
  - cbn [seq map foldM]. unfold ret. cbn [fst]. rewrite app_nil_r. reflexivity.
  - cbn [seq map foldM]. rewrite bind_run, weeklyInspection_run by exact Hys.
    cbv zeta. cbn [fst snd].
    rewrite IH by (cbn [dates]; rewrite length_app, length_insert; lia).
    cbn [dates draws].
    rewrite lookup_total_app_l by (rewrite length_insert; exact Hys).
    rewrite list_lookup_total_insert_eq by exact Hys.
    rewrite mondayBefore_idem, <- app_assoc. f_equal. cbn [app]. f_equal.
    + do 2 f_equal; lia.
    + apply map_seq_shift. intros k. do 2 f_equal; lia.
Qed.

(** With [current] another object than [yearStart], the week [i] is counted
    from the date the object of [yearStart] holds, which the loop then never
    changes. *)
Lemma weekly_loop_separate n : forall a events env m yearStart current,
  (yearStart < length (dates m))%nat -> yearStart <> current ->
  fst (foldM (weeklyInspection yearStart current) events
         (map Z.of_nat (seq a n)) env m)
  = events
    ++ map (fun k =>
              inspection (random env (draws m + k)%nat)
                (dates m !!! yearStart + Z.of_nat (a + k) * 7 * msPerDay))
         (seq 0 n).
Proof.
  induction n as [|n IH]; intros a events env m ys cur Hys Hne.
  - cbn [seq map foldM]. unfold ret. cbn [fst]. rewrite app_nil_r. reflexivity.
  - cbn [seq map foldM]. rewrite bind_run, weeklyInspection_run by exact Hys.
    cbv zeta. cbn [fst snd].
    rewrite IH by
      (try (cbn [dates]; rewrite length_app, length_insert; lia); exact Hne).
    cbn [dates draws].
    rewrite lookup_total_app_l by (rewrite length_insert; exact Hys).
    rewrite list_lookup_total_insert_ne by congruence.
    rewrite <- app_assoc. f_equal. cbn [app]. f_equal.
    + do 2 f_equal; lia.
    + apply map_seq_shift. intros k. do 2 f_equal; lia.
Qed.

(** ** The inspections among the events of the seed *)

Lemma appends_pushFixed title year month date category floor room :
  String.eqb title "Chiller Inspection" = false ->
  appends (fun events =>
             pushFixed events title year month date category floor room) 1.
Proof.
  intros Ht events env m. rewrite pushFixed_run. cbv zeta.
  eexists _, _. split.
  - rewrite Nat.add_1_r. reflexivity.
  - constructor; [exact Ht|constructor].
Qed.

Lemma appends_ret : appends (fun events => ret events) 0.
Proof.
  intros events env m. exists [], []. split; [|constructor].
  unfold ret. rewrite !app_nil_r, Nat.add_0_r. destruct m; reflexivity.
Qed.

Lemma appends_bind c1 c2 n1 n2 :
  appends c1 n1 -> appends c2 n2 ->
  appends (fun events => let* events' := c1 events in c2 events') (n1 + n2).
Proof.
  intros H1 H2 events env m. rewrite bind_run.
  destruct (H1 events env m) as (a1 & x1 & E1 & Q1). rewrite E1. cbn [fst snd].
  destruct (H2 (events ++ a1) env {| dates := dates m ++ x1; draws := draws m + n1 |})
    as (a2 & x2 & E2 & Q2).
  rewrite E2. cbn [dates draws]. exists (a1 ++ a2), (x1 ++ x2). split.
  - rewrite !app_assoc, Nat.add_assoc. reflexivity.
  - apply Forall_app. split; assumption.
Qed.

Lemma appends_foldM {B} (f : list CalendarEvent.t -> B -> M (list CalendarEvent.t))
    (n : nat) (l : list B) :
  (forall x, appends (fun events => f events x) n) ->
  appends (fun events => foldM f events l) (length l * n).
Proof.
  intros Hf. induction l as [|x l IH]; cbn [foldM length Nat.mul].
  - apply appends_ret.
  - apply (appends_bind (fun events => f events x) (fun events => foldM f events l)).
    + apply Hf.
    + exact IH.
Qed.

(** A quiet stretch followed by the rest of the program. *)
Lemma appends_then {A} c n (k : list CalendarEvent.t -> M A) events env m :
  appends c n ->
  exists added extra,
    Forall quiet added /\
    bind (c events) k env m
    = k (events ++ added) env
        {| dates := dates m ++ extra; draws := (draws m + n)%nat |}.
Proof.
  intros H. destruct (H events env m) as (a & x & E & Q).
  exists a, x. split; [exact Q|]. rewrite bind_run, E. reflexivity.
Qed.

Lemma filter_quiet (l : list CalendarEvent.t) :
  Forall quiet l -> List.filter isChillerInspection l = [].
Proof.
  induction 1 as [|e l He Hl IH]; cbn [List.filter]; [reflexivity|].
  unfold quiet in He. rewrite He. exact IH.
Qed.

Lemma filter_inspections (f : nat -> string) (g : nat -> Z) (l : list nat) :
  List.filter isChillerInspection (map (fun k => inspection (f k) (g k)) l)
  = map (fun k => inspection (f k) (g k)) l.
Proof.
  induction l as [|k l IH]; cbn [map List.filter]; [reflexivity|].
  change (isChillerInspection (inspection (f k) (g k))) with true.
  cbv iota. rewrite IH. reflexivity.
Qed.

Lemma bind_fst_appends (c : M (list CalendarEvent.t)) k n env m :
  appends k n ->
  exists added,
    fst (bind c k env m) = fst (c env m) ++ added /\ Forall quiet added.
Proof.
  intros H. rewrite bind_run.
  destruct (H (fst (c env m)) env (snd (c env m))) as (a & x & E & Q).
  exists a. rewrite E. split; [reflexivity|exact Q].
Qed.

Ltac quiet_push :=
  match goal with
  | |- context [bind (pushFixed ?ev ?t ?y ?mo ?d ?c ?f ?r) ?k ?e ?mm] =>
      let a := fresh "added" in let x := fresh "extra" in
      let Q := fresh "Q" in let E := fresh "E" in
      destruct (appends_then
                  (fun events => pushFixed events t y mo d c f r) 1 k ev e mm
                  (appends_pushFixed t y mo d c f r eq_refl))
        as (a & x & Q & E);
      rewrite E; clear E; cbv beta; cbn [dates draws]
  end.

Lemma inspections_of_seed env m :
  List.filter isChillerInspection (fst (generateInitialData env m))
  = map (fun k =>
           inspection (random env (draws m + 26 + k)%nat)
             (mondayBefore (yearStartValue (clock env))
              + Z.of_nat k * 7 * msPerDay))
      (seq 0 52).
Proof.
  unfold generateInitialData. cbv zeta. rewrite generator_prefix.
  rewrite bind_run, Date_getFullYear_run. cbn [fst snd dates draws].
  match goal with |- context [pushFixed [] _ ?y _ _ _ _ _] => set (year := y) end.
  quiet_push. quiet_push.
  match goal with
  | |- context [bind (foldM ?f ?ev ?l) ?k ?e ?mm] =>
      destruct (appends_then (fun events => foldM f events l) (length l * 2)
                  k ev e mm) as (added1 & extra1 & Q1 & E1)
  end.
  { apply appends_foldM. intros x.
    apply (appends_bind _ _ 1 1); apply appends_pushFixed; reflexivity. }
  rewrite E1. clear E1. cbv beta. cbn [dates draws].
  match goal with
  | |- context [bind (foldM (weeklyInspection ?a ?b) ?ev ?l) ?k ?e ?mm] =>
      destruct (bind_fst_appends (foldM (weeklyInspection a b) ev l) k 28 e mm)
        as (added2 & E2 & Q2)
  end.
  { apply (appends_bind _ _ 4 24).
    { apply (appends_foldM _ 1 [0; 3; 6; 9]). intros x.
      apply appends_pushFixed. reflexivity. }
    apply (appends_bind _ _ 12 12).
    { apply (appends_foldM _ 1 (upto 12)). intros x.
      apply appends_pushFixed. reflexivity. }
    do 11 (apply (appends_bind _ _ 1); [apply appends_pushFixed; reflexivity|]).
    apply (appends_bind _ _ 1 0); [apply appends_pushFixed; reflexivity|].
    apply appends_ret. }
  rewrite E2. clear E2.
  unfold upto at 1.
  rewrite weekly_loop_aliased by (cbn [dates]; rewrite !length_app; cbn [length]; lia).
  cbn [dates draws].
  rewrite !List.filter_app, filter_inspections.
  rewrite (filter_quiet added), (filter_quiet added0), (filter_quiet added1),
    (filter_quiet added2) by assumption.
  cbn [List.filter app]. rewrite app_nil_r.
  assert (Hys : ((((dates m
                   ++ [clock env; clock env;
                       MakeDate (MakeDay (YearFromTime (clock env)) 0 1) 0])
                  ++ extra) ++ extra0) ++ extra1) !!! (length (dates m) + 2)%nat
                = yearStartValue (clock env)).
  { rewrite !lookup_total_app_l by (rewrite !length_app; cbn [length]; lia).
    rewrite lookup_total_app_r by lia.
    replace (length (dates m) + 2 - length (dates m))%nat with 2%nat by lia.
    unfold yearStartValue. apply lookup_third. }
  rewrite Hys. apply map_ext. intros k.
  change (length (upto 12)) with 12%nat. do 2 f_equal; lia.
Qed.

(** Every run of the generator counts the weeks from the Monday on or before
    the first day of the year. *)
Lemma inspectionOffsets_value env m :
  inspectionOffsets env m
  = map (fun i => 7 * i - (WeekDay (yearStartValue (clock env)) + 6) mod 7)
      (upto 52).
Proof.
  unfold inspectionOffsets. rewrite inspections_of_seed.
  unfold upto. rewrite !map_map. apply map_ext. intros k.
  unfold inspection. cbn [CalendarEvent.start].
  destruct (eventStart_fields
              (mondayBefore (yearStartValue (clock env))
               + Z.of_nat k * 7 * msPerDay)) as (-> & _).
  rewrite Day_shift, Day_mondayBefore. lia.
Qed.

(** ** The weekly inspections *)

(** C1.  The generator makes 52 weekly inspections, and in every run
    inspection [i] starts [7 * i] days after the Monday on or before the first
    day of the year, because the first pass of the loop moves the year-start
    object, which [current] names too, back to that Monday.  In 2025, whose
    first day is a Wednesday, inspection [i] so starts [7 * i - 2] days after the
    start of the year and not [7 * i] days after it; the first inspection
    lies in 2024. *)
Theorem C1_weekly_loop_counts_from_monday :
  (forall env m,
     inspectionOffsets env m
     = map (fun i => 7 * i - (WeekDay (yearStartValue (clock env)) + 6) mod 7)
         (upto 52)) /\
  (forall (random : nat -> string) (n : nat),
     let env := {| clock := clockJune2025; random := random |} in
     let m := {| dates := []; draws := n |} in
     inspectionOffsets env m = map (fun i => 7 * i - 2) (upto 52) /\
     inspectionOffsets env m <> map (fun i => 7 * i) (upto 52) /\
     YearFromTime
       (default 0
          (CalendarEvent.start <$>
             head (List.filter isChillerInspection
                     (fst (generateInitialData env m)))))
     = 2024).
Proof.
  split; [exact inspectionOffsets_value|].
  intros random n env m.
  assert (E : inspectionOffsets env m = map (fun i => 7 * i - 2) (upto 52))
    by (vm_compute; reflexivity).
  split; [exact E|]. split.
  - rewrite E. vm_compute. discriminate.
  - vm_compute. reflexivity.
Qed.

(** The first inspection in the years 2023 to 2030: it is on the first day of
    the year only when that day is a Monday (2024 and 2029). *)
Lemma first_inspection_offset_by_year :
  map (fun year =>
         head (inspectionOffsets
                 {| clock := DateValue.fromFields year 5 15 12 30;
                    random := drawsA |} emptyStore))
    [2023; 2024; 2025; 2026; 2027; 2028; 2029; 2030]
  = [Some (-6); Some 0; Some (-2); Some (-3); Some (-4); Some (-5); Some 0;
     Some (-1)].
Proof. vm_compute. reflexivity. Qed.

(** ** Checks on concrete inputs *)

(** The grid of February 2025 has five weeks, from Sunday 26 January to
    Saturday 1 March. *)
Example days_february_2025 :
  CalendarView.days (DateValue.fromFields 2025 1 10 3 4)
  = Ok (midnights (MakeDay 2025 0 26) 35)
  /\ MakeDay 2025 0 26 + 34 = MakeDay 2025 2 1.
Proof. split; vm_compute; reflexivity. Qed.

(** The grid of February 2026, which starts on a Sunday and ends on a
    Saturday, has four weeks. *)
Example days_february_2026 :
  CalendarView.days (DateValue.fromFields 2026 1 10 3 4)
  = Ok (midnights (MakeDay 2026 1 1) 28).
Proof. vm_compute. reflexivity. Qed.

(** The seed of 2025 has 106 events; the first two are the backflow
    inspections of 15 January and 15 July, floor 1, from 9 to 10 o'clock. *)
Example seed_2025_backflow :
  let events :=
    fst (generateInitialData {| clock := clockJune2025; random := drawsA |}
           emptyStore) in
  length events = 106%nat /\
  map (fun e => (CalendarEvent.title e, CalendarEvent.start e,
                 CalendarEvent.end_ e, CalendarEvent.floor e,
                 CalendarEvent.room e))
    (take 2 events)
  = [("Backflow Inspection", DateValue.fromFields 2025 0 15 9 0,
      DateValue.fromFields 2025 0 15 10 0, Floor1, "Garage/Main Line");
     ("Backflow Inspection", DateValue.fromFields 2025 6 15 9 0,
      DateValue.fromFields 2025 6 15 10 0, Floor1, "Garage/Main Line")].
Proof. split; vm_compute; reflexivity. Qed.

(** A floor filter hides the events of other floors, a category flag that is
    off hides the category on every floor. *)
Example isVisible_samples :
  CalendarView.isVisible (FilterState.mk true true true (Some Floor2)) sampleEvent
  = true /\
  CalendarView.isVisible (FilterState.mk true true true (Some Floor3)) sampleEvent
  = false /\
  CalendarView.isVisible (FilterState.mk true true false None) sampleEvent
  = false.
Proof. repeat split; reflexivity. Qed.

(** A request goes through the inbox: submitted, then approved. *)
Example submit_then_approve :
  let data :=
    {| App.title := "Fix AC"; App.date := DateValue.fromFields 2025 2 10 0 0;
       App.category := Maintenance; App.floor := Floor3; App.room := "Offices";
       App.description := "" |} in
  let s1 := App.handleSubmitRequest data "r1" App.initial in
  let s2 :=
    match App.requests s1 with
    | req :: _ => App.handleApproveRequest req s1
    | [] => s1
    end in
  App.requests s2 = [] /\
  map (fun e => (CalendarEvent.id e, Floor_number (CalendarEvent.floor e),
                 CalendarEvent.room e, CalendarEvent.category e))
    (App.events s2)
  = [("r1", 3, "Offices", Maintenance)].
Proof. split; vm_compute; reflexivity. Qed.

(** * Further properties *)

(** ** Months and their days *)

Lemma DateFromTime_le t :
  DateFromTime t <= DaysInMonth (MonthFromTime t) (InLeapYear t).
Proof.
  unfold DateFromTime, MonthFromTime. rewrite InLeapYear_leapFlag.
  pose proof (DayWithinYear_range t) as R.
  destruct (leapFlag_cases (YearFromTime t)) as [[E Y]|[E Y]]; rewrite E, Y in *;
    unfold MonthOfDayWithinYear;
    repeat (match goal with |- context [?a <? ?b] => destruct (Z.ltb_spec a b) end);
    cbn [FirstDayOfMonth DaysInMonth]; lia.
Qed.

(** A time lies in month [m] of year [y] exactly when its day lies from the
    first of the month to the day before the first of the next month. *)
Lemma in_month_iff y m t :
  0 <= m < 12 ->
  (YearFromTime t = y /\ MonthFromTime t = m
   <-> MakeDay y m 1 <= Day t < MakeDay y (m + 1) 1).
Proof.
  intros Hm. pose proof (MakeDay_month_length y m Hm) as L. split.
  - intros [Hy Hmo]. pose proof (MakeDay_fields t) as F.
    rewrite Hy, Hmo, MakeDay_date in F.
    pose proof (DateFromTime_pos t). pose proof (DateFromTime_le t) as U.
    rewrite InLeapYear_leapFlag, Hy, Hmo in U. lia.
  - intros H.
    destruct (fields_of_MakeDay y m (Day t - MakeDay y m 1 + 1) t Hm) as (Hy & Hmo & _);
      [lia|rewrite (MakeDay_date y m (Day t - MakeDay y m 1 + 1)); lia|].
    split; assumption.
Qed.

Lemma isSameMonth_iff a b :
  isSameMonth a b = true
  <-> YearFromTime a = YearFromTime b /\ MonthFromTime a = MonthFromTime b.
Proof.
  unfold isSameMonth, DateValue.getFullYear, DateValue.getMonth.
  rewrite andb_true_iff, !Z.eqb_eq. reflexivity.
Qed.

Lemma fromFields_value year month date hours minutes :
  ~ (0 <= year <= 99) ->
  DateValue.fromFields year month date hours minutes
  = MakeDate (MakeDay year month date) (MakeTime hours minutes 0 0).
Proof.
  intros H. unfold DateValue.fromFields.
  destruct (Z.leb_spec 0 year), (Z.leb_spec year 99); cbn [andb];
    try reflexivity; lia.
Qed.

(** Month [m + k] of year [y], with the months carried into the years. *)
Lemma MakeDay_carry y m :
  MakeDay y m 1 = MakeDay (y + m / 12) (m mod 12) 1.
Proof.
  unfold MakeDay.
  assert (0 <= m mod 12 < 12) as H by (apply Z.mod_pos_bound; lia).
  rewrite (Z.div_small (m mod 12)), (Z.mod_small (m mod 12)), Z.add_0_r by lia.
  reflexivity.
Qed.

Lemma fields_of_month_start y m t :
  Day t = MakeDay y m 1 ->
  YearFromTime t = y + m / 12 /\ MonthFromTime t = m mod 12 /\ DateFromTime t = 1.
Proof.
  intros H. rewrite MakeDay_carry in H.
  apply fields_of_first; [apply Z.mod_pos_bound; lia|exact H].
Qed.

(** ** Moving between months *)

Lemma nextMonth_value t :
  ~ (0 <= YearFromTime t <= 99) ->
  CalendarControls.nextMonth t
  = MakeDate (MakeDay (YearFromTime t) (MonthFromTime t + 1) 1) 0.
Proof.
  intros H. unfold CalendarControls.nextMonth, DateValue.getFullYear,
    DateValue.getMonth.
  rewrite fromFields_value by exact H. reflexivity.
Qed.

Lemma prevMonth_value t :
  ~ (0 <= YearFromTime t <= 99) ->
  CalendarControls.prevMonth t
  = MakeDate (MakeDay (YearFromTime t) (MonthFromTime t - 1) 1) 0.
Proof.
  intros H. unfold CalendarControls.prevMonth, DateValue.getFullYear,
    DateValue.getMonth.
  rewrite fromFields_value by exact H. reflexivity.
Qed.

Lemma Day_midnight d : Day (MakeDate d 0) = d.
Proof. apply Day_MakeDate. unfold msPerDay. lia. Qed.

Lemma TimeWithinDay_midnight d : TimeWithinDay (MakeDate d 0) = 0.
Proof. apply TimeWithinDay_MakeDate. unfold msPerDay. lia. Qed.

Lemma fields_of_nextMonth t :
  ~ (0 <= YearFromTime t <= 99) ->
  (YearFromTime (CalendarControls.nextMonth t),
   MonthFromTime (CalendarControls.nextMonth t))
  = followingMonth (YearFromTime t) (MonthFromTime t) /\
  DateFromTime (CalendarControls.nextMonth t) = 1.
Proof.
  intros H. rewrite nextMonth_value by exact H.
  pose proof (MonthFromTime_range t) as R.
  destruct (fields_of_month_start (YearFromTime t) (MonthFromTime t + 1)
              (MakeDate (MakeDay (YearFromTime t) (MonthFromTime t + 1) 1) 0)
              (Day_midnight _)) as (Ey & Em & Ed).
  rewrite Ey, Em, Ed. split; [|reflexivity]. unfold followingMonth.
  destruct (Z.eqb_spec (MonthFromTime t) 11) as [E|E].
  - rewrite E. reflexivity.
  - rewrite Z.div_small, Z.mod_small by lia. f_equal. lia.
Qed.

Lemma fields_of_prevMonth t :
  ~ (0 <= YearFromTime t <= 99) ->
  (YearFromTime (CalendarControls.prevMonth t),
   MonthFromTime (CalendarControls.prevMonth t))
  = precedingMonth (YearFromTime t) (MonthFromTime t) /\
  DateFromTime (CalendarControls.prevMonth t) = 1.
Proof.
  intros H. rewrite prevMonth_value by exact H.
  pose proof (MonthFromTime_range t) as R.
  destruct (fields_of_month_start (YearFromTime t) (MonthFromTime t - 1)
              (MakeDate (MakeDay (YearFromTime t) (MonthFromTime t - 1) 1) 0)
              (Day_midnight _)) as (Ey & Em & Ed).
  rewrite Ey, Em, Ed. split; [|reflexivity]. unfold precedingMonth.
  destruct (Z.eqb_spec (MonthFromTime t) 0) as [E|E].
  - rewrite E. reflexivity.
  - rewrite Z.div_small, Z.mod_small by lia. f_equal. lia.
Qed.

(** X1.  From year 100 on, the buttons of the toolbar move to the first day,
    at midnight, of the month after and of the month before the month shown;
    December is followed by the January of the next year and January preceded
    by the December of the year before. *)
Theorem month_buttons_move_one_month (currentDate : Z) :
  100 <= DateValue.getFullYear currentDate ->
  let y := DateValue.getFullYear currentDate in
  let m := DateValue.getMonth currentDate in
  let next := CalendarControls.nextMonth currentDate in
  let prev := CalendarControls.prevMonth currentDate in
  (DateValue.getFullYear next, DateValue.getMonth next) = followingMonth y m /\
  DateValue.getDate next = 1 /\ TimeWithinDay next = 0 /\
  (DateValue.getFullYear prev, DateValue.getMonth prev) = precedingMonth y m /\
  DateValue.getDate prev = 1 /\ TimeWithinDay prev = 0.
Proof.
  unfold DateValue.getFullYear, DateValue.getMonth, DateValue.getDate.
  intros H. cbv zeta.
  assert (Hq : ~ (0 <= YearFromTime currentDate <= 99)) by lia.
  destruct (fields_of_nextMonth currentDate Hq) as (En & Dn).
  destruct (fields_of_prevMonth currentDate Hq) as (Ep & Dp).
  repeat split; try assumption.
  - rewrite nextMonth_value by exact Hq. apply TimeWithinDay_midnight.
  - rewrite prevMonth_value by exact Hq. apply TimeWithinDay_midnight.
Qed.

Lemma month_buttons_move_one_month_witness :
  let currentDate := DateValue.fromFields 2025 11 24 17 30 in
  let next := CalendarControls.nextMonth currentDate in
  let prev := CalendarControls.prevMonth currentDate in
  (DateValue.getFullYear next, DateValue.getMonth next) = (2026, 0) /\
  DateValue.getDate next = 1 /\ TimeWithinDay next = 0 /\
  (DateValue.getFullYear prev, DateValue.getMonth prev) = (2025, 10) /\
  DateValue.getDate prev = 1 /\ TimeWithinDay prev = 0.
Proof.
  intros currentDate.
  apply (month_buttons_move_one_month currentDate). vm_compute. discriminate.
Defined.

(** In the years 0 to 99 the two-digit rule of [new Date(year, month)] takes
    the buttons to the twentieth century. *)
Lemma month_buttons_two_digit_year t :
  0 <= DateValue.getFullYear t <= 99 ->
  CalendarControls.nextMonth t
  = MakeDate (MakeDay (1900 + YearFromTime t) (MonthFromTime t + 1) 1) 0.
Proof.
  unfold CalendarControls.nextMonth, DateValue.getFullYear, DateValue.getMonth,
    DateValue.fromFields.
  intros H.
  destruct (Z.leb_spec 0 (YearFromTime t)), (Z.leb_spec (YearFromTime t) 99);
    try lia.
  reflexivity.
Qed.

(** X2.  After year 100, going to the next month and back, or to the previous
    month and forth, shows the month one started from: the date is the first
    instant of the month of the date one left. *)
Theorem month_buttons_round_trip (currentDate : Z) :
  100 < DateValue.getFullYear currentDate ->
  CalendarControls.prevMonth (CalendarControls.nextMonth currentDate)
  = startOfMonth currentDate /\
  CalendarControls.nextMonth (CalendarControls.prevMonth currentDate)
  = startOfMonth currentDate.
Proof.
  unfold DateValue.getFullYear. intros H.
  assert (Hq : ~ (0 <= YearFromTime currentDate <= 99)) by lia.
  destruct (fields_of_nextMonth currentDate Hq) as (En & _).
  destruct (fields_of_prevMonth currentDate Hq) as (Ep & _).
  pose proof (MonthFromTime_range currentDate) as R.
  rewrite startOfMonth_value.
  unfold followingMonth in En. unfold precedingMonth in Ep.
  split.
  - rewrite prevMonth_value.
    + f_equal.
      destruct (Z.eqb_spec (MonthFromTime currentDate) 11) as [E|E];
        injection En as -> ->.
      * rewrite E, (MakeDay_carry (YearFromTime currentDate + 1) (0 - 1)).
        change ((0 - 1) / 12) with (-1). change ((0 - 1) mod 12) with 11.
        f_equal; lia.
      * f_equal. lia.
    + destruct (Z.eqb_spec (MonthFromTime currentDate) 11);
        injection En as -> _; lia.
  - rewrite nextMonth_value.
    + f_equal.
      destruct (Z.eqb_spec (MonthFromTime currentDate) 0) as [E|E];
        injection Ep as -> ->.
      * rewrite E, (MakeDay_carry (YearFromTime currentDate - 1) (11 + 1)).
        change ((11 + 1) / 12) with 1. change ((11 + 1) mod 12) with 0.
        f_equal; lia.
      * f_equal. lia.
    + destruct (Z.eqb_spec (MonthFromTime currentDate) 0);
        injection Ep as -> _; lia.
Qed.

Lemma month_buttons_round_trip_witness :
  let currentDate := DateValue.fromFields 2025 0 31 8 0 in
  CalendarControls.prevMonth (CalendarControls.nextMonth currentDate)
  = startOfMonth currentDate /\
  CalendarControls.nextMonth (CalendarControls.prevMonth currentDate)
  = startOfMonth currentDate.
Proof.
  intros currentDate.
  apply (month_buttons_round_trip currentDate). vm_compute. reflexivity.
Defined.

(** ** The grid from month to month *)

Lemma WeekDay_Day t : WeekDay t = (Day t + 4) mod 7.
Proof. reflexivity. Qed.

Lemma gridEnd_next y m :
  gridEnd y m = MakeDay y (m + 1) 1 + 5 - (MakeDay y (m + 1) 1 + 3) mod 7.
Proof.
  unfold gridEnd. rewrite (MakeDay_date y (m + 1) 0).
  replace (MakeDay y (m + 1) 1 + 0 - 1 + 4) with (MakeDay y (m + 1) 1 + 3) by lia.
  lia.
Qed.

Lemma grid_nonempty y m : 0 <= m < 12 -> 28 <= gridEnd y m - gridStart y m + 1.
Proof.
  intros Hm. pose proof (gridStart_facts y m) as (_ & S).
  pose proof (gridEnd_facts y m) as (_ & E).
  pose proof (MakeDay_next_month y m Hm) as L.
  rewrite (MakeDay_date y (m + 1) 0) in E. lia.
Qed.

Lemma days_first_last t :
  exists n,
    CalendarView.days t
    = Ok (midnights (gridStart (YearFromTime t) (MonthFromTime t)) (S n)) /\
    gridStart (YearFromTime t) (MonthFromTime t) + Z.of_nat n
    = gridEnd (YearFromTime t) (MonthFromTime t).
Proof.
  pose proof (grid_nonempty (YearFromTime t) (MonthFromTime t)
                (MonthFromTime_range t)) as N.
  exists (Z.to_nat (gridEnd (YearFromTime t) (MonthFromTime t)
                    - gridStart (YearFromTime t) (MonthFromTime t))).
  split; [|lia].
  rewrite (days_value t). unfold DateValue.getFullYear, DateValue.getMonth.
  do 2 f_equal. lia.
Qed.

Lemma grids_meet y m :
  gridStart y (m + 1)
  = if (MakeDay y (m + 1) 1 + 4) mod 7 =? 0 then gridEnd y m + 1
    else gridEnd y m - 6.
Proof.
  rewrite gridEnd_next. unfold gridStart.
  destruct (Z.eqb_spec ((MakeDay y (m + 1) 1 + 4) mod 7) 0) as [E|E];
    Z.div_mod_to_equations; lia.
Qed.

(** X3.  The grid of the month after starts either on the day after the grid
    of the month ends, when the month after starts on a Sunday, or six days
    before that end: the week in which the month changes is the last row of
    one grid and the first row of the next. No day falls between two grids. *)
Theorem next_grid_joins_or_overlaps (currentDate : Z) :
  100 <= DateValue.getFullYear currentDate ->
  exists ds ds' final first,
    CalendarView.days currentDate = Ok ds /\
    CalendarView.days (CalendarControls.nextMonth currentDate) = Ok ds' /\
    last ds = Some final /\
    head ds' = Some first /\
    Day first
    = (if DateValue.getDay (CalendarControls.nextMonth currentDate) =? 0
       then Day final + 1 else Day final - 6).
Proof.
  unfold DateValue.getFullYear. intros H.
  assert (Hq : ~ (0 <= YearFromTime currentDate <= 99)) by lia.
  assert (Dn : Day (CalendarControls.nextMonth currentDate)
               = MakeDay (YearFromTime currentDate)
                   (MonthFromTime currentDate + 1) 1).
  { rewrite nextMonth_value by exact Hq. apply Day_midnight. }
  destruct (fields_of_month_start _ _ _ Dn) as (Ey & Em & _).
  destruct (days_first_last currentDate) as (n & D & E).
  destruct (days_first_last (CalendarControls.nextMonth currentDate))
    as (n' & D' & _).
  exists (midnights (gridStart (YearFromTime currentDate)
                       (MonthFromTime currentDate)) (S n)),
    (midnights (gridStart (YearFromTime (CalendarControls.nextMonth currentDate))
                  (MonthFromTime (CalendarControls.nextMonth currentDate)))
       (S n')),
    (MakeDate (gridEnd (YearFromTime currentDate) (MonthFromTime currentDate)) 0),
    (MakeDate (gridStart (YearFromTime (CalendarControls.nextMonth currentDate))
                 (MonthFromTime (CalendarControls.nextMonth currentDate))) 0).
  split; [exact D|]. split; [exact D'|].
  split; [rewrite <- E; apply midnights_last|]. split; [apply midnights_head|].
  rewrite !Day_midnight.
  unfold DateValue.getDay. rewrite WeekDay_Day, Dn, <- grids_meet.
  unfold gridStart. rewrite Ey, Em, <- MakeDay_carry. reflexivity.
Qed.

Lemma next_grid_joins_or_overlaps_witness :
  exists ds ds' final first,
    CalendarView.days clockJune2025 = Ok ds /\
    CalendarView.days (CalendarControls.nextMonth clockJune2025) = Ok ds' /\
    last ds = Some final /\
    head ds' = Some first /\
    Day first
    = (if DateValue.getDay (CalendarControls.nextMonth clockJune2025) =? 0
       then Day final + 1 else Day final - 6).
Proof.
  apply (next_grid_joins_or_overlaps clockJune2025). vm_compute. discriminate.
Defined.

(** X4.  The grid has four, five or six rows of seven days: as many as the
    weeks the month touches, which the weekday of its first day and its length
    decide. Four rows are a February of 28 days that starts on a Sunday. *)
Theorem grid_has_four_to_six_weeks (currentDate : Z) :
  let w := DateValue.getDay (startOfMonth currentDate) in
  let n := DaysInMonth (DateValue.getMonth currentDate)
             (leapFlag (DateValue.getFullYear currentDate)) in
  exists ds,
    CalendarView.days currentDate = Ok ds /\
    Z.of_nat (length ds) = 7 * ((w + n + 6) / 7) /\
    (length ds = 28%nat \/ length ds = 35%nat \/ length ds = 42%nat) /\
    (length ds = 28%nat <-> w = 0 /\ n = 28).
Proof.
  cbv zeta. unfold DateValue.getDay, DateValue.getMonth, DateValue.getFullYear.
  pose proof (MonthFromTime_range currentDate) as R.
  set (y := YearFromTime currentDate) in *.
  set (m := MonthFromTime currentDate) in *.
  pose proof (days_value currentDate) as D. cbv zeta in D.
  unfold DateValue.getFullYear, DateValue.getMonth in D. fold y m in D.
  eexists. split; [exact D|]. rewrite midnights_length.
  rewrite WeekDay_Day, startOfMonth_value, Day_midnight. fold y m.
  pose proof (grid_nonempty y m R) as N.
  pose proof (MakeDay_month_length y m R) as L.
  pose proof (MakeDay_next_month y m R) as B.
  assert (E : gridEnd y m - gridStart y m + 1
              = 7 * (((MakeDay y m 1 + 4) mod 7
                      + DaysInMonth m (leapFlag y) + 6) / 7)).
  { rewrite gridEnd_next. unfold gridStart. rewrite <- L.
    Z.div_mod_to_equations; lia. }
  rewrite <- L in *.
  assert (W : 0 <= (MakeDay y m 1 + 4) mod 7 < 7) by (apply Z.mod_pos_bound; lia).
  split; [|split].
  - rewrite Z2Nat.id by lia. exact E.
  - assert (C : gridEnd y m - gridStart y m + 1 = 28
                \/ gridEnd y m - gridStart y m + 1 = 35
                \/ gridEnd y m - gridStart y m + 1 = 42).
    { rewrite E. Z.div_mod_to_equations; lia. }
    lia.
  - split.
    + intros H28.
      assert (gridEnd y m - gridStart y m + 1 = 28) as E28 by lia.
      rewrite E28 in E. Z.div_mod_to_equations; lia.
    + intros [Hw Hn].
      assert (gridEnd y m - gridStart y m + 1 = 28) as E28.
      { rewrite E, Hw, Hn. reflexivity. }
      lia.
Qed.

(** ** The cells of the grid *)

(** The days of a grid that an interval of days selects. *)
Lemma filter_midnights (P : Z -> bool) (lo hi : Z) (n : nat) : forall d,
  (forall k, d <= k < d + Z.of_nat n ->
     P (MakeDate k 0) = (lo <=? k) && (k <? hi)) ->
  List.filter P (midnights d n)
  = midnights (Z.max d lo)
      (Z.to_nat (Z.min (d + Z.of_nat n) hi - Z.max d lo)).
Proof.
  induction n as [|n IH]; intros d HP.
  - replace (Z.to_nat (Z.min (d + Z.of_nat 0) hi - Z.max d lo)) with 0%nat by lia.
    reflexivity.
  - rewrite midnights_succ. cbn [List.filter].
    rewrite (HP d) by lia.
    rewrite (IH (d + 1)) by (intros k Hk; apply HP; lia).
    replace (d + 1 + Z.of_nat n) with (d + Z.of_nat (S n)) by lia.
    destruct (Z.leb_spec lo d) as [Hlo|Hlo], (Z.ltb_spec d hi) as [Hhi|Hhi];
      cbn [andb].
    + replace (Z.max d lo) with d by lia.
      replace (Z.max (d + 1) lo) with (d + 1) by lia.
      replace (Z.to_nat (Z.min (d + Z.of_nat (S n)) hi - d))
        with (S (Z.to_nat (Z.min (d + Z.of_nat (S n)) hi - (d + 1)))) by lia.
      rewrite midnights_succ. reflexivity.
    + replace (Z.to_nat (Z.min (d + Z.of_nat (S n)) hi - Z.max (d + 1) lo))
        with 0%nat by lia.
      replace (Z.to_nat (Z.min (d + Z.of_nat (S n)) hi - Z.max d lo))
        with 0%nat by lia.
      reflexivity.
    + replace (Z.max (d + 1) lo) with (Z.max d lo) by lia. reflexivity.
    + replace (Z.to_nat (Z.min (d + Z.of_nat (S n)) hi - Z.max (d + 1) lo))
        with 0%nat by lia.
      replace (Z.to_nat (Z.min (d + Z.of_nat (S n)) hi - Z.max d lo))
        with 0%nat by lia.
      reflexivity.
Qed.

Lemma filter_map_comm {A B} (f : A -> B) (p : B -> bool) (l : list A) :
  List.filter p (map f l) = map f (List.filter (fun x => p (f x)) l).
Proof.
  induction l as [|x l IH]; cbn [map List.filter]; [reflexivity|].
  destruct (p (f x)); cbn [map]; rewrite IH; reflexivity.
Qed.

Lemma isSameMonth_midnight t k :
  isSameMonth (MakeDate k 0) (startOfMonth t)
  = (MakeDay (YearFromTime t) (MonthFromTime t) 1 <=? k)
    && (k <? MakeDay (YearFromTime t) (MonthFromTime t + 1) 1).
Proof.
  pose proof (MonthFromTime_range t) as R.
  assert (Hs : Day (startOfMonth t) = MakeDay (YearFromTime t) (MonthFromTime t) 1).
  { rewrite startOfMonth_value. apply Day_midnight. }
  destruct (fields_of_first _ _ _ R Hs) as (Ey & Em & _).
  pose proof (in_month_iff (YearFromTime t) (MonthFromTime t) (MakeDate k 0) R) as I.
  rewrite Day_midnight in I.
  apply eq_true_iff_eq. rewrite isSameMonth_iff, Ey, Em, andb_true_iff.
  rewrite Z.leb_le, Z.ltb_lt. exact I.
Qed.

(** X5.  The cells that are not greyed are the days of the month shown, each
    once and in order, from the first to the last. *)
Theorem cells_of_the_month (currentDate now : Z)
    (events : list CalendarEvent.t) (filters : FilterState.t) :
  let y := DateValue.getFullYear currentDate in
  let m := DateValue.getMonth currentDate in
  exists cs,
    CalendarControls.cells currentDate now events filters = Ok cs /\
    map CalendarControls.day
      (List.filter (fun c => negb (CalendarControls.greyed c)) cs)
    = midnights (MakeDay y m 1) (Z.to_nat (DaysInMonth m (leapFlag y))).
Proof.
  cbv zeta. unfold DateValue.getFullYear, DateValue.getMonth.
  pose proof (MonthFromTime_range currentDate) as R.
  destruct (days_first_last currentDate) as (n & D & E).
  unfold CalendarControls.cells. rewrite D.
  eexists. split; [reflexivity|].
  rewrite filter_map_comm, map_map. cbn [CalendarControls.cell
    CalendarControls.greyed CalendarControls.day].
  rewrite map_id.
  rewrite (filter_midnights _
             (MakeDay (YearFromTime currentDate) (MonthFromTime currentDate) 1)
             (MakeDay (YearFromTime currentDate)
                (MonthFromTime currentDate + 1) 1)).
  - pose proof (gridStart_facts (YearFromTime currentDate)
                  (MonthFromTime currentDate)) as (_ & S).
    pose proof (gridEnd_facts (YearFromTime currentDate)
                  (MonthFromTime currentDate)) as (_ & F).
    rewrite (MakeDay_date _ (MonthFromTime currentDate + 1) 0) in F.
    pose proof (MakeDay_month_length (YearFromTime currentDate)
                  (MonthFromTime currentDate) R) as L.
    pose proof (MakeDay_next_month (YearFromTime currentDate)
                  (MonthFromTime currentDate) R) as B.
    f_equal; lia.
  - intros k _. rewrite negb_involutive. apply isSameMonth_midnight.
Qed.

Lemma highlighted_cell monthStart now fe day :
  highlighted (CalendarControls.cell monthStart now fe day) = isToday now day.
Proof.
  unfold highlighted, CalendarControls.cell. cbn [CalendarControls.numberStyle].
  destruct (isToday now day); [reflexivity|].
  destruct (negb _); reflexivity.
Qed.

Lemma isToday_midnight now k :
  isToday now (MakeDate k 0) = (Day now <=? k) && (k <? Day now + 1).
Proof.
  apply eq_true_iff_eq. unfold isToday.
  rewrite isSameDay_Day, Day_midnight, andb_true_iff, Z.leb_le, Z.ltb_lt. lia.
Qed.

Lemma highlighted_days (currentDate now : Z)
    (events : list CalendarEvent.t) (filters : FilterState.t) :
  let y := DateValue.getFullYear currentDate in
  let m := DateValue.getMonth currentDate in
  exists cs,
    CalendarControls.cells currentDate now events filters = Ok cs /\
    map CalendarControls.day (List.filter highlighted cs)
    = (if (gridStart y m <=? Day now) && (Day now <=? gridEnd y m)
       then [startOfDay now] else []).
Proof.
  cbv zeta. unfold DateValue.getFullYear, DateValue.getMonth.
  destruct (days_first_last currentDate) as (n & D & E).
  unfold CalendarControls.cells. rewrite D.
  eexists. split; [reflexivity|].
  rewrite filter_map_comm, map_map.
  rewrite (List.filter_ext _ (isToday now))
    by (intros d; apply highlighted_cell).
  cbn [CalendarControls.cell CalendarControls.day]. rewrite map_id.
  rewrite (filter_midnights _ (Day now) (Day now + 1))
    by (intros k _; apply isToday_midnight).
  rewrite <- E, startOfDay_value.
  set (g := gridStart (YearFromTime currentDate) (MonthFromTime currentDate)).
  destruct (Z.leb_spec g (Day now)) as [H1|H1],
    (Z.leb_spec (Day now) (g + Z.of_nat n)) as [H2|H2]; cbn [andb].
  - replace (Z.max g (Day now)) with (Day now) by lia.
    replace (Z.to_nat (Z.min (g + Z.of_nat (S n)) (Day now + 1) - Day now))
      with 1%nat by lia.
    unfold midnights. cbn [seq map]. rewrite Z.add_0_r. reflexivity.
  - replace (Z.to_nat (Z.min (g + Z.of_nat (S n)) (Day now + 1)
                       - Z.max g (Day now))) with 0%nat by lia.
    reflexivity.
  - replace (Z.to_nat (Z.min (g + Z.of_nat (S n)) (Day now + 1)
                       - Z.max g (Day now))) with 0%nat by lia.
    reflexivity.
  - replace (Z.to_nat (Z.min (g + Z.of_nat (S n)) (Day now + 1)
                       - Z.max g (Day now))) with 0%nat by lia.
    reflexivity.
Qed.

(** X6.  The number of at most one cell is highlighted as today: the cell of
    the day of [now], when that day lies in the grid, and none otherwise. When
    the month shown is the month of [now], as at the start and after the
    button Today, there is one. *)
Theorem today_is_highlighted_once (currentDate now : Z)
    (events : list CalendarEvent.t) (filters : FilterState.t) :
  let y := DateValue.getFullYear currentDate in
  let m := DateValue.getMonth currentDate in
  exists cs,
    CalendarControls.cells currentDate now events filters = Ok cs /\
    map CalendarControls.day (List.filter highlighted cs)
    = (if (gridStart y m <=? Day now) && (Day now <=? gridEnd y m)
       then [startOfDay now] else []) /\
    (isSameMonth now currentDate = true ->
     map CalendarControls.day (List.filter highlighted cs) = [startOfDay now]).
Proof.
  cbv zeta.
  destruct (highlighted_days currentDate now events filters) as (cs & E & H).
  cbv zeta in H. exists cs. split; [exact E|]. split; [exact H|].
  intros Hm. rewrite H. apply isSameMonth_iff in Hm as (Hy & Hmo).
  unfold DateValue.getFullYear, DateValue.getMonth.
  pose proof (MonthFromTime_range currentDate) as R.
  pose proof (proj1 (in_month_iff (YearFromTime currentDate)
                       (MonthFromTime currentDate) now R) (conj Hy Hmo)) as B.
  pose proof (gridStart_facts (YearFromTime currentDate)
                (MonthFromTime currentDate)) as (_ & S).
  pose proof (gridEnd_facts (YearFromTime currentDate)
                (MonthFromTime currentDate)) as (_ & F).
  rewrite (MakeDay_date _ (MonthFromTime currentDate + 1) 0) in F.
  destruct (Z.leb_spec (gridStart (YearFromTime currentDate)
                          (MonthFromTime currentDate)) (Day now)),
    (Z.leb_spec (Day now) (gridEnd (YearFromTime currentDate)
                             (MonthFromTime currentDate)));
    cbn [andb]; try reflexivity; lia.
Qed.

Lemma cell_shows_visible_events monthStart now day events filters e :
  In e (CalendarControls.shown
          (CalendarControls.cell monthStart now
             (CalendarView.filteredEvents events filters) day)) ->
  In e events /\ CalendarView.isVisible filters e = true /\
  Day (CalendarEvent.start e) = Day day.
Proof.
  cbn [CalendarControls.cell CalendarControls.shown]. intros He.
  assert (Hb : In e (CalendarView.dayEvents
                       (CalendarView.filteredEvents events filters) day)).
  { rewrite <- (take_drop 4). apply in_or_app. left. exact He. }
  unfold CalendarView.dayEvents in Hb.
  apply List.filter_In in Hb as (Hv & Hd).
  unfold CalendarView.filteredEvents in Hv.
  apply List.filter_In in Hv as (Hin & Hvis).
  rewrite isSameDay_Day in Hd. auto.
Qed.

(** X7.  A cell lists the first four events of its day and counts the others
    in the line below them: no event of the day is left out of the sum, the
    line is there exactly when the day has more than four events, and it never
    counts zero. The events listed are events of the collection that pass the
    filters and start on the day of the cell. *)
Theorem cell_accounts_for_every_event (monthStart now day : Z)
    (events : list CalendarEvent.t) (filters : FilterState.t) :
  let visible := CalendarView.filteredEvents events filters in
  let c := CalendarControls.cell monthStart now visible day in
  let bucket := CalendarView.dayEvents visible day in
  (length (CalendarControls.shown c) + default 0 (CalendarControls.more c)
   = length bucket)%nat /\
  CalendarControls.shown c ++ drop 4 bucket = bucket /\
  (length (CalendarControls.shown c) <= 4)%nat /\
  (CalendarControls.more c = None <-> (length bucket <= 4)%nat) /\
  CalendarControls.more c <> Some 0%nat /\
  (forall e, In e (CalendarControls.shown c) ->
     In e events /\ CalendarView.isVisible filters e = true /\
     Day (CalendarEvent.start e) = Day day).
Proof.
  intros visible c bucket.
  unfold c, CalendarControls.cell.
  cbn [CalendarControls.shown CalendarControls.more]. fold bucket.
  split; [|split; [|split; [|split; [|split]]]].
  - rewrite length_take.
    destruct (Nat.ltb_spec 4 (length bucket)); cbn [from_option id]; lia.
  - apply take_drop.
  - rewrite length_take. lia.
  - destruct (Nat.ltb_spec 4 (length bucket)); split; intros; try lia;
      try discriminate; reflexivity.
  - destruct (Nat.ltb_spec 4 (length bucket)); [|discriminate].
    intros [=]. lia.
  - intros e He.
    apply (cell_shows_visible_events monthStart now day events filters e).
    exact He.
Qed.

(** ** The events in the grid *)

Lemma midnights_lookup d n k :
  (k < n)%nat -> midnights d n !! k = Some (MakeDate (d + Z.of_nat k) 0).
Proof.
  intros H. unfold midnights. rewrite list_lookup_fmap, lookup_seq_lt by exact H.
  reflexivity.
Qed.

Lemma midnights_lookup_inv d n k t :
  midnights d n !! k = Some t -> (k < n)%nat /\ t = MakeDate (d + Z.of_nat k) 0.
Proof.
  intros H. assert (Hk : (k < n)%nat).
  { apply lookup_lt_Some in H. rewrite midnights_length in H. exact H. }
  rewrite midnights_lookup in H by exact Hk. split; [exact Hk|congruence].
Qed.

Lemma In_dayEvents events filters day e :
  In e (CalendarView.dayEvents (CalendarView.filteredEvents events filters) day)
  <-> In e events /\ CalendarView.isVisible filters e = true /\
      Day (CalendarEvent.start e) = Day day.
Proof.
  unfold CalendarView.dayEvents, CalendarView.filteredEvents.
  rewrite !List.filter_In, isSameDay_Day. tauto.
Qed.

(** X8.  An event of the collection that passes the filters and starts on a
    day of the grid is in the bucket of one cell and no other: the cell of the
    day on which it starts. *)
Theorem a_visible_event_has_one_cell (currentDate : Z)
    (events : list CalendarEvent.t) (filters : FilterState.t)
    (e : CalendarEvent.t) :
  In e events ->
  CalendarView.isVisible filters e = true ->
  gridStart (DateValue.getFullYear currentDate) (DateValue.getMonth currentDate)
  <= Day (CalendarEvent.start e)
  <= gridEnd (DateValue.getFullYear currentDate) (DateValue.getMonth currentDate) ->
  exists g i,
    CalendarView.grid currentDate events filters = Ok g /\
    (exists day bucket,
       g !! i = Some (day, bucket) /\ Day day = Day (CalendarEvent.start e)) /\
    (forall j day bucket,
       g !! j = Some (day, bucket) -> (In e bucket <-> j = i)).
Proof.
  unfold DateValue.getFullYear, DateValue.getMonth. intros Hin Hvis Hrange.
  destruct (days_first_last currentDate) as (n & D & E).
  unfold CalendarView.grid. rewrite D.
  set (gs := gridStart (YearFromTime currentDate) (MonthFromTime currentDate)) in *.
  exists (map (fun day =>
                 (day, CalendarView.dayEvents
                         (CalendarView.filteredEvents events filters) day))
            (midnights gs (S n))),
    (Z.to_nat (Day (CalendarEvent.start e) - gs)).
  split; [reflexivity|]. split.
  - exists (MakeDate (gs + Z.of_nat (Z.to_nat (Day (CalendarEvent.start e) - gs))) 0).
    eexists. split.
    + rewrite list_lookup_fmap, midnights_lookup by lia. reflexivity.
    + rewrite Day_midnight. lia.
  - intros j day bucket Hj. rewrite list_lookup_fmap in Hj.
    destruct (midnights gs (S n) !! j) as [t|] eqn:Et; [|discriminate].
    apply midnights_lookup_inv in Et as (Hlt & ->).
    cbn [fmap option_fmap option_map] in Hj. injection Hj as <- <-.
    rewrite In_dayEvents, Day_midnight. split.
    + intros (_ & _ & Hd). lia.
    + intros ->. repeat split; try assumption. lia.
Qed.

Lemma a_visible_event_has_one_cell_witness :
  let currentDate := DateValue.fromFields 2025 2 20 12 0 in
  let filters := FilterState.mk true true true None in
  exists g i,
    CalendarView.grid currentDate [sampleEvent] filters = Ok g /\
    (exists day bucket,
       g !! i = Some (day, bucket) /\
       Day day = Day (CalendarEvent.start sampleEvent)) /\
    (forall j day bucket,
       g !! j = Some (day, bucket) -> (In sampleEvent bucket <-> j = i)).
Proof.
  intros currentDate filters.
  apply (a_visible_event_has_one_cell currentDate [sampleEvent] filters
           sampleEvent).
  - left. reflexivity.
  - reflexivity.
  - vm_compute. split; discriminate.
Defined.

(** ** The filters of the toolbar *)

Lemma isVisible_value filters e :
  CalendarView.isVisible filters e
  = categoryFlag filters (CalendarEvent.category e)
    && match FilterState.floor filters with
       | Some f => Floor_eqb (CalendarEvent.floor e) f
       | None => true
       end.
Proof.
  destruct filters as [sm sc se fl].
  unfold CalendarView.isVisible, categoryFlag. cbn [FilterState.showMaintenance
    FilterState.showCleaning FilterState.showEvents FilterState.floor].
  destruct fl as [g|].
  - rewrite Floor_number_nonzero. cbn [negb andb].
    destruct (Floor_eqb (CalendarEvent.floor e) g);
      destruct (CalendarEvent.category e), sm, sc, se; reflexivity.
  - destruct (CalendarEvent.category e), sm, sc, se; reflexivity.
Qed.

(** X9.  Clearing the check box of a category hides the events of that
    category and nothing else: what stays is what was shown, in the same
    order, without them. Ticking the box again gives the filters back. *)
Theorem clearing_a_category_hides_it (c : EventCategory)
    (filters : FilterState.t) (events : list CalendarEvent.t) :
  categoryFlag filters c = true ->
  CalendarView.filteredEvents events (toggle c filters)
  = List.filter (fun e => negb (EventCategory_eqb (CalendarEvent.category e) c))
      (CalendarView.filteredEvents events filters) /\
  toggle c (toggle c filters) = filters.
Proof.
  intros H. split.
  - unfold CalendarView.filteredEvents. rewrite filter_filter_and.
    apply List.filter_ext. intros e. rewrite !isVisible_value.
    destruct filters as [sm sc se fl].
    destruct c; cbn in H; subst; cbn [toggle CalendarControls.toggleMaintenance
      CalendarControls.toggleCleaning CalendarControls.toggleEvents
      FilterState.floor FilterState.showMaintenance FilterState.showCleaning
      FilterState.showEvents categoryFlag];
      destruct (CalendarEvent.category e), (match fl with Some _ => _ | None => _ end);
      cbn [negb andb EventCategory_eqb];
      rewrite ?andb_true_r, ?andb_false_r; reflexivity.
  - destruct filters as [sm sc se fl]. destruct c, sm, sc, se; reflexivity.
Qed.

Lemma clearing_a_category_hides_it_witness :
  let holiday :=
    {| CalendarEvent.id := "e2"; CalendarEvent.title := "Sukkah Build";
       CalendarEvent.start := DateValue.fromFields 2025 8 29 9 0;
       CalendarEvent.end_ := DateValue.fromFields 2025 8 29 10 0;
       CalendarEvent.category := Maintenance; CalendarEvent.floor := Floor1;
       CalendarEvent.room := "Courtyard"; CalendarEvent.description := None;
       CalendarEvent.isRecurring := Some true |} in
  let filters := FilterState.mk true true true None in
  CalendarView.filteredEvents [sampleEvent; holiday] (toggle Maintenance filters)
  = List.filter
      (fun e => negb (EventCategory_eqb (CalendarEvent.category e) Maintenance))
      (CalendarView.filteredEvents [sampleEvent; holiday] filters) /\
  toggle Maintenance (toggle Maintenance filters) = filters.
Proof.
  intros holiday filters.
  apply (clearing_a_category_hides_it Maintenance filters [sampleEvent; holiday]).
  reflexivity.
Defined.

(** X10.  Choosing a floor in the select shows, of what "All Floors" shows,
    the events of that floor, in the same order; the choice made last is the
    one that counts. *)
Theorem choosing_a_floor_narrows_all_floors (f : Floor) (v v' : option Floor)
    (filters : FilterState.t) (events : list CalendarEvent.t) :
  CalendarView.filteredEvents events
    (CalendarControls.selectFloor (Some f) filters)
  = List.filter (fun e => Floor_eqb (CalendarEvent.floor e) f)
      (CalendarView.filteredEvents events
         (CalendarControls.selectFloor None filters)) /\
  CalendarControls.selectFloor v (CalendarControls.selectFloor v' filters)
  = CalendarControls.selectFloor v filters.
Proof.
  split; [|reflexivity].
  unfold CalendarView.filteredEvents. rewrite filter_filter_and.
  apply List.filter_ext. intros e. rewrite !isVisible_value.
  destruct filters as [sm sc se fl].
  cbn [CalendarControls.selectFloor FilterState.floor].
  rewrite andb_true_r. reflexivity.
Qed.

(** ** Deleting, rejecting and editing *)

Lemma filter_absent {A} (key : A -> string) (id : string) (l : list A) :
  ~ In id (map key l) ->
  List.filter (fun x => negb (String.eqb (key x) id)) l = l.
Proof.
  induction l as [|x l IH]; cbn [map List.filter In]; [reflexivity|].
  intros H. destruct (String.eqb_spec (key x) id) as [E|E]; cbn [negb].
  - exfalso. apply H. left. exact E.
  - rewrite IH; [reflexivity|]. intros Hin. apply H. right. exact Hin.
Qed.

Lemma filter_idem {A} (p : A -> bool) (l : list A) :
  List.filter p (List.filter p l) = List.filter p l.
Proof.
  rewrite filter_filter_and. apply List.filter_ext. intros x.
  destruct (p x); reflexivity.
Qed.

(** X11.  Deleting removes the events with the given id, all of them, and
    nothing else: the other events stay in their order and the requests as
    they are. Deleting again, or deleting an id no event has, changes nothing. *)
Theorem delete_removes_the_id (eventId : string) (s : App.State) :
  let s' := App.handleDeleteEvent eventId s in
  (forall e, In e (App.events s') <->
     In e (App.events s) /\ CalendarEvent.id e <> eventId) /\
  sublist (App.events s') (App.events s) /\
  App.requests s' = App.requests s /\
  App.handleDeleteEvent eventId s' = s' /\
  (~ In eventId (eventIds s) -> s' = s).
Proof.
  destruct s as [evs reqs]. cbv zeta. unfold App.handleDeleteEvent, eventIds.
  cbn [App.events App.requests].
  split; [|split; [|split; [|split]]].
  - intros e. rewrite List.filter_In, negb_true_iff.
    destruct (String.eqb_spec (CalendarEvent.id e) eventId); intuition congruence.
  - apply filter_sublist.
  - reflexivity.
  - rewrite filter_idem. reflexivity.
  - intros H. rewrite filter_absent by exact H. reflexivity.
Qed.

Lemma filter_one {A} (key : A -> string) (x : A) (l : list A) :
  In x l -> List.NoDup (map key l) ->
  exists l1 l2,
    l = l1 ++ x :: l2 /\
    List.filter (fun y => negb (String.eqb (key y) (key x))) l = l1 ++ l2.
Proof.
  intros Hin Hnd. apply in_split in Hin as (l1 & l2 & ->).
  exists l1, l2. split; [reflexivity|].
  rewrite map_app in Hnd. cbn [map] in Hnd.
  rewrite List.filter_app. cbn [List.filter]. rewrite String.eqb_refl. cbn [negb].
  pose proof (List.NoDup_remove_2 _ _ _ Hnd) as Hx.
  rewrite (filter_absent key (key x) l1), (filter_absent key (key x) l2);
    [reflexivity| |]; intros Hy; apply Hx, in_or_app; auto.
Qed.

(** X12.  When no two events share an id, deleting the id of an event of the
    collection takes out that event and no other. *)
Theorem delete_takes_out_one_event (e : CalendarEvent.t) (s : App.State) :
  In e (App.events s) ->
  List.NoDup (eventIds s) ->
  exists before after,
    App.events s = before ++ e :: after /\
    App.events (App.handleDeleteEvent (CalendarEvent.id e) s) = before ++ after.
Proof.
  intros Hin Hnd. unfold App.handleDeleteEvent. cbn [App.events].
  apply (filter_one CalendarEvent.id); assumption.
Qed.

Lemma delete_takes_out_one_event_witness :
  let other :=
    {| CalendarEvent.id := "e2"; CalendarEvent.title := "Sukkah Build";
       CalendarEvent.start := DateValue.fromFields 2025 8 29 9 0;
       CalendarEvent.end_ := DateValue.fromFields 2025 8 29 10 0;
       CalendarEvent.category := Maintenance; CalendarEvent.floor := Floor1;
       CalendarEvent.room := "Courtyard"; CalendarEvent.description := None;
       CalendarEvent.isRecurring := Some true |} in
  let s := {| App.events := [other; sampleEvent]; App.requests := [] |} in
  exists before after,
    App.events s = before ++ sampleEvent :: after /\
    App.events (App.handleDeleteEvent (CalendarEvent.id sampleEvent) s)
    = before ++ after.
Proof.
  intros other s. apply (delete_takes_out_one_event sampleEvent s).
  - right. left. reflexivity.
  - repeat constructor; cbn; intuition discriminate.
Defined.

(** X13.  A request submitted under an id no pending request has is taken back
    by its rejection: the state is the one before the submission. *)
Theorem reject_takes_back_a_submission (reqData : App.RequestData)
    (id : string) (req : Request.t) (s : App.State) :
  Request.id req = id ->
  ~ In id (requestIds s) ->
  App.handleRejectRequest true req (App.handleSubmitRequest reqData id s) = s.
Proof.
  intros <- H. destruct s as [evs reqs].
  unfold App.handleRejectRequest, App.handleSubmitRequest, requestIds in *.
  cbn [App.events App.requests List.filter Request.id] in *.
  rewrite String.eqb_refl. cbn [negb].
  rewrite (filter_absent Request.id) by exact H. reflexivity.
Qed.

Lemma reject_takes_back_a_submission_witness :
  let reqData :=
    {| App.title := "Fix AC"; App.date := DateValue.fromFields 2025 2 10 0 0;
       App.category := Maintenance; App.floor := Floor3; App.room := "Offices";
       App.description := "" |} in
  let req :=
    {| Request.id := "r2"; Request.title := "Fix AC";
       Request.date := DateValue.fromFields 2025 2 10 0 0;
       Request.category := Maintenance; Request.floor := Floor3;
       Request.room := "Offices"; Request.description := "";
       Request.status := pending; Request.submittedBy := Some "Guest User" |} in
  let s := App.handleSubmitRequest reqData "r1" App.initial in
  App.handleRejectRequest true req (App.handleSubmitRequest reqData "r2" s) = s.
Proof.
  intros reqData req s.
  apply (reject_takes_back_a_submission reqData "r2" req s).
  - reflexivity.
  - cbn. intuition discriminate.
Defined.

(** X14.  An update keeps the ids of the collection, place by place, and
    changes nothing when no event has the id of the updated event. *)
Theorem update_keeps_the_ids (updatedEvent : CalendarEvent.t) (s : App.State) :
  let s' := App.handleUpdateEvent updatedEvent s in
  eventIds s' = eventIds s /\
  (~ In (CalendarEvent.id updatedEvent) (eventIds s) -> s' = s).
Proof.
  destruct s as [evs reqs]. cbv zeta. unfold App.handleUpdateEvent, eventIds.
  cbn [App.events App.requests]. split.
  - rewrite map_map. apply map_ext. intros e.
    destruct (String.eqb_spec (CalendarEvent.id e) (CalendarEvent.id updatedEvent));
      congruence.
  - intros H. f_equal. rewrite <- (map_id evs) at 2.
    apply map_ext_in. intros e He.
    destruct (String.eqb_spec (CalendarEvent.id e) (CalendarEvent.id updatedEvent))
      as [E|E]; [|reflexivity].
    exfalso. apply H. rewrite <- E. apply in_map. exact He.
Qed.

(** ** The times of the events the generator makes *)

Lemma setHours_shift t h :
  DateValue.setHours t h None None None = t + (h - HourFromTime t) * msPerHour.
Proof.
  unfold DateValue.setHours. cbn [default].
  pose proof (MakeDate_Day t) as R. rewrite TimeWithinDay_fields in R.
  unfold MakeDate, MakeTime, msPerHour in *. lia.
Qed.

Lemma eventEnd_value v durationHours :
  eventEnd v durationHours = eventStart v + default 1 durationHours * msPerHour.
Proof.
  unfold eventEnd. rewrite setHours_shift.
  destruct (eventStart_fields v) as (_ & -> & _). f_equal. f_equal. lia.
Qed.

Lemma eventStart_seconds v :
  SecFromTime (eventStart v) = SecFromTime v /\
  msFromTime (eventStart v) = msFromTime v.
Proof.
  unfold eventStart, DateValue.setMinutes, DateValue.setHours. cbn [default].
  pose proof (fields_ranges v) as (_ & Hm & Hs & Hms).
  destruct (fields_of_MakeDate (Day v) 9 (MinFromTime v) (SecFromTime v)
              (msFromTime v) ltac:(lia) Hm Hs Hms) as (E1 & E2 & E3 & E4 & E5).
  cbv zeta in *. rewrite E1, E2, E4, E5.
  destruct (fields_of_MakeDate (Day v) 9 0 (SecFromTime v)
              (msFromTime v) ltac:(lia) ltac:(lia) Hs Hms) as (_ & _ & _ & F4 & F5).
  cbv zeta in *. auto.
Qed.

(** X15.  [createEvent] makes an event that starts at nine o'clock on the day
    of the date it is given, keeping the seconds of that date.  Called with
    a whole number of hours as the duration it makes the event last that
    many hours, and one hour when the duration is left out, as in every call
    of the program; a duration with a fraction is outside the model.  It
    takes one draw for the id and changes no date object that existed before
    the call, the date it is given included: it only makes new ones. *)
Theorem createEvent_starts_at_nine (title : string) (date : loc)
    (category : EventCategory) (floor : Floor) (room : string)
    (durationHours : option Z) (env : Env) (m : Mem) :
  let r := createEvent title date category floor room durationHours env m in
  let e := fst r in
  let given := dates m !!! date in
  Day (CalendarEvent.start e) = Day given /\
  HourFromTime (CalendarEvent.start e) = 9 /\
  MinFromTime (CalendarEvent.start e) = 0 /\
  SecFromTime (CalendarEvent.start e) = SecFromTime given /\
  msFromTime (CalendarEvent.start e) = msFromTime given /\
  CalendarEvent.end_ e
  = CalendarEvent.start e + default 1 durationHours * msPerHour /\
  CalendarEvent.id e = random env (draws m) /\
  draws (snd r) = S (draws m) /\
  take (length (dates m)) (dates (snd r)) = dates m.
Proof.
  cbv zeta. rewrite createEvent_run. cbv zeta.
  cbn [fst snd CalendarEvent.start CalendarEvent.end_ CalendarEvent.id dates draws].
  destruct (eventStart_fields (dates m !!! date)) as (E1 & E2 & E3).
  destruct (eventStart_seconds (dates m !!! date)) as (E4 & E5).
  repeat split; try assumption.
  - apply eventEnd_value.
  - rewrite take_app_length. reflexivity.
Qed.

Lemma post_createEvent_nineToTen title date category floor room :
  post (createEvent title date category floor room None) nineToTen.
Proof.
  intros env m. rewrite createEvent_run. cbv zeta. unfold nineToTen.
  cbn [fst CalendarEvent.start CalendarEvent.end_ CalendarEvent.isRecurring
       CalendarEvent.description].
  destruct (eventStart_fields (dates m !!! date)) as (_ & E2 & E3).
  rewrite eventEnd_value. repeat split; assumption.
Qed.

(** What every event [createEvent] makes without a duration satisfies holds
    of every event of the seed. *)
Lemma post_seed (P : CalendarEvent.t -> Prop) :
  (forall title date category floor room,
     post (createEvent title date category floor room None) P) ->
  post generateInitialData (Forall P).
Proof.
  intros HP.
  assert (Hpush : forall events title year month date category floor room,
             Forall P events ->
             post (pushFixed events title year month date category floor room)
               (Forall P)).
  { intros events title year month date category floor room He. unfold pushFixed.
    eapply post_bind; [apply post_any|]. intros d _.
    eapply post_bind; [apply HP|]. intros e Hord.
    apply post_ret. apply Forall_snoc; assumption. }
  unfold generateInitialData. cbv zeta.
  eapply post_bind; [apply post_any|]. intros today _.
  eapply post_bind; [apply post_any|]. intros yearStart _.
  eapply post_bind; [apply post_any|]. intros year _.
  eapply post_bind; [apply Hpush; constructor|]. intros ev1 H1.
  eapply post_bind; [apply Hpush; exact H1|]. intros ev2 H2.
  eapply post_bind.
  { apply post_foldM; [|exact H2]. intros a i Ha.
    eapply post_bind; [apply Hpush; exact Ha|]. intros a' Ha'.
    apply Hpush. exact Ha'. }
  intros ev3 H3.
  eapply post_bind.
  { apply post_foldM; [|exact H3]. intros a i Ha. unfold weeklyInspection.
    eapply post_bind; [apply post_any|]. intros day _.
    eapply post_bind; [apply post_any|]. intros date _.
    eapply post_bind; [apply post_any|]. intros v _.
    eapply post_bind; [apply post_any|]. intros monday _.
    eapply post_bind; [apply post_any|]. intros d _.
    eapply post_bind; [apply HP|]. intros e He.
    apply post_ret. apply Forall_snoc; assumption. }
  intros ev4 H4.
  eapply post_bind.
  { apply post_foldM; [|exact H4]. intros a i Ha. apply Hpush. exact Ha. }
  intros ev5 H5.
  eapply post_bind.
  { apply post_foldM; [|exact H5]. intros a i Ha. apply Hpush. exact Ha. }
  intros ev6 H6.
  repeat (eapply post_bind; [apply Hpush; eassumption|]; intros ? ?).
  apply post_ret. assumption.
Qed.

(** X16.  Every event of the seed, whatever the clock, the draws and the
    store, starts in the minute of nine o'clock and ends exactly one hour
    later; it is marked recurring and has no description. *)
Theorem seed_events_run_nine_to_ten (env : Env) (m : Mem) :
  Forall nineToTen (fst (generateInitialData env m)).
Proof.
  apply (post_seed nineToTen). intros. apply post_createEvent_nineToTen.
Qed.

(** ** The ids of the seed *)

Lemma drawsIds_pushFixed title year month date category floor room :
  drawsIds (fun events =>
              pushFixed events title year month date category floor room) 1.
Proof.
  intros events env m. rewrite pushFixed_run. cbv zeta. cbn [fst snd draws].
  eexists. split; [reflexivity|]. split; [reflexivity|]. lia.
Qed.

Lemma drawsIds_weeklyInspection yearStart current i :
  drawsIds (fun events => weeklyInspection yearStart current events i) 1.
Proof.
  intros events env m. unfold weeklyInspection.
  rewrite bind_run, Date_getDay_run. cbn [fst snd].
  rewrite bind_run, Date_getDate_run. cbn [fst snd]. cbv zeta.
  rewrite bind_run, Date_setDate_run. cbn [fst snd].
  rewrite bind_run, Date_ofValue_run. cbn [fst snd].
  rewrite bind_run, addWeeks_run. cbn [fst snd dates draws].
  rewrite bind_run, createEvent_run. cbv zeta. cbn [fst snd dates draws].
  unfold ret. cbn [fst snd draws].
  eexists. split; [reflexivity|]. split; [reflexivity|]. lia.
Qed.

Lemma drawsIds_ret : drawsIds (fun events => ret events) 0.
Proof.
  intros events env m. exists []. unfold ret. cbn [fst snd seq map].
  rewrite app_nil_r. repeat split. lia.
Qed.

Lemma drawsIds_bind c1 c2 n1 n2 :
  drawsIds c1 n1 -> drawsIds c2 n2 ->
  drawsIds (fun events => let* events' := c1 events in c2 events') (n1 + n2).
Proof.
  intros H1 H2 events env m. rewrite bind_run.
  destruct (H1 events env m) as (a1 & E1 & I1 & D1).
  destruct (H2 (fst (c1 events env m)) env (snd (c1 events env m)))
    as (a2 & E2 & I2 & D2).
  exists (a1 ++ a2). split; [|split].
  - rewrite E2, E1, app_assoc. reflexivity.
  - rewrite map_app, I1, I2, D1, seq_app, map_app. reflexivity.
  - rewrite D2, D1. lia.
Qed.

Lemma drawsIds_foldM {B}
    (f : list CalendarEvent.t -> B -> M (list CalendarEvent.t))
    (n : nat) (l : list B) :
  (forall x, drawsIds (fun events => f events x) n) ->
  drawsIds (fun events => foldM f events l) (length l * n).
Proof.
  intros Hf. induction l as [|x l IH]; cbn [foldM length Nat.mul].
  - apply drawsIds_ret.
  - apply (drawsIds_bind (fun events => f events x)
             (fun events => foldM f events l)).
    + apply Hf.
    + exact IH.
Qed.

Lemma NoDup_map_seq (f : nat -> string) (n : nat) : forall a,
  (forall i j, (a <= i < j)%nat -> (j < a + n)%nat -> f i <> f j) ->
  List.NoDup (map f (seq a n)).
Proof.
  induction n as [|n IH]; intros a H; cbn [seq map]; constructor.
  - intros Hin. apply in_map_iff in Hin as (j & E & Hj).
    apply in_seq in Hj. apply (H a j); [lia|lia|]. symmetry. exact E.
  - apply IH. intros i j Hij Hj. apply H; lia.
Qed.

(** X17.  The seed has 106 events, and their ids are the next 106 draws of the
    random source in the order of the events; the generator takes no other
    draw. So the ids of the seed are distinct exactly as far as the draws are. *)
Theorem seed_ids_are_the_draws (env : Env) (m : Mem) :
  let r := generateInitialData env m in
  map CalendarEvent.id (fst r) = map (random env) (seq (draws m) 106) /\
  length (fst r) = 106%nat /\
  draws (snd r) = (draws m + 106)%nat /\
  ((forall i j, (draws m <= i < j)%nat -> (j < draws m + 106)%nat ->
      random env i <> random env j) ->
   List.NoDup (map CalendarEvent.id (fst r))).
Proof.
  cbv zeta.
  assert (H : map CalendarEvent.id (fst (generateInitialData env m))
              = map (random env) (seq (draws m) 106) /\
              draws (snd (generateInitialData env m)) = (draws m + 106)%nat).
  { unfold generateInitialData. cbv zeta. rewrite generator_prefix.
    rewrite bind_run, Date_getFullYear_run. cbn [fst snd dates draws].
    match goal with
    | |- context [bind (pushFixed [] ?t ?y ?mo ?d ?c ?f ?r) ?k ?e ?mm] =>
        assert (B : drawsIds
                      (fun events => bind (pushFixed events t y mo d c f r) k)
                      106);
        [|destruct (B [] e mm) as (added & E & I & D)]
    end.
    { apply (drawsIds_bind _ _ 1 105); [apply drawsIds_pushFixed|].
      apply (drawsIds_bind _ _ 1 104); [apply drawsIds_pushFixed|].
      apply (drawsIds_bind _ _ 24 80).
      { apply (drawsIds_foldM _ 2 (upto 12)). intros x.
        apply (drawsIds_bind _ _ 1 1); apply drawsIds_pushFixed. }
      apply (drawsIds_bind _ _ 52 28).
      { apply (drawsIds_foldM _ 1 (upto 52)). intros x.
        apply drawsIds_weeklyInspection. }
      apply (drawsIds_bind _ _ 4 24).
      { apply (drawsIds_foldM _ 1 [0; 3; 6; 9]). intros x.
        apply drawsIds_pushFixed. }
      apply (drawsIds_bind _ _ 12 12).
      { apply (drawsIds_foldM _ 1 (upto 12)). intros x.
        apply drawsIds_pushFixed. }
      do 11 (apply (drawsIds_bind _ _ 1); [apply drawsIds_pushFixed|]).
      apply (drawsIds_bind _ _ 1 0); [apply drawsIds_pushFixed|].
      apply drawsIds_ret. }
    cbv beta in E, D. rewrite E, D. cbn [app draws] in *.
    split; [exact I|reflexivity]. }
  destruct H as (I & D).
  split; [exact I|]. split; [|split; [exact D|]].
  - apply (f_equal (@length string)) in I.
    rewrite !length_map, length_seq in I. exact I.
  - intros Hinj. rewrite I. apply NoDup_map_seq. exact Hinj.
Qed.

(** ** The forms and the time zone *)

Lemma Day_offset d tz :
  Day (MakeDate d 0 + tz) = d + tz / msPerDay /\
  TimeWithinDay (MakeDate d 0 + tz) = tz mod msPerDay.
Proof.
  unfold Day, TimeWithinDay, MakeDate, msPerDay.
  split; Z.div_mod_to_equations; lia.
Qed.

(** X18.  The date of a request is the midnight of the chosen day in UTC. East
    of Greenwich and on it, that instant lies on the chosen day of the local
    calendar, at the time of day of the offset; west of it, it lies on the day
    before. The event an approval makes starts at this date, so there the
    calendar shows it one day early. *)
Theorem request_date_west_of_utc_is_a_day_early (tz : Z)
    (formData : RequestForm.FormData) (y m d : Z) :
  RequestForm.date formData = (y, m, d) ->
  1 <= m <= 12 ->
  1 <= d <= DaysInMonth (m - 1) (leapFlag y) ->
  - msPerDay < tz < msPerDay ->
  let date := App.date (RequestForm.handleSubmit tz formData) in
  (0 <= tz ->
     DateValue.getFullYear date = y /\ DateValue.getMonth date = m - 1 /\
     DateValue.getDate date = d /\ TimeWithinDay date = tz) /\
  (tz < 0 ->
     Day date = MakeDay y (m - 1) d - 1 /\ TimeWithinDay date = msPerDay + tz).
Proof.
  intros Hdate Hm Hd Htz. cbv zeta.
  unfold RequestForm.handleSubmit, RequestForm.parseDateOnly.
  cbn [App.date]. rewrite Hdate.
  destruct (Day_offset (MakeDay y (m - 1) d) tz) as (ED & ET).
  unfold msPerDay in *. split; intros Hs.
  - assert (Eq : tz / 86400000 = 0) by (apply Z.div_small; lia).
    rewrite Eq, Z.add_0_r in ED.
    destruct (fields_of_MakeDay y (m - 1) d _ ltac:(lia) Hd ED) as (Ey & Em & Edt).
    unfold DateValue.getFullYear, DateValue.getMonth, DateValue.getDate.
    repeat split; try assumption.
    rewrite ET. apply Z.mod_small. lia.
  - split.
    + rewrite ED. Z.div_mod_to_equations; lia.
    + rewrite ET. Z.div_mod_to_equations; lia.
Qed.

Lemma request_date_west_of_utc_is_a_day_early_witness :
  let formData :=
    {| RequestForm.title := "Fix AC"; RequestForm.date := (2025, 3, 10);
       RequestForm.category := Maintenance; RequestForm.floor := Floor3;
       RequestForm.room := "Offices"; RequestForm.description := "" |} in
  let tz := - (5 * msPerHour) in
  let date := App.date (RequestForm.handleSubmit tz formData) in
  (0 <= tz ->
     DateValue.getFullYear date = 2025 /\ DateValue.getMonth date = 3 - 1 /\
     DateValue.getDate date = 10 /\ TimeWithinDay date = tz) /\
  (tz < 0 ->
     Day date = MakeDay 2025 (3 - 1) 10 - 1 /\
     TimeWithinDay date = msPerDay + tz).
Proof.
  intros formData tz.
  apply (request_date_west_of_utc_is_a_day_early tz formData 2025 3 10);
    [reflexivity|lia|vm_compute; split; discriminate
    |vm_compute; split; reflexivity].
Defined.

Lemma MakeTime_nine : MakeTime 9 0 0 0 = 9 * msPerHour.
Proof. reflexivity. Qed.

Lemma handleSubmit_times event formData :
  let e := EditEventModal.handleSubmit event formData in
  HourFromTime (CalendarEvent.start e) = 9 /\
  MinFromTime (CalendarEvent.start e) = 0 /\
  SecFromTime (CalendarEvent.start e) = 0 /\
  msFromTime (CalendarEvent.start e) = 0 /\
  CalendarEvent.end_ e = CalendarEvent.start e + msPerHour.
Proof.
  cbv zeta. unfold EditEventModal.handleSubmit.
  destruct (EditEventModal.date formData) as [[y mo] d].
  cbn [CalendarEvent.start CalendarEvent.end_].
  rewrite setHours_shift. unfold DateValue.fromFields.
  match goal with |- context [MakeDate ?day _] =>
    pose proof (fields_of_MakeDate day 9 0 0 0 ltac:(lia) ltac:(lia)
                  ltac:(lia) ltac:(lia)) as (_ & E2 & E3 & E4 & E5)
  end.
  cbv zeta in *. rewrite E2.
  split; [reflexivity|]. split; [exact E3|]. split; [exact E4|].
  split; [exact E5|]. f_equal.
Qed.

(** X19.  Saving the edit dialog puts the event on the day of the form from
    nine to ten o'clock, whatever its time of day and its length were; the id
    and the recurring mark stay. *)
Theorem saving_an_edit_resets_the_hours (event : CalendarEvent.t)
    (formData : EditEventModal.FormData) :
  let e := EditEventModal.handleSubmit event formData in
  HourFromTime (CalendarEvent.start e) = 9 /\
  MinFromTime (CalendarEvent.start e) = 0 /\
  SecFromTime (CalendarEvent.start e) = 0 /\
  msFromTime (CalendarEvent.start e) = 0 /\
  CalendarEvent.end_ e = CalendarEvent.start e + msPerHour /\
  CalendarEvent.id e = CalendarEvent.id event /\
  CalendarEvent.isRecurring e = CalendarEvent.isRecurring event /\
  (forall y m d,
     EditEventModal.date formData = (y, m, d) -> ~ (0 <= y <= 99) ->
     Day (CalendarEvent.start e) = MakeDay y (m - 1) d).
Proof.
  pose proof (handleSubmit_times event formData) as (E1 & E2 & E3 & E4 & E5).
  cbv zeta in *. repeat split; try assumption.
  - unfold EditEventModal.handleSubmit.
    destruct (EditEventModal.date formData) as [[y mo] d]. reflexivity.
  - unfold EditEventModal.handleSubmit.
    destruct (EditEventModal.date formData) as [[y mo] d]. reflexivity.
  - intros y m d Hdate Hy. unfold EditEventModal.handleSubmit. rewrite Hdate.
    cbn [CalendarEvent.start]. rewrite fromFields_value by exact Hy.
    apply Day_MakeDate. rewrite MakeTime_nine. unfold msPerDay, msPerHour. lia.
Qed.

Lemma initialFormData_date tz event :
  0 <= YearFromTime (CalendarEvent.start event - tz) ->
  EditEventModal.date (EditDialog.initialFormData tz event)
  = (YearFromTime (CalendarEvent.start event - tz),
     MonthFromTime (CalendarEvent.start event - tz) + 1,
     DateFromTime (CalendarEvent.start event - tz)).
Proof.
  intros H. unfold EditDialog.initialFormData, EditDialog.isoDateParts.
  cbn [EditEventModal.date].
  destruct (Z.ltb_spec (YearFromTime (CalendarEvent.start event - tz)) 0);
    [lia|reflexivity].
Qed.

Lemma Day_minus t tz :
  Day (t - tz) = Day t + (TimeWithinDay t - tz) / msPerDay.
Proof.
  unfold Day, TimeWithinDay, msPerDay. Z.div_mod_to_equations; lia.
Qed.

(** X20.  Opening the edit dialog and saving it without a change puts the
    event at nine o'clock of the day its start has in UTC, because the form
    takes its date from [toISOString]. So, with the UTC year from 100 on, the
    event moves to the day before when its time of day is earlier than the
    offset of the zone, as for a nine o'clock event more than nine hours east
    of Greenwich, and to the day after when its time of day is within the
    offset of midnight in a zone west of Greenwich. A nine o'clock event stays
    as it is from fifteen hours west to nine hours east. *)
Theorem open_and_save_moves_to_the_utc_day (tz : Z) (event : CalendarEvent.t) :
  100 <= YearFromTime (CalendarEvent.start event - tz) ->
  - msPerDay < tz < msPerDay ->
  let saved :=
    EditEventModal.handleSubmit event (EditDialog.initialFormData tz event) in
  let time := TimeWithinDay (CalendarEvent.start event) in
  CalendarEvent.start saved
  = MakeDate (Day (CalendarEvent.start event - tz)) (9 * msPerHour) /\
  (time < tz ->
     Day (CalendarEvent.start saved) = Day (CalendarEvent.start event) - 1) /\
  (tz <= time < msPerDay + tz ->
     Day (CalendarEvent.start saved) = Day (CalendarEvent.start event)) /\
  (msPerDay + tz <= time ->
     Day (CalendarEvent.start saved) = Day (CalendarEvent.start event) + 1) /\
  (time = 9 * msPerHour -> 9 * msPerHour - msPerDay < tz <= 9 * msPerHour ->
     CalendarEvent.start saved = CalendarEvent.start event).
Proof.
  intros Hy Htz. cbv zeta.
  assert (S : CalendarEvent.start
                (EditEventModal.handleSubmit event
                   (EditDialog.initialFormData tz event))
              = MakeDate (Day (CalendarEvent.start event - tz)) (9 * msPerHour)).
  { unfold EditEventModal.handleSubmit.
    rewrite initialFormData_date by lia. cbn [CalendarEvent.start].
    rewrite fromFields_value by lia.
    replace (MonthFromTime (CalendarEvent.start event - tz) + 1 - 1)
      with (MonthFromTime (CalendarEvent.start event - tz)) by lia.
    rewrite MakeDay_fields, MakeTime_nine. reflexivity. }
  rewrite S.
  assert (D : Day (MakeDate (Day (CalendarEvent.start event - tz)) (9 * msPerHour))
              = Day (CalendarEvent.start event - tz)).
  { apply Day_MakeDate. unfold msPerDay, msPerHour. lia. }
  rewrite D, Day_minus.
  pose proof (TimeWithinDay_range (CalendarEvent.start event)) as R.
  unfold msPerDay, msPerHour in *.
  split; [reflexivity|]. split; [|split; [|split]].
  - intros H. Z.div_mod_to_equations; lia.
  - intros H. Z.div_mod_to_equations; lia.
  - intros H. Z.div_mod_to_equations; lia.
  - intros Ht Hle.
    rewrite <- (MakeDate_Day (CalendarEvent.start event)) at 3.
    rewrite Ht.
    replace ((9 * 3600000 - tz) / 86400000) with 0
      by (Z.div_mod_to_equations; lia).
    rewrite Z.add_0_r. reflexivity.
Qed.

Lemma open_and_save_moves_to_the_utc_day_witness :
  let tz := 10 * msPerHour in
  let saved :=
    EditEventModal.handleSubmit sampleEvent
      (EditDialog.initialFormData tz sampleEvent) in
  let time := TimeWithinDay (CalendarEvent.start sampleEvent) in
  CalendarEvent.start saved
  = MakeDate (Day (CalendarEvent.start sampleEvent - tz)) (9 * msPerHour) /\
  (time < tz ->
     Day (CalendarEvent.start saved) = Day (CalendarEvent.start sampleEvent) - 1) /\
  (tz <= time < msPerDay + tz ->
     Day (CalendarEvent.start saved) = Day (CalendarEvent.start sampleEvent)) /\
  (msPerDay + tz <= time ->
     Day (CalendarEvent.start saved) = Day (CalendarEvent.start sampleEvent) + 1) /\
  (time = 9 * msPerHour -> 9 * msPerHour - msPerDay < tz <= 9 * msPerHour ->
     CalendarEvent.start saved = CalendarEvent.start sampleEvent).
Proof.
  intros tz.
  apply (open_and_save_moves_to_the_utc_day tz sampleEvent);
    [vm_compute; discriminate|vm_compute; split; reflexivity].
Defined.

(** ** The schedule assistant *)

Lemma append_assoc (a b c : string) :
  String.append (String.append a b) c = String.append a (String.append b c).
Proof.
  induction a as [|x a IH]; [reflexivity|].
  change (String x (String.append (String.append a b) c)
          = String x (String.append a (String.append b c))).
  rewrite IH. reflexivity.
Qed.

Lemma prompt_first_fifty (toLocaleDateString : Z -> string)
    (stringify : list Gemini.EventDatum -> string)
    (events : list CalendarEvent.t) (query : string) :
  Gemini.prompt toLocaleDateString stringify events query
  = Gemini.prompt toLocaleDateString stringify (take 50 events) query.
Proof.
  unfold Gemini.prompt, Gemini.eventData.
  rewrite !firstn_map, firstn_firstn. reflexivity.
Qed.

(** X21.  Without a client the assistant answers at once with the notice of
    the missing key and asks nothing.  With a client it asks the model
    gemini-3-flash-preview once; what it sends holds the data of the first
    fifty events and of no other, so the call is the same for a list of
    events as for its first fifty.  A reply with a text that is not empty
    is answered with that text, a reply without text or with the empty text
    with "No insights available.", and a failure with the notice of
    trouble; so the answer is never the empty text. *)
Theorem assistant_sends_the_first_fifty_events
    (toLocaleDateString : Z -> string)
    (stringify : list Gemini.EventDatum -> string)
    (ai : option Gemini.Client)
    (events : list CalendarEvent.t) (query : string) :
  let call :=
    Gemini.analyzeSchedule toLocaleDateString stringify ai events query in
  call
  = Gemini.analyzeSchedule toLocaleDateString stringify ai (take 50 events)
      query /\
  (ai = None ->
   call
   = Gemini.Answer
       "Gemini API Key is missing. Please configure process.env.API_KEY in your deployment environment.") /\
  (forall client, ai = Some client ->
     exists andThen,
       call
       = Gemini.Ask "gemini-3-flash-preview"
           (Gemini.prompt toLocaleDateString stringify events query) andThen /\
       andThen (Gemini.Response None) = "No insights available." /\
       andThen (Gemini.Response (Some "")) = "No insights available." /\
       (forall text, text <> "" -> andThen (Gemini.Response (Some text)) = text) /\
       andThen Gemini.Failure
       = "I'm having trouble connecting to the AI service right now.") /\
  (exists before after,
     forall events',
       Gemini.prompt toLocaleDateString stringify events' query
       = String.append before
           (String.append
              (stringify (take 50 (Gemini.eventData toLocaleDateString events')))
              after)) /\
  (forall reply, answerTo call reply <> "").
Proof.
  cbv zeta. split; [|split; [|split; [|split]]].
  - unfold Gemini.analyzeSchedule.
    rewrite (prompt_first_fifty toLocaleDateString stringify events query).
    reflexivity.
  - intros ->. reflexivity.
  - intros client ->. eexists. split; [reflexivity|].
    split; [reflexivity|]. split; [reflexivity|]. split; [|reflexivity].
    intros text Ht. cbv beta iota.
    destruct (String.eqb_spec text ""); [contradiction|reflexivity].
  - exists (Gemini.newline
            ++ "    You are a Facility Management Assistant for the Chabad Russian Center & SIB JCC."
            ++ Gemini.newline
            ++ "    " ++ Gemini.newline
            ++ "    Here is the upcoming schedule data:" ++ Gemini.newline
            ++ "    ")%string,
      (" (Truncated to first 50 for brevity)" ++ Gemini.newline
       ++ "    " ++ Gemini.newline
       ++ "    User Query: " ++ Gemini.quote ++ query ++ Gemini.quote
       ++ Gemini.newline
       ++ "    " ++ Gemini.newline
       ++ "    Provide a concise, helpful summary or answer based on the schedule provided. "
       ++ Gemini.newline
       ++ "    Focus on conflicts, heavy maintenance days, or preparation needed for events."
       ++ Gemini.newline
       ++ "  ")%string.
    intros events'. unfold Gemini.prompt. rewrite !append_assoc. reflexivity.
  - intros reply. unfold Gemini.analyzeSchedule.
    destruct ai as [client|]; cbn [answerTo]; [|discriminate].
    destruct reply as [[text|]|]; [|discriminate|discriminate].
    destruct (String.eqb_spec text ""); [discriminate|assumption].
Qed.

(** ** Sessions *)

Lemma step_guarded s a : guarded s -> guarded (AppUI.step s a).
Proof.
  unfold guarded. destruct s as [d cur role tab rm ed lm pw fl].
  cbn [AppUI.editingEvent AppUI.userRole AppUI.activeTab].
  intros (He & Ht).
  destruct a as [env m| | |p| | |t| | |reqData id| | |now'|change|now' i j|i
                |confirmed i|formData|confirmed|];
    cbn [AppUI.step AppUI.userRole AppUI.showLoginModal AppUI.showRequestModal
         AppUI.activeTab AppUI.editingEvent AppUI.data].
  - split; assumption.
  - destruct role; split; assumption.
  - destruct lm; split; assumption.
  - destruct lm; split; assumption.
  - destruct lm; [|split; assumption]. unfold AppUI.handleLogin.
    cbn [AppUI.loginPassword].
    destruct (String.eqb pw "admin123"); [|split; assumption].
    split; reflexivity.
  - destruct role; [split; assumption|].
    split; [intros H; exfalso; apply H; reflexivity|discriminate].
  - destruct t; [split; [exact He|discriminate]|].
    destruct role; [split; assumption|]. split; reflexivity.
  - split; assumption.
  - destruct rm; split; assumption.
  - destruct rm; split; assumption.
  - destruct tab; split; assumption.
  - destruct tab; split; assumption.
  - destruct tab; split; assumption.
  - destruct tab; split; assumption.
  - destruct tab; [|split; assumption].
    destruct (AppUI.renderedEvent now' i j _); [|split; assumption].
    unfold AppUI.handleEventClick. cbn [AppUI.userRole].
    destruct role; [split; assumption|]. split; reflexivity.
  - destruct tab; [split; assumption|].
    destruct (App.requests d !! i); split; assumption.
  - destruct tab; [split; assumption|].
    destruct (App.requests d !! i); split; assumption.
  - destruct ed as [event|]; [|split; assumption].
    split; [intros H; exfalso; apply H; reflexivity|exact Ht].
  - destruct ed as [event|]; [|split; assumption].
    destruct confirmed; [|split; assumption].
    split; [intros H; exfalso; apply H; reflexivity|exact Ht].
  - destruct ed as [event|]; [|split; assumption].
    split; [intros H; exfalso; apply H; reflexivity|exact Ht].
Qed.

Lemma fold_guarded actions : forall s,
  guarded s -> guarded (fold_left AppUI.step actions s).
Proof.
  induction actions as [|a actions IH]; intros s H; cbn [fold_left].
  - exact H.
  - apply IH, step_guarded, H.
Qed.

Lemma run_guarded now actions : guarded (AppUI.run now actions).
Proof.
  apply fold_guarded. split; [intros H; exfalso; apply H; reflexivity|discriminate].
Qed.

(** X22.  In every session, whatever is done in whatever order, the edit
    dialog is open only for an admin, and the dashboard is the active tab only
    for an admin. *)
Theorem dialog_and_dashboard_need_an_admin (now : Z)
    (actions : list AppUI.Action) :
  let s := AppUI.run now actions in
  (forall event, AppUI.editingEvent s = Some event -> AppUI.userRole s = admin) /\
  (AppUI.activeTab s = adminTab -> AppUI.userRole s = admin).
Proof.
  cbv zeta. destruct (run_guarded now actions) as (He & Ht).
  split; [|exact Ht]. intros event E. apply He. rewrite E. discriminate.
Qed.

(** X23.  While the user is a viewer, nothing the user does changes the
    events, and the requests only grow, by the pending request the request
    dialog submits. *)
Theorem a_viewer_changes_no_event (now : Z) (actions : list AppUI.Action)
    (a : AppUI.Action) :
  AppUI.userRole (AppUI.run now actions) = viewer ->
  isStartUp a = false ->
  let s := AppUI.run now actions in
  let s' := AppUI.step s a in
  App.events (AppUI.data s') = App.events (AppUI.data s) /\
  (App.requests (AppUI.data s') = App.requests (AppUI.data s) \/
   exists r, App.requests (AppUI.data s') = r :: App.requests (AppUI.data s) /\
             Request.status r = pending).
Proof.
  intros Hrole Hstart. cbv zeta.
  pose proof (run_guarded now actions) as (He & Ht).
  destruct (AppUI.run now actions) as [d cur role tab rm ed lm pw fl].
  cbn [AppUI.editingEvent AppUI.userRole AppUI.activeTab AppUI.data] in *.
  subst role.
  assert (Etab : tab = calendarTab).
  { destruct tab; [reflexivity|]. specialize (Ht eq_refl). discriminate. }
  assert (Eed : ed = None).
  { destruct ed as [event|]; [|reflexivity].
    assert (viewer = admin) by (apply He; discriminate). discriminate. }
  subst tab ed.
  destruct a as [env m| | |p| | |t| | |reqData id| | |now'|change|now' i j|i
                |confirmed i|formData|confirmed|];
    try discriminate Hstart;
    cbn [AppUI.step AppUI.userRole AppUI.showLoginModal AppUI.showRequestModal
         AppUI.activeTab AppUI.editingEvent AppUI.data];
    try (split; [reflexivity|left; reflexivity]).
  - destruct lm; split; try reflexivity; left; reflexivity.
  - destruct lm; split; try reflexivity; left; reflexivity.
  - destruct lm; [|split; [reflexivity|left; reflexivity]].
    unfold AppUI.handleLogin. cbn [AppUI.loginPassword].
    destruct (String.eqb pw "admin123"); split; try reflexivity; left; reflexivity.
  - destruct t; split; try reflexivity; left; reflexivity.
  - destruct rm; split; try reflexivity; left; reflexivity.
  - destruct rm; [|split; [reflexivity|left; reflexivity]].
    split; [reflexivity|]. right. eexists. split; reflexivity.
  - destruct (AppUI.renderedEvent now' i j _);
      split; try reflexivity; left; reflexivity.
Qed.

Lemma a_viewer_changes_no_event_witness :
  let reqData :=
    {| App.title := "Fix AC"; App.date := DateValue.fromFields 2025 2 10 0 0;
       App.category := Maintenance; App.floor := Floor3; App.room := "Offices";
       App.description := "" |} in
  let s := AppUI.run clockJune2025 [AppUI.OpenRequest] in
  let s' := AppUI.step s (AppUI.SubmitRequest reqData "r1") in
  App.events (AppUI.data s') = App.events (AppUI.data s) /\
  (App.requests (AppUI.data s') = App.requests (AppUI.data s) \/
   exists r, App.requests (AppUI.data s') = r :: App.requests (AppUI.data s) /\
             Request.status r = pending).
Proof.
  intros reqData.
  apply (a_viewer_changes_no_event clockJune2025 [AppUI.OpenRequest]
           (AppUI.SubmitRequest reqData "r1")); reflexivity.
Defined.

(** X24.  A viewer becomes an admin in one way only: by submitting the login
    dialog, open, with the password admin123 typed in. *)
Theorem admin_only_by_the_password (s : AppUI.State) (a : AppUI.Action) :
  AppUI.userRole s = viewer ->
  (AppUI.userRole (AppUI.step s a) = admin <->
   a = AppUI.SubmitLogin /\ AppUI.showLoginModal s = true /\
   AppUI.loginPassword s = "admin123").
Proof.
  destruct s as [d cur role tab rm ed lm pw fl].
  cbn [AppUI.userRole AppUI.showLoginModal AppUI.loginPassword].
  intros ->. split.
  - destruct a as [env m| | |p| | |t| | |reqData id| | |now'|change|now' i j|i
                  |confirmed i|formData|confirmed|];
      cbn [AppUI.step AppUI.userRole AppUI.showLoginModal AppUI.showRequestModal
           AppUI.activeTab AppUI.editingEvent AppUI.data];
      try discriminate.
    + destruct lm; discriminate.
    + destruct lm; discriminate.
    + destruct lm; [|discriminate]. unfold AppUI.handleLogin.
      cbn [AppUI.loginPassword].
      destruct (String.eqb_spec pw "admin123"); [|discriminate]. auto.
    + destruct t; discriminate.
    + destruct rm; discriminate.
    + destruct rm; discriminate.
    + destruct tab; discriminate.
    + destruct tab; discriminate.
    + destruct tab; discriminate.
    + destruct tab; discriminate.
    + destruct tab; [|discriminate].
      destruct (AppUI.renderedEvent now' i j _); discriminate.
    + destruct tab; [discriminate|].
      destruct (App.requests d !! i); discriminate.
    + destruct tab; [discriminate|].
      destruct (App.requests d !! i); discriminate.
    + destruct ed; discriminate.
    + destruct ed; [|discriminate]. destruct confirmed; discriminate.
    + destruct ed; discriminate.
  - intros (-> & -> & ->). reflexivity.
Qed.

Lemma admin_only_by_the_password_witness :
  AppUI.userRole (AppUI.step passwordTyped AppUI.SubmitLogin) = admin <->
  AppUI.SubmitLogin = AppUI.SubmitLogin /\
  AppUI.showLoginModal passwordTyped = true /\
  AppUI.loginPassword passwordTyped = "admin123".
Proof.
  apply (admin_only_by_the_password passwordTyped AppUI.SubmitLogin).
  reflexivity.
Defined.

Lemma step_refines s a :
  exists acts,
    AppUI.data (AppUI.step s a) = fold_left App.step acts (AppUI.data s).
Proof.
  destruct s as [d cur role tab rm ed lm pw fl].
  destruct a as [env m| | |p| | |t| | |reqData id| | |now'|change|now' i j|i
                |confirmed i|formData|confirmed|];
    cbn [AppUI.step AppUI.userRole AppUI.showLoginModal AppUI.showRequestModal
         AppUI.activeTab AppUI.editingEvent AppUI.data].
  - exists [App.InitData env m]. reflexivity.
  - exists []. destruct role; reflexivity.
  - exists []. destruct lm; reflexivity.
  - exists []. destruct lm; reflexivity.
  - exists []. destruct lm; [|reflexivity]. unfold AppUI.handleLogin.
    cbn [AppUI.loginPassword]. destruct (String.eqb pw "admin123"); reflexivity.
  - exists []. destruct role; reflexivity.
  - exists []. destruct t; [reflexivity|]. destruct role; reflexivity.
  - exists []. reflexivity.
  - exists []. destruct rm; reflexivity.
  - destruct rm; [|exists []; reflexivity].
    exists [App.SubmitRequest reqData id]. reflexivity.
  - exists []. destruct tab; reflexivity.
  - exists []. destruct tab; reflexivity.
  - exists []. destruct tab; reflexivity.
  - exists []. destruct tab; reflexivity.
  - exists []. destruct tab; [|reflexivity].
    destruct (AppUI.renderedEvent now' i j _); [|reflexivity].
    unfold AppUI.handleEventClick. cbn [AppUI.userRole].
    destruct role; reflexivity.
  - destruct tab; [exists []; reflexivity|].
    destruct (App.requests d !! i) as [req|]; [|exists []; reflexivity].
    exists [App.ApproveRequest req]. reflexivity.
  - destruct tab; [exists []; reflexivity|].
    destruct (App.requests d !! i) as [req|]; [|exists []; reflexivity].
    exists [App.RejectRequest confirmed req]. reflexivity.
  - destruct ed as [event|]; [|exists []; reflexivity].
    exists [App.SaveEdit event formData]. reflexivity.
  - destruct ed as [event|]; [|exists []; reflexivity].
    destruct confirmed; [|exists []; reflexivity].
    exists [App.DeleteEvent (CalendarEvent.id event)]. reflexivity.
  - exists []. destruct ed; reflexivity.
Qed.

Lemma fold_refines actions : forall s acts0,
  AppUI.data s = App.run acts0 ->
  exists acts, AppUI.data (fold_left AppUI.step actions s) = App.run acts.
Proof.
  induction actions as [|a actions IH]; intros s acts0 H; cbn [fold_left].
  - exists acts0. exact H.
  - destruct (step_refines s a) as (acts1 & E).
    apply (IH _ (acts0 ++ acts1)).
    rewrite E, H. unfold App.run. rewrite fold_left_app. reflexivity.
Qed.

(** X25.  The data of every session is a state that calls of the handlers
    alone reach from the empty collections: the buttons, tabs and dialogs add
    no way of changing the data. So in every session no event ends before it
    starts. *)
Theorem a_session_only_calls_the_handlers (now : Z)
    (actions : list AppUI.Action) :
  (exists acts, AppUI.data (AppUI.run now actions) = App.run acts) /\
  Forall ordered (App.events (AppUI.data (AppUI.run now actions))).
Proof.
  assert (H : exists acts, AppUI.data (AppUI.run now actions) = App.run acts).
  { apply (fold_refines actions (AppUI.initial now) []). reflexivity. }
  split; [exact H|]. destruct H as (acts & ->).
  apply run_ordered. constructor.
Qed.

(** X26.  An event that can be clicked in the grid is an event of the
    collection that passes the filters; it starts on the day of its cell, and
    it is among the first four of that day. *)
Theorem a_clicked_event_is_shown (now : Z) (i j : nat) (s : AppUI.State)
    (event : CalendarEvent.t) :
  AppUI.renderedEvent now i j s = Some event ->
  In event (App.events (AppUI.data s)) /\
  CalendarView.isVisible (AppUI.filters s) event = true /\
  (j < 4)%nat /\
  exists ds day,
    CalendarView.days (AppUI.currentDate s) = Ok ds /\ ds !! i = Some day /\
    Day (CalendarEvent.start event) = Day day.
Proof.
  unfold AppUI.renderedEvent, CalendarControls.cells.
  destruct (CalendarView.days (AppUI.currentDate s)) as [ds| |];
    [|discriminate|discriminate].
  rewrite list_lookup_fmap.
  destruct (ds !! i) as [day|] eqn:Ei; cbn [fmap option_fmap option_map];
    [|discriminate].
  intros Hj.
  assert (Hin : In event
                  (CalendarControls.shown
                     (CalendarControls.cell (startOfMonth (AppUI.currentDate s))
                        now
                        (CalendarView.filteredEvents (App.events (AppUI.data s))
                           (AppUI.filters s)) day))).
  { apply list_elem_of_In. eapply list_elem_of_lookup_2. exact Hj. }
  destruct (cell_shows_visible_events _ _ _ _ _ _ Hin) as (H1 & H2 & H3).
  split; [exact H1|]. split; [exact H2|]. split.
  - apply lookup_lt_Some in Hj.
    cbn [CalendarControls.cell CalendarControls.shown] in Hj.
    rewrite length_take in Hj. lia.
  - exists ds, day. auto.
Qed.

Lemma a_clicked_event_is_shown_witness :
  let s :=
    AppUI.setData {| App.events := [sampleEvent]; App.requests := [] |}
      (AppUI.initial (DateValue.fromFields 2025 2 20 12 0)) in
  In sampleEvent (App.events (AppUI.data s)) /\
  CalendarView.isVisible (AppUI.filters s) sampleEvent = true /\
  (0 < 4)%nat /\
  exists ds day,
    CalendarView.days (AppUI.currentDate s) = Ok ds /\ ds !! 15%nat = Some day /\
    Day (CalendarEvent.start sampleEvent) = Day day.
Proof.
  intros s.
  apply (a_clicked_event_is_shown (DateValue.fromFields 2025 2 20 12 0)
           15 0 s sampleEvent).
  vm_compute. reflexivity.
Defined.

(** ** What the seed is made of *)

Lemma writes_pushFixed title year month date category floor room :
  writes (fun events =>
            pushFixed events title year month date category floor room)
    [(title, category, floor, room)].
Proof.
  intros events env m. rewrite pushFixed_run. cbv zeta. cbn [fst].
  eexists. split; reflexivity.
Qed.

Lemma writes_weeklyInspection yearStart current i :
  writes (fun events => weeklyInspection yearStart current events i)
    [("Chiller Inspection", Maintenance, Floor6, "Rooftop")].
Proof.
  intros events env m. unfold weeklyInspection.
  rewrite bind_run, Date_getDay_run. cbn [fst snd].
  rewrite bind_run, Date_getDate_run. cbn [fst snd]. cbv zeta.
  rewrite bind_run, Date_setDate_run. cbn [fst snd].
  rewrite bind_run, Date_ofValue_run. cbn [fst snd].
  rewrite bind_run, addWeeks_run. cbn [fst snd dates draws].
  rewrite bind_run, createEvent_run. cbv zeta. cbn [fst snd dates draws].
  unfold ret. cbn [fst].
  eexists. split; reflexivity.
Qed.

Lemma writes_ret : writes (fun events => ret events) [].
Proof.
  intros events env m. exists []. unfold ret. cbn [fst map].
  rewrite app_nil_r. split; reflexivity.
Qed.

Lemma writes_bind c1 c2 xs1 xs2 :
  writes c1 xs1 -> writes c2 xs2 ->
  writes (fun events => let* events' := c1 events in c2 events') (xs1 ++ xs2).
Proof.
  intros H1 H2 events env m. rewrite bind_run.
  destruct (H1 events env m) as (a1 & E1 & W1).
  destruct (H2 (fst (c1 events env m)) env (snd (c1 events env m)))
    as (a2 & E2 & W2).
  exists (a1 ++ a2). split.
  - rewrite E2, E1, app_assoc. reflexivity.
  - rewrite map_app, W1, W2. reflexivity.
Qed.

Lemma writes_foldM {B}
    (f : list CalendarEvent.t -> B -> M (list CalendarEvent.t))
    (xs : list (string * EventCategory * Floor * string)) (l : list B) :
  (forall x, writes (fun events => f events x) xs) ->
  writes (fun events => foldM f events l) (flat_map (fun _ => xs) l).
Proof.
  intros Hf. induction l as [|x l IH]; cbn [foldM flat_map].
  - apply writes_ret.
  - apply (writes_bind (fun events => f events x)
             (fun events => foldM f events l)).
    + apply Hf.
    + exact IH.
Qed.

(** The written parts of the seed are those of the seed of 2025, in every
    run. *)
Lemma seed_written env m :
  map written (fst (generateInitialData env m)) = map written seedOf2025.
Proof.
  unfold generateInitialData at 1. cbv zeta. rewrite generator_prefix.
  rewrite bind_run, Date_getFullYear_run. cbn [fst snd dates draws].
  match goal with
  | |- context [bind (pushFixed [] ?t ?y ?mo ?d ?c ?f ?r) ?k ?e ?mm] =>
      assert (B : exists xs,
                 writes (fun events => bind (pushFixed events t y mo d c f r) k)
                   xs /\ xs = map written seedOf2025);
      [|destruct B as (xs & W & <-); destruct (W [] e mm) as (added & E & <-);
        cbv beta in E; rewrite E; reflexivity]
  end.
  eexists. split.
  - eapply writes_bind; [apply writes_pushFixed|].
    eapply writes_bind; [apply writes_pushFixed|].
    eapply writes_bind.
    { eapply writes_foldM. intros x.
      eapply writes_bind; apply writes_pushFixed. }
    eapply writes_bind.
    { eapply writes_foldM. intros x.
      apply writes_weeklyInspection. }
    eapply writes_bind.
    { eapply writes_foldM. intros x. apply writes_pushFixed. }
    eapply writes_bind.
    { eapply writes_foldM. intros x. apply writes_pushFixed. }
    do 11 (eapply writes_bind; [apply writes_pushFixed|]).
    eapply writes_bind; [apply writes_pushFixed|].
    apply writes_ret.
  - vm_compute. reflexivity.
Qed.

Lemma take_map_written (n : nat) (l l' : list CalendarEvent.t) :
  map written l = map written l' ->
  map CalendarEvent.category (take n l) = map CalendarEvent.category (take n l').
Proof.
  intros H.
  apply (f_equal (fun xs => map (fun x => snd (fst (fst x))) (take n xs))) in H.
  rewrite <- !firstn_map, !map_map in H. cbn [written fst snd] in H.
  rewrite <- !firstn_map. exact H.
Qed.

(** X27.  Titles, categories, floors and rooms of the seed are the same in
    every run, whatever the year, the draws and the store: 106 events, of
    which 83 are maintenance, 15 cleaning and 8 events. The first fifty are
    all maintenance, so of the seed the assistant, which is given the first
    fifty events, is told nothing but maintenance. *)
Theorem seed_is_made_of_the_same_events
    (toLocaleDateString : Z -> string) (env : Env) (m : Mem) :
  let seed := fst (generateInitialData env m) in
  map written seed = map written seedOf2025 /\
  map (fun c => length (List.filter (EventCategory_eqb c)
                          (map CalendarEvent.category seed)))
    [Maintenance; Cleaning; Event]
  = [83; 15; 8]%nat /\
  map Gemini.type (take 50 (Gemini.eventData toLocaleDateString seed))
  = repeat Maintenance 50.
Proof.
  cbv zeta. pose proof (seed_written env m) as W.
  split; [exact W|]. split.
  - pose proof (take_map_written 106 _ _ W) as C.
    rewrite !firstn_all2 in C
      by (apply (f_equal (@length _)) in W; rewrite !length_map in W;
          first [rewrite W|idtac]; vm_compute; lia).
    rewrite C. vm_compute. reflexivity.
  - unfold Gemini.eventData. rewrite firstn_map, map_map.
    change (map CalendarEvent.category
              (take 50 (fst (generateInitialData env m)))
            = repeat Maintenance 50).
    rewrite (take_map_written 50 _ _ W). vm_compute. reflexivity.
Qed.

(** * The view over the store *)

(** ** The functions of date-fns on objects *)

Lemma Date_getMonth_run l env m :
  Date.getMonth l env m = (MonthFromTime (dates m !!! l), m).
Proof. reflexivity. Qed.

Lemma Date_getTime_run l env m : Date.getTime l env m = (dates m !!! l, m).
Proof. reflexivity. Qed.

Lemma Date_setHours_run l hour min sec ms env m :
  Date.setHours l hour min sec ms env m
  = (DateValue.setHours (dates m !!! l) hour min sec ms,
     {| dates := <[l := DateValue.setHours (dates m !!! l) hour min sec ms]>
                   (dates m);
        draws := draws m |}).
Proof. reflexivity. Qed.

Lemma Date_setFullYear_run l year month date env m :
  Date.setFullYear l year month date env m
  = (DateValue.setFullYear (dates m !!! l) year month date,
     {| dates := <[l := DateValue.setFullYear (dates m !!! l) year month date]>
                   (dates m);
        draws := draws m |}).
Proof. reflexivity. Qed.

(** ** A function of date-fns that clones its argument adds one object,
    which holds what the function on time values gives. *)

Ltac run_step lemma :=
  rewrite bind_run, lemma; cbn [fst snd dates draws];
  rewrite ?lookup_fresh, ?insert_fresh.

Lemma StoreView_startOfDay_run date env m :
  StoreView.startOfDay date env m
  = (length (dates m),
     {| dates := dates m ++ [startOfDay (dates m !!! date)];
        draws := draws m |}).
Proof.
  unfold StoreView.startOfDay.
  run_step toDate_run. run_step Date_setHours_run. unfold ret, startOfDay, DateValue.getDay, DateValue.getDate,
    DateValue.getMonth, DateValue.getFullYear. cbv zeta. reflexivity.
Qed.

Lemma StoreView_startOfMonth_run date env m :
  StoreView.startOfMonth date env m
  = (length (dates m),
     {| dates := dates m ++ [startOfMonth (dates m !!! date)];
        draws := draws m |}).
Proof.
  unfold StoreView.startOfMonth.
  run_step toDate_run. run_step Date_setDate_run. run_step Date_setHours_run.
  unfold ret, startOfMonth, DateValue.getDay, DateValue.getDate,
    DateValue.getMonth, DateValue.getFullYear. cbv zeta. reflexivity.
Qed.

Lemma StoreView_endOfMonth_run date env m :
  StoreView.endOfMonth date env m
  = (length (dates m),
     {| dates := dates m ++ [endOfMonth (dates m !!! date)];
        draws := draws m |}).
Proof.
  unfold StoreView.endOfMonth.
  run_step toDate_run. run_step Date_getMonth_run.
  run_step Date_getFullYear_run. run_step Date_setFullYear_run.
  run_step Date_setHours_run. unfold ret, endOfMonth, DateValue.getDay, DateValue.getDate,
    DateValue.getMonth, DateValue.getFullYear. cbv zeta. reflexivity.
Qed.

Lemma StoreView_startOfWeek_run date env m :
  StoreView.startOfWeek date env m
  = (length (dates m),
     {| dates := dates m ++ [startOfWeek (dates m !!! date)];
        draws := draws m |}).
Proof.
  unfold StoreView.startOfWeek.
  run_step toDate_run. run_step Date_getDay_run. cbv zeta.
  run_step Date_getDate_run. run_step Date_setDate_run.
  run_step Date_setHours_run. unfold ret, startOfWeek, DateValue.getDay, DateValue.getDate,
    DateValue.getMonth, DateValue.getFullYear. cbv zeta. reflexivity.
Qed.

Lemma StoreView_endOfWeek_run date env m :
  StoreView.endOfWeek date env m
  = (length (dates m),
     {| dates := dates m ++ [endOfWeek (dates m !!! date)];
        draws := draws m |}).
Proof.
  unfold StoreView.endOfWeek.
  run_step toDate_run. run_step Date_getDay_run. cbv zeta.
  run_step Date_getDate_run. run_step Date_setDate_run.
  run_step Date_setHours_run. unfold ret, endOfWeek, DateValue.getDay, DateValue.getDate,
    DateValue.getMonth, DateValue.getFullYear. cbv zeta. reflexivity.
Qed.

Lemma insert_same (l : list Z) (c : loc) :
  (c < length l)%nat -> <[c := l !!! c]> l = l.
Proof.
  intros H. apply list_eq. intros i.
  destruct (decide (i = c)) as [->|Hne].
  - rewrite list_lookup_insert_eq by exact H.
    symmetry. apply list_lookup_lookup_total_lt. exact H.
  - apply list_lookup_insert_ne. congruence.
Qed.

(** The loop changes the object of [currentDate] and adds one clone for each
    day, which hold the days the loop on time values gives. *)
Lemma StoreView_eachDayLoop_run fuel : forall (c : loc) endTime acc env m vs,
  (c < length (dates m))%nat ->
  eachDayLoop fuel (dates m !!! c) endTime = Ok vs ->
  exists final,
    StoreView.eachDayLoop fuel c endTime acc env m
    = (Ok (acc ++ seq (length (dates m)) (length vs)),
       {| dates := <[c := final]> (dates m) ++ vs; draws := draws m |}).
Proof.
  induction fuel as [|fuel IH]; intros c endTime acc env m vs Hc Hpure;
    cbn [eachDayLoop] in Hpure; [discriminate|].
  cbn [StoreView.eachDayLoop]. rewrite bind_run, Date_getTime_run. cbn [fst snd].
  cbv beta. destruct (dates m !!! c <=? endTime) eqn:Hle.
  - destruct (eachDayLoop fuel _ endTime) as [rest| |] eqn:Hrest;
      [|discriminate|discriminate].
    injection Hpure as <-.
    rewrite bind_run, toDate_run. cbn [fst snd]. cbv zeta.
    rewrite bind_run, Date_getDate_run. cbn [fst snd dates].
    rewrite bind_run, Date_setDate_run. cbn [fst snd dates draws].
    rewrite bind_run, Date_setHours_run. cbn [fst snd dates draws].
    rewrite (lookup_total_app_l (dates m) [dates m !!! c] c) by exact Hc.
    rewrite list_lookup_total_insert_eq by (rewrite length_app; lia).
    rewrite list_insert_insert_eq.
    match goal with
    | |- context [StoreView.eachDayLoop fuel c endTime ?acc' env ?m1] =>
        destruct (IH c endTime acc' env m1 rest) as (final & E)
    end.
    + cbn [dates]. rewrite length_insert, length_app. lia.
    + cbn [dates].
      rewrite list_lookup_total_insert_eq by (rewrite length_app; lia).
      exact Hrest.
    + exists final. rewrite E. cbn [dates draws length].
      rewrite length_insert, length_app. cbn [length].
      rewrite list_insert_insert_eq, insert_app_l by exact Hc.
      rewrite <- !app_assoc. cbn [app].
      replace (length (dates m) + 1)%nat with (S (length (dates m))) by lia.
      reflexivity.
  - injection Hpure as <-. exists (dates m !!! c).
    unfold ret. cbn [length seq]. rewrite !app_nil_r, insert_same by exact Hc.
    destruct m; reflexivity.
Qed.

Lemma StoreView_eachDayOfInterval_run (a b : loc) env m vs :
  (b < length (dates m))%nat ->
  eachDayOfInterval (dates m !!! a) (dates m !!! b) = Ok vs ->
  exists final,
    StoreView.eachDayOfInterval a b env m
    = (Ok (seq (length (dates m) + 2) (length vs)),
       {| dates := dates m ++ [final; dates m !!! b] ++ vs;
          draws := draws m |}).
Proof.
  intros Hb Hpure. unfold eachDayOfInterval in Hpure.
  unfold StoreView.eachDayOfInterval.
  rewrite bind_run, toDate_run. cbn [fst snd].
  rewrite bind_run, toDate_run. cbn [fst snd dates draws].
  rewrite (lookup_total_app_l (dates m) _ b) by exact Hb.
  rewrite bind_run, Date_getTime_run. cbn [fst snd dates].
  rewrite bind_run, Date_getTime_run. cbn [fst snd dates].
  rewrite length_app. cbn [length].
  replace (length (dates m) + 1)%nat with (length (dates m ++ [dates m !!! a]))
    by (rewrite length_app; reflexivity).
  rewrite lookup_fresh.
  rewrite (lookup_total_app_l (dates m ++ [dates m !!! a])) 
    by (rewrite length_app; cbn [length]; lia).
  rewrite lookup_fresh.
  change (@lookup_total nat Z (list Z)) with (@lookup_total loc Z (list Z)) in *.
  destruct (negb (dates m !!! a <=? dates m !!! b)); [discriminate|].
  cbv zeta. rewrite bind_run, Date_setHours_run. cbn [fst snd dates draws].
  rewrite (lookup_total_app_l (dates m ++ [dates m !!! a]))
    by (rewrite length_app; cbn [length]; lia).
  rewrite lookup_fresh.
  match goal with
  | |- context [StoreView.eachDayLoop ?f ?c ?e [] env ?m1] =>
      destruct (StoreView_eachDayLoop_run f c e [] env m1 vs) as (final & E)
  end.
  - cbn [dates]. rewrite length_insert, !length_app. cbn [length]. lia.
  - cbn [dates].
    rewrite list_lookup_total_insert_eq by (rewrite !length_app; cbn [length]; lia).
    exact Hpure.
  - exists final. rewrite E. cbn [dates draws app].
    rewrite length_insert, !length_app. cbn [length].
    rewrite list_insert_insert_eq.
    rewrite insert_app_l by (rewrite length_app; cbn [length]; lia).
    rewrite insert_fresh, <- !app_assoc. cbn [app].
    replace (length (dates m) + 1 + 1)%nat with (length (dates m) + 2)%nat by lia.
    reflexivity.
Qed.

Lemma StoreView_isSameDay_run (a b : loc) env m :
  (b < length (dates m))%nat ->
  StoreView.isSameDay a b env m
  = (isSameDay (dates m !!! a) (dates m !!! b),
     {| dates := dates m
                 ++ [startOfDay (dates m !!! a); startOfDay (dates m !!! b)];
        draws := draws m |}).
Proof.
  intros Hb. unfold StoreView.isSameDay.
  rewrite bind_run, StoreView_startOfDay_run. cbn [fst snd].
  rewrite bind_run, StoreView_startOfDay_run. cbn [fst snd dates draws].
  rewrite (lookup_total_app_l (dates m) _ b) by exact Hb.
  rewrite bind_run, Date_getTime_run. cbn [fst snd dates].
  rewrite bind_run, Date_getTime_run. cbn [fst snd dates].
  rewrite (lookup_total_app_l (dates m ++ [startOfDay (dates m !!! a)]))
    by (rewrite length_app; cbn [length]; lia).
  rewrite !lookup_fresh. unfold ret, isSameDay.
  rewrite <- app_assoc. reflexivity.
Qed.

(** ** Computations that only add objects *)

Lemma yields_ret {A} (h : list Z) (a : A) : yields h (ret a) a.
Proof.
  intros env m k E. exists []. unfold ret. rewrite app_nil_r.
  destruct m; reflexivity.
Qed.

Lemma yields_bind {A B} (h : list Z) (c : M A) (k : A -> M B) (a : A) (b : B) :
  yields h c a -> yields h (k a) b -> yields h (bind c k) b.
Proof.
  intros Hc Hk env m k0 E. destruct (Hc env m k0 E) as (x1 & E1).
  rewrite bind_run, E1. cbn [fst snd].
  destruct (Hk env {| dates := dates m ++ x1; draws := draws m |} (k0 ++ x1))
    as (x2 & E2).
  { cbn [dates]. rewrite E, app_assoc. reflexivity. }
  exists (x1 ++ x2). rewrite E2. cbn [dates draws]. rewrite app_assoc.
  reflexivity.
Qed.

Lemma yields_filterM {A} (h : list Z) (p : A -> M bool) (q : A -> bool)
    (l : list A) :
  (forall x, In x l -> yields h (p x) (q x)) ->
  yields h (filterM p l) (List.filter q l).
Proof.
  induction l as [|x l IH]; intros H; cbn [filterM List.filter].
  - apply yields_ret.
  - eapply yields_bind; [apply H; left; reflexivity|].
    eapply yields_bind; [apply IH; intros y Hy; apply H; right; exact Hy|].
    destruct (q x); apply yields_ret.
Qed.

Lemma yields_mapM {A B} (h : list Z) (f : A -> M B) (g : A -> B) (l : list A) :
  (forall x, In x l -> yields h (f x) (g x)) ->
  yields h (mapM f l) (map g l).
Proof.
  induction l as [|x l IH]; intros H; cbn [mapM map].
  - apply yields_ret.
  - eapply yields_bind; [apply H; left; reflexivity|].
    eapply yields_bind; [apply IH; intros y Hy; apply H; right; exact Hy|].
    apply yields_ret.
Qed.

Lemma yields_isSameDay (h : list Z) (a b : loc) :
  (a < length h)%nat -> (b < length h)%nat ->
  yields h (StoreView.isSameDay a b) (isSameDay (h !!! a) (h !!! b)).
Proof.
  intros Ha Hb env m k E. eexists.
  rewrite StoreView_isSameDay_run by (rewrite E, length_app; lia).
  rewrite E, !lookup_total_app_l by assumption. reflexivity.
Qed.

Lemma StoreView_eachDayOfInterval_run_at (a b : loc) env (l : list Z) (n : nat)
    vs :
  (b < length l)%nat ->
  eachDayOfInterval (l !!! a) (l !!! b) = Ok vs ->
  exists final,
    StoreView.eachDayOfInterval a b env {| dates := l; draws := n |}
    = (Ok (seq (length l + 2) (length vs)),
       {| dates := l ++ [final; l !!! b] ++ vs; draws := n |}).
Proof.
  intros Hb Hpure.
  exact (StoreView_eachDayOfInterval_run a b env {| dates := l; draws := n |}
           vs Hb Hpure).
Qed.

(** ** One rendering *)

Lemma lookups_seq (ds : list Z) : forall pre post,
  map (fun i => (pre ++ ds ++ post) !!! i) (seq (length pre) (length ds)) = ds.
Proof.
  induction ds as [|x ds IH]; intros pre post; cbn [length seq map];
    [reflexivity|].
  f_equal.
  - apply list_lookup_total_middle. reflexivity.
  - specialize (IH (pre ++ [x]) post).
    rewrite length_app, <- app_assoc in IH. cbn [length app] in IH.
    rewrite Nat.add_1_r in IH. exact IH.
Qed.

Lemma isVisible_snapshot filters m e :
  CalendarView.isVisible filters (snapshot m e) = StoreView.isVisible filters e.
Proof. reflexivity. Qed.

Lemma days_unfold t :
  CalendarView.days t
  = eachDayOfInterval (startOfWeek (startOfMonth t))
      (endOfWeek (endOfMonth (startOfMonth t))).
Proof. reflexivity. Qed.

(** The first part of a rendering: the four dates of the month and the
    days.  It adds the four dates, the two clones that [eachDayOfInterval]
    makes of the ends of the interval, the first of which the loop has moved
    on, and the days. *)
Lemma StoreView_days_run {A} (K : Result (list loc) -> M A) (d : loc) env m ds :
  allocated m d ->
  CalendarView.days (dates m !!! d) = Ok ds ->
  exists final,
    (let* monthStart := StoreView.startOfMonth d in
     let* monthEnd := StoreView.endOfMonth monthStart in
     let* startDate := StoreView.startOfWeek monthStart in
     let* endDate := StoreView.endOfWeek monthEnd in
     let* days := StoreView.eachDayOfInterval startDate endDate in
     K days) env m
    = K (Ok (seq (length (dates m) + 6) (length ds))) env
        {| dates :=
             dates m
             ++ [startOfMonth (dates m !!! d);
                 endOfMonth (startOfMonth (dates m !!! d));
                 startOfWeek (startOfMonth (dates m !!! d));
                 endOfWeek (endOfMonth (startOfMonth (dates m !!! d)));
                 final;
                 endOfWeek (endOfMonth (startOfMonth (dates m !!! d)))]
             ++ ds;
           draws := draws m |}.
Proof.
  unfold allocated. intros Hd Hdays.
  rewrite days_unfold in Hdays.
  rewrite bind_run, StoreView_startOfMonth_run. cbn [fst snd].
  rewrite bind_run, StoreView_endOfMonth_run. cbn [fst snd dates draws].
  rewrite lookup_fresh.
  rewrite bind_run, StoreView_startOfWeek_run. cbn [fst snd dates draws].
  rewrite (lookup_total_app_l (dates m ++ [startOfMonth (dates m !!! d)]))
    by (rewrite length_app; cbn [length]; lia).
  rewrite lookup_fresh.
  rewrite bind_run, StoreView_endOfWeek_run. cbn [fst snd dates draws].
  match goal with
  | |- context [((?y ++ [?x]) ++ [?z]) !!! length ?y] =>
      rewrite (lookup_total_app_l (y ++ [x]) [z] (length y))
        by (rewrite !length_app; cbn [length]; lia)
  end.
  rewrite lookup_fresh.
  rewrite bind_run.
  match goal with
  | |- context [StoreView.eachDayOfInterval ?a ?b env ?m4] =>
      destruct (StoreView_eachDayOfInterval_run a b env m4 ds) as (final & E)
  end.
  { cbn [dates]. rewrite !length_app. cbn [length]. lia. }
  { cbn [dates]. rewrite lookup_fresh.
    match goal with
    | |- context [((?y ++ [?x]) ++ [?z]) !!! length ?y] =>
        rewrite (lookup_total_app_l (y ++ [x]) [z] (length y))
          by (rewrite !length_app; cbn [length]; lia)
    end.
    rewrite lookup_fresh. exact Hdays. }
  exists final. rewrite E. clear E. cbn [fst snd dates draws].
  rewrite lookup_fresh.
  rewrite !length_app. cbn [length]. rewrite <- !app_assoc. cbn [app].
  replace (length (dates m) + 1 + 1 + 1 + 1 + 2)%nat
    with (length (dates m) + 6)%nat by lia.
  reflexivity.
Qed.

(** A rendering returns a grid and only adds objects to the store.  The days
    of the grid are new objects, which hold the days that the view on time
    values gives for the time value of the reference date; the bucket of a
    day holds the visible events whose start reads, in the store before the
    rendering, as a time on that day. *)
Lemma StoreView_grid_run (d : loc) events filters env m ds :
  allocated m d -> wellFormed m events ->
  CalendarView.days (dates m !!! d) = Ok ds ->
  exists g extra,
    StoreView.grid d events filters env m
    = (Ok g, {| dates := dates m ++ extra; draws := draws m |}) /\
    Forall (fun c => (length (dates m) <= fst c < length (dates m ++ extra))%nat)
      g /\
    map (fun c => (dates m ++ extra) !!! fst c) g = ds /\
    map snd g
    = map (fun day =>
             List.filter
               (fun e => isSameDay (dates m !!! EventObject.start e) day)
               (StoreView.filteredEvents events filters))
        ds.
Proof.
  intros Hd Hev Hdays. unfold StoreView.grid.
  match goal with
  | |- context [bind (StoreView.eachDayOfInterval _ _) ?K] =>
      destruct (StoreView_days_run K d env m ds Hd Hdays) as (final & E)
  end.
  rewrite E. clear E. cbv beta zeta.
  remember (dates m
            ++ [startOfMonth (dates m !!! d);
                endOfMonth (startOfMonth (dates m !!! d));
                startOfWeek (startOfMonth (dates m !!! d));
                endOfWeek (endOfMonth (startOfMonth (dates m !!! d)));
                final;
                endOfWeek (endOfMonth (startOfMonth (dates m !!! d)))])
    as pre eqn:Hpre.
  assert (Hbase : (length (dates m) + 6)%nat = length pre).
  { rewrite Hpre, length_app. reflexivity. }
  assert (Hstore : forall six,
             pre = dates m ++ six -> dates m ++ six ++ ds = pre ++ ds ++ []).
  { intros six ->. rewrite app_nil_r, <- app_assoc. reflexivity. }
  rewrite (Hstore _ Hpre), Hbase.
  remember (StoreView.filteredEvents events filters) as fe eqn:Hfe.
  remember (pre ++ ds ++ []) as h eqn:Hh.
  assert (Hpreh : exists k, h = dates m ++ k).
  { rewrite Hh, Hpre, <- app_assoc. eexists. reflexivity. }
  destruct Hpreh as (k & Hk).
  assert (Hlen : (length pre + length ds = length h)%nat).
  { rewrite Hh, !length_app. cbn [length]. lia. }
  assert (Hstart : forall e, In e fe ->
             (EventObject.start e < length (dates m))%nat).
  { intros e He. rewrite Hfe in He. unfold StoreView.filteredEvents in He.
    apply List.filter_In in He as (He & _).
    unfold wellFormed in Hev. rewrite Forall_forall in Hev.
    apply list_elem_of_In in He. destruct (Hev e He) as (Hs & _). exact Hs. }
  assert (Y : yields h
                (mapM (fun day =>
                         let* dayEvents := StoreView.dayEvents fe day in
                         ret (day, dayEvents))
                   (seq (length pre) (length ds)))
                (map (fun day : loc =>
                        (day,
                         List.filter
                           (fun e => isSameDay (h !!! EventObject.start e)
                                       (h !!! day))
                           fe))
                   (seq (length pre) (length ds)))).
  { apply yields_mapM. intros day Hday. apply in_seq in Hday.
    eapply yields_bind; [|apply yields_ret].
    unfold StoreView.dayEvents. apply yields_filterM. intros e He.
    apply yields_isSameDay.
    - rewrite Hk, length_app. specialize (Hstart e He). lia.
    - lia. }
  destruct (Y env {| dates := h; draws := draws m |} []) as (extra & EY).
  { cbn [dates]. rewrite app_nil_r. reflexivity. }
  rewrite bind_run, EY. unfold ret. cbn [fst snd dates draws].
  eexists _, (k ++ extra).
  assert (Hhx : h ++ extra = dates m ++ k ++ extra).
  { rewrite Hk, <- app_assoc. reflexivity. }
  split; [rewrite Hhx; reflexivity|]. rewrite <- Hhx. split; [|split].
  - apply Forall_forall. intros c Hc. apply list_elem_of_In in Hc.
    apply in_map_iff in Hc as (day & <- & Hday).
    apply in_seq in Hday. cbn [fst].
    assert (length (dates m) <= length pre)%nat
      by (rewrite Hpre, length_app; lia).
    rewrite length_app. lia.
  - rewrite map_map. cbn [fst]. rewrite Hh.
    rewrite <- (lookups_seq ds pre ([] ++ extra)) at 2.
    apply map_ext. intros day. rewrite <- !app_assoc. reflexivity.
  - rewrite map_map. cbn [snd].
    rewrite <- (lookups_seq ds pre []) at 2. rewrite <- Hh, map_map.
    apply map_ext. intros day. apply List.filter_ext_in. intros e He.
    rewrite Hk at 1.
    rewrite lookup_total_app_l by (apply Hstart; exact He). reflexivity.
Qed.

(** ** Rendering twice *)

Lemma map_pair {C D E} (f : C -> D) (s : C -> E) (B : D -> E) (g : list C) :
  forall ds,
    map f g = ds -> map s g = map B ds ->
    map (fun c => (f c, s c)) g = map (fun day => (day, B day)) ds.
Proof.
  induction g as [|c g IH]; intros ds Hf Hs; cbn [map] in *.
  - subst ds. reflexivity.
  - subst ds. cbn [map] in *. injection Hs as Hc Hs.
    rewrite Hc. f_equal. apply IH; [reflexivity|exact Hs].
Qed.

Lemma snapshot_extended (l extra : list Z) (n n' : nat) (e : EventObject.t) :
  (EventObject.start e < length l)%nat ->
  (EventObject.end_ e < length l)%nat ->
  snapshot {| dates := l ++ extra; draws := n' |} e
  = snapshot {| dates := l; draws := n |} e.
Proof.
  intros Hs He. unfold snapshot. cbn [dates].
  rewrite !lookup_total_app_l by assumption. reflexivity.
Qed.

Lemma wellFormed_extended (l extra : list Z) (n n' : nat) events :
  wellFormed {| dates := l; draws := n |} events ->
  wellFormed {| dates := l ++ extra; draws := n' |} events.
Proof.
  unfold wellFormed, allocated. cbn [dates]. intros H.
  eapply Forall_impl; [exact H|].
  intros e (Hs & He). cbv beta. rewrite length_app. lia.
Qed.

(** The buckets of the view on time values, for the events as they read in
    the store, are the buckets of the objects. *)
Lemma dayEvents_snapshot m events filters day :
  CalendarView.dayEvents
    (CalendarView.filteredEvents (map (snapshot m) events) filters) day
  = map (snapshot m)
      (List.filter (fun e => isSameDay (dates m !!! EventObject.start e) day)
         (StoreView.filteredEvents events filters)).
Proof.
  unfold CalendarView.dayEvents, CalendarView.filteredEvents,
    StoreView.filteredEvents.
  rewrite !filter_map_comm. reflexivity.
Qed.

(** What the grid of a rendering shows in a store that extends the store
    before the rendering. *)
Lemma shownGrid_value m m' events filters g ds :
  wellFormed m events ->
  (exists extra, dates m' = dates m ++ extra) ->
  map (fun c => dates m' !!! fst c) g = ds ->
  map snd g
  = map (fun day =>
           List.filter
             (fun e => isSameDay (dates m !!! EventObject.start e) day)
             (StoreView.filteredEvents events filters))
      ds ->
  shownGrid m' g
  = map (fun day =>
           (day,
            CalendarView.dayEvents
              (CalendarView.filteredEvents (map (snapshot m) events) filters)
              day))
      ds.
Proof.
  intros Hev (extra & Hx) Hf Hs. unfold shownGrid.
  apply (map_pair (fun c => dates m' !!! fst c)
           (fun c => map (snapshot m') (snd c))); [exact Hf|].
  rewrite <- (map_map snd (map (snapshot m'))), Hs, map_map.
  apply map_ext. intros day. rewrite dayEvents_snapshot.
  apply map_ext_in. intros e He.
  apply List.filter_In in He as (He & _).
  unfold StoreView.filteredEvents in He. apply List.filter_In in He as (He & _).
  unfold wellFormed, allocated in Hev. rewrite Forall_forall in Hev.
  apply list_elem_of_In in He. destruct (Hev e He) as (H1 & H2).
  unfold snapshot. rewrite Hx, !lookup_total_app_l by assumption. reflexivity.
Qed.

Lemma snapshots_extended m m' events :
  wellFormed m events ->
  (exists extra, dates m' = dates m ++ extra) ->
  map (snapshot m') events = map (snapshot m) events.
Proof.
  intros Hev (extra & Hx). apply map_ext_in. intros e He.
  unfold wellFormed, allocated in Hev. rewrite Forall_forall in Hev.
  apply list_elem_of_In in He. destruct (Hev e He) as (H1 & H2).
  unfold snapshot. rewrite Hx, !lookup_total_app_l by assumption. reflexivity.
Qed.

(** C8.  The view renders over the store of [Date] objects: the events name
    their dates by location, and the functions of date-fns call setters.  A
    rendering returns a grid and only adds objects to the store: no object
    that existed before, the dates of the events and the reference date
    among them, is changed, so the collection reads after it as before.
    Rendering a second time, in the store the first rendering left, for a
    reference date of the same month, with the same filters and the same
    events, gives a grid of new objects that shows the same: the same time
    values of the days, each with the same bucket of events.  What is shown
    is the grid of the view on time values for the events as they read in
    the store. *)
Theorem C8_grid_idempotent (d1 d2 : loc) (events : list EventObject.t)
    (filters : FilterState.t) (env1 env2 : Env) (m : Mem) :
  allocated m d1 -> allocated m d2 -> wellFormed m events ->
  DateValue.getFullYear (dates m !!! d1) = DateValue.getFullYear (dates m !!! d2) ->
  DateValue.getMonth (dates m !!! d1) = DateValue.getMonth (dates m !!! d2) ->
  let r1 := StoreView.grid d1 events filters env1 m in
  let r2 := StoreView.grid d2 events filters env2 (snd r1) in
  exists g1 g2 added1 added2,
    fst r1 = Ok g1 /\ fst r2 = Ok g2 /\
    shownGrid (snd r1) g1 = shownGrid (snd r2) g2 /\
    buckets g1 = buckets g2 /\
    CalendarView.grid (dates m !!! d1) (map (snapshot m) events) filters
    = Ok (shownGrid (snd r1) g1) /\
    dates (snd r1) = dates m ++ added1 /\
    dates (snd r2) = dates (snd r1) ++ added2 /\
    map (snapshot (snd r1)) events = map (snapshot m) events /\
    map (snapshot (snd r2)) events = map (snapshot m) events /\
    shownGrid (snd r2) g1 = shownGrid (snd r1) g1.
Proof.
  intros Hd1 Hd2 Hev Hy Hm. cbv zeta.
  destruct (days_first_last (dates m !!! d1)) as (n & D1 & _).
  remember (midnights
              (gridStart (YearFromTime (dates m !!! d1))
                 (MonthFromTime (dates m !!! d1))) (S n)) as ds eqn:Hds.
  clear Hds n.
  assert (D2 : CalendarView.days (dates m !!! d2) = CalendarView.days (dates m !!! d1))
    by (symmetry; apply days_same_month; assumption).
  destruct (StoreView_grid_run d1 events filters env1 m ds Hd1 Hev D1)
    as (g1 & x1 & E1 & F1 & V1 & B1).
  rewrite E1. cbn [fst snd].
  destruct m as [l k]. cbn [dates draws] in *.
  assert (Hd2' : allocated {| dates := l ++ x1; draws := k |} d2).
  { unfold allocated in *. cbn [dates] in *. rewrite length_app. lia. }
  assert (Hev' : wellFormed {| dates := l ++ x1; draws := k |} events)
    by (apply (wellFormed_extended l x1 k k); exact Hev).
  assert (L2 : (l ++ x1) !!! d2 = l !!! d2)
    by (apply lookup_total_app_l; exact Hd2).
  destruct (StoreView_grid_run d2 events filters env2
              {| dates := l ++ x1; draws := k |} ds Hd2' Hev')
    as (g2 & x2 & E2 & F2 & V2 & B2).
  { cbn [dates]. rewrite L2, D2. exact D1. }
  rewrite E2. cbn [fst snd dates draws] in *.
  assert (B2' : map snd g2
                = map (fun day =>
                         List.filter
                           (fun e => isSameDay (l !!! EventObject.start e) day)
                           (StoreView.filteredEvents events filters))
                    ds).
  { rewrite B2. apply map_ext. intros day. apply List.filter_ext_in.
    intros e He. unfold StoreView.filteredEvents in He.
    apply List.filter_In in He as (He & _).
    unfold wellFormed, allocated in Hev. rewrite Forall_forall in Hev.
    apply list_elem_of_In in He. destruct (Hev e He) as (H1 & _).
    cbn [dates] in H1. rewrite lookup_total_app_l by exact H1. reflexivity. }
  assert (S1 := shownGrid_value {| dates := l; draws := k |}
                  {| dates := l ++ x1; draws := k |} events filters g1 ds Hev
                  (ex_intro _ x1 eq_refl) V1 B1).
  assert (S2 := shownGrid_value {| dates := l; draws := k |}
                  {| dates := (l ++ x1) ++ x2; draws := k |} events filters g2 ds
                  Hev (ex_intro _ (x1 ++ x2) (eq_sym (app_assoc l x1 x2)))
                  V2 B2').
  exists g1, g2, x1, x2.
  split; [reflexivity|]. split; [reflexivity|].
  split; [rewrite S1, S2; reflexivity|].
  split; [unfold buckets; rewrite B1, B2'; reflexivity|].
  split.
  { unfold CalendarView.grid. cbn [dates]. rewrite D1, S1. reflexivity. }
  split; [reflexivity|]. split; [reflexivity|].
  split.
  { apply (snapshots_extended {| dates := l; draws := k |}); [exact Hev|].
    exists x1. reflexivity. }
  split.
  { apply (snapshots_extended {| dates := l; draws := k |}); [exact Hev|].
    exists (x1 ++ x2). cbn [dates]. rewrite app_assoc. reflexivity. }
  rewrite S1.
  apply (shownGrid_value {| dates := l; draws := k |}
           {| dates := (l ++ x1) ++ x2; draws := k |} events filters g1 ds Hev
           (ex_intro _ (x1 ++ x2) (eq_sym (app_assoc l x1 x2)))); [|exact B1].
  rewrite <- V1. apply map_ext_in. intros c Hc. cbn [dates].
  rewrite Forall_forall in F1. apply list_elem_of_In in Hc.
  apply lookup_total_app_l. apply F1. exact Hc.
Qed.

(** Two reference dates in March 2025 and one event, whose dates are in the
    store. *)
Lemma C8_grid_idempotent_witness :
  let filters := FilterState.mk true true true None in
  let env1 := {| clock := clockJune2025; random := drawsA |} in
  let env2 := {| clock := clockNovember2025; random := drawsB |} in
  let r1 := StoreView.grid 0%nat [sampleEventObject] filters env1 marchStore in
  let r2 := StoreView.grid 1%nat [sampleEventObject] filters env2 (snd r1) in
  exists g1 g2 added1 added2,
    fst r1 = Ok g1 /\ fst r2 = Ok g2 /\
    shownGrid (snd r1) g1 = shownGrid (snd r2) g2 /\
    buckets g1 = buckets g2 /\
    CalendarView.grid (dates marchStore !!! 0%nat)
      (map (snapshot marchStore) [sampleEventObject]) filters
    = Ok (shownGrid (snd r1) g1) /\
    dates (snd r1) = dates marchStore ++ added1 /\
    dates (snd r2) = dates (snd r1) ++ added2 /\
    map (snapshot (snd r1)) [sampleEventObject]
    = map (snapshot marchStore) [sampleEventObject] /\
    map (snapshot (snd r2)) [sampleEventObject]
    = map (snapshot marchStore) [sampleEventObject] /\
    shownGrid (snd r2) g1 = shownGrid (snd r1) g1.
Proof.
  intros filters env1 env2.
  apply (C8_grid_idempotent 0%nat 1%nat [sampleEventObject] filters env1 env2
           marchStore).
  - unfold allocated. cbn. lia.
  - unfold allocated. cbn. lia.
  - repeat constructor; cbn; lia.
  - vm_compute. reflexivity.
  - vm_compute. reflexivity.
Defined.

(** The rendering of March 2025 from a store of four dates: 42 cells whose
    days are new objects, the event in the cell of 10 March, and 132 objects
    added, the four dates left as they were. *)
Example render_march_2025 :
  let r :=
    StoreView.grid 0%nat [sampleEventObject]
      (FilterState.mk true true true None)
      {| clock := clockJune2025; random := drawsA |} marchStore in
  (exists g,
     fst r = Ok g /\ length g = 42%nat /\
     map fst g = seq 10 42 /\
     g !! 15%nat = Some (25%nat, [sampleEventObject])) /\
  length (dates (snd r)) = 136%nat /\
  take 4 (dates (snd r)) = dates marchStore.
Proof.
  cbv zeta. split; [|split]; [|vm_compute; reflexivity..].
  eexists. split; [vm_compute; reflexivity|].
  split; [|split]; vm_compute; reflexivity.
Qed.
